(** * Cash-Pedal: total-cost-of-ownership engines and orchestrator

    A shallow embedding of
      - [enhanced_depreciation.py]   (class EnhancedDepreciationModel),
      - [models/maintenance/maintenance_utils.py] (class MaintenanceCalculator),
      - [zip_code_utils.py]          (get_regional_cost_multiplier),
      - [prediction_service.py]      (class PredictionService),
      - [utils/used_vehicle_estimator.py] (is_used_vehicle),
    followed by the properties of the specification that concern them and
    by further properties of the engines.

    Conventions of the embedding.
      - Python [int] is [Z]; Python [float] is [Q], exact rational
        arithmetic: a decimal literal such as [0.15] denotes the rational
        15/100 and no rounding takes place.  Equalities between amounts
        are therefore stated with [==] on [Q].
      - A [str] is a [string] of 8-bit characters; [lower] acts on A-Z.
      - A dict used as a table is an association list in insertion order;
        a dict used as a record is a [Record], with an [option] field for
        a key that may be absent.
      - A raised exception is the left summand of [exn + A]; the functions
        that can raise are written with [x <- m ;; k].
      - [datetime.now()] is the only ambient input of the program; the value
        it returns during a calculation is an explicit argument
        ([now : Datetime.t]) of every function that reads the clock.  One
        calculation sees one reading.
      - The engines whose modules are not among the sources (insurance,
        fuel, electricity, financing, vehicle database) are the fields of a
        record of total functions, [Collaborators.t], passed as [self]. *)

From Stdlib Require Import ZArith QArith Qabs List String Ascii Bool Lia Lqa.
From Stdlib Require Import DecimalString Permutation Sorted.
Import ListNotations.

Set Implicit Arguments.

(* ===================================================================== *)
(** * Python values used by the program                                    *)
(* ===================================================================== *)

Module Py.

Open Scope string_scope.

(** Exceptions the modelled code can raise. *)
Inductive key : Type :=
| StrKey (s : string)
| IntKey (z : Z).

Inductive exn : Type :=
| KeyError (k : key)
| IndexError
| ZeroDivisionError
| TypeError (msg : string).

Definition result (A : Type) : Type := (exn + A)%type.

Definition ret {A} (a : A) : result A := inr a.
Definition raise {A} (e : exn) : result A := inl e.
Definition bind {A B} (m : result A) (k : A -> result B) : result B :=
  match m with
  | inl e => inl e
  | inr a => k a
  end.

(** [d[key]] on a dict that may lack the key. *)
Definition subscript {A} (k : key) (v : option A) : result A :=
  match v with
  | Some a => ret a
  | None => raise (KeyError k)
  end.

(** [d.get(key, default)]. *)
Definition get {A} (v : option A) (default : A) : A :=
  match v with
  | Some a => a
  | None => default
  end.

(** Lookup in a table kept as an association list. *)
Fixpoint assoc {K V} (eqb : K -> K -> bool) (k : K) (d : list (K * V)) : option V :=
  match d with
  | [] => None
  | (k', v) :: rest => if eqb k k' then Some v else assoc eqb k rest
  end.

Definition dict_get {V} (d : list (string * V)) (k : string) (default : V) : V :=
  get (assoc String.eqb k d) default.

(** [x in xs] for a list of strings. *)
Definition str_in (x : string) (xs : list string) : bool :=
  existsb (String.eqb x) xs.

(** [needle in hay] for two strings: substring test. *)
Fixpoint contains (needle hay : string) : bool :=
  if String.prefix needle hay then true
  else match hay with
       | EmptyString => false
       | String _ rest => contains needle rest
       end.

(** [any(term in s for term in terms)]. *)
Definition any_in (terms : list string) (s : string) : bool :=
  existsb (fun term => contains term s) terms.

Definition is_upper (c : ascii) : bool :=
  let n := nat_of_ascii c in (65 <=? n)%nat && (n <=? 90)%nat.

Definition is_lower (c : ascii) : bool :=
  let n := nat_of_ascii c in (97 <=? n)%nat && (n <=? 122)%nat.

Definition lower_char (c : ascii) : ascii :=
  if is_upper c then ascii_of_nat (nat_of_ascii c + 32) else c.

Definition upper_char (c : ascii) : ascii :=
  if is_lower c then ascii_of_nat (nat_of_ascii c - 32) else c.

(** [s.lower()]. *)
Fixpoint lower (s : string) : string :=
  match s with
  | EmptyString => EmptyString
  | String c rest => String (lower_char c) (lower rest)
  end.

(** [s.replace(a, b)] for single characters. *)
Fixpoint replace_char (a b : ascii) (s : string) : string :=
  match s with
  | EmptyString => EmptyString
  | String c rest =>
      String (if Ascii.eqb c a then b else c) (replace_char a b rest)
  end.

(** [s.title()]: a cased character is upper-cased when it follows an
    uncased one (or starts the string) and lower-cased otherwise. *)
Fixpoint title_from (previous_is_cased : bool) (s : string) : string :=
  match s with
  | EmptyString => EmptyString
  | String c rest =>
      let cased := is_upper c || is_lower c in
      String (if previous_is_cased then lower_char c else upper_char c)
             (title_from cased rest)
  end.

Definition title (s : string) : string := title_from false s.

(** [range(lo, lo + n)]. *)
Fixpoint range_from (lo : Z) (n : nat) : list Z :=
  match n with
  | O => []
  | S n' => lo :: range_from (lo + 1) n'
  end.

(** [range(1, years + 1)]. *)
Definition range1 (years : Z) : list Z := range_from 1 (Z.to_nat years).

(** [len(xs)]. *)
Definition len {A} (xs : list A) : Z := Z.of_nat (List.length xs).

(** [xs[i]]: a negative position counts from the end of the list. *)
Definition item {A} (xs : list A) (i : Z) : result A :=
  let position := if (i <? 0)%Z then (len xs + i)%Z else i in
  if (position <? 0)%Z then raise IndexError
  else match nth_error xs (Z.to_nat position) with
       | Some a => ret a
       | None => raise IndexError
       end.

(** Binding of the keyword arguments of a call [f(k1=.., k2=..)] to a
    function that declares the parameters [declared] and no [**kwargs]:
    the first keyword that is not declared raises [TypeError]. *)
Fixpoint bind_keywords (declared passed : list string) : result unit :=
  match passed with
  | [] => ret tt
  | k :: rest =>
      if str_in k declared then bind_keywords declared rest
      else raise (TypeError ("got an unexpected keyword argument '" ++ k ++ "'"))
  end.

(** Comparisons of floats. *)
Definition Qleb (a b : Q) : bool := Qle_bool a b.
Definition Qltb (a b : Q) : bool := negb (Qle_bool b a).
Definition Qgtb (a b : Q) : bool := Qltb b a.
Definition Qeqb (a b : Q) : bool := Qeq_bool a b.

(** [max(a, b)] and [min(a, b)]: the first argument wins a tie. *)
Definition max (a b : Q) : Q := if Qgtb b a then b else a.
Definition min (a b : Q) : Q := if Qltb b a then b else a.

(** [a / b]: true division, raising on a zero divisor. *)
Definition div (a b : Q) : result Q :=
  if Qeqb b 0 then raise ZeroDivisionError else ret (a / b)%Q.

(** [sum(xs)]. *)
Definition sum (xs : list Q) : Q := fold_left Qplus xs 0%Q.

(** [int(a / b)] for two ints and a non-zero [b]: the quotient truncated
    toward zero. *)
Definition int_div (a b : Z) : Z := Z.quot a b.

(** [d[k] = v] on a dict kept in insertion order. *)
Fixpoint setitem {V} (d : list (string * V)) (k : string) (v : V)
  : list (string * V) :=
  match d with
  | [] => [(k, v)]
  | (k', v') :: rest =>
      if String.eqb k k' then (k', v) :: rest else (k', v') :: setitem rest k v
  end.

(** [str(n)] for an int. *)
Definition str_of_int (n : Z) : string :=
  DecimalString.NilZero.string_of_int (Z.to_int n).

(** [xs.sort(key=key)] for float keys: the sort is stable, so its result is
    that of inserting the elements one by one, each after the elements
    whose key is not greater. *)
Fixpoint insert_by {A} (key : A -> Q) (x : A) (sorted : list A) : list A :=
  match sorted with
  | [] => [x]
  | y :: rest =>
      if Qltb (key x) (key y) then x :: y :: rest
      else y :: insert_by key x rest
  end.

Definition sort_by {A} (key : A -> Q) (xs : list A) : list A :=
  fold_left (fun sorted x => insert_by key x sorted) xs [].

End Py.

Declare Scope py_scope.
Notation "x <- m ;; k" := (Py.bind m (fun x => k))
(at level 61, m at next level, right associativity) : py_scope.
Open Scope py_scope.

(* ===================================================================== *)
(** * enhanced_depreciation.py                                             *)
(* ===================================================================== *)

(** One entry of a depreciation schedule.  The enhanced model and the
  used-vehicle model of the orchestrator build dicts with different key
  sets; a key that one of them leaves out is [None]. *)
Module DepRow.
Record t : Type := mk {
  year : Z;
  ownership_year : option Z;
  vehicle_age : option Z;
  vehicle_value : Q;
  annual_depreciation : Q;
  cumulative_depreciation : option Q;
  depreciation_rate : Q;
  segment : option string;
  brand_multiplier : option Q;
  mileage_multiplier : option Q
}.
End DepRow.

Module EnhancedDepreciationModel.

Open Scope string_scope.
Open Scope Q_scope.

Definition brand_multipliers : list (string * Q) :=
  [ ("Toyota", 0.78); ("Honda", 0.80); ("Lexus", 0.75); ("Porsche", 0.82);
    ("Subaru", 0.88); ("Mazda", 0.90); ("Hyundai", 0.92); ("Kia", 0.94);
    ("Acura", 0.85);
    ("Ford", 1.00); ("Chevrolet", 1.02); ("GMC", 1.00); ("Buick", 0.98);
    ("Nissan", 1.03); ("Infiniti", 1.08); ("Volvo", 1.05);
    ("Volkswagen", 1.12); ("Mini", 1.15); ("Jaguar", 1.18);
    ("Land Rover", 1.20);
    ("BMW", 1.22); ("Mercedes-Benz", 1.25); ("Audi", 1.18);
    ("Cadillac", 1.20); ("Lincoln", 1.25); ("Genesis", 1.15);
    ("Chrysler", 1.30); ("Dodge", 1.28); ("Jeep", 1.10); ("Ram", 1.05);
    ("Fiat", 1.35); ("Alfa Romeo", 1.32);
    ("Tesla", 1.15); ("Rivian", 1.25); ("Lucid", 1.30) ].

(** A cumulative curve: year 1..15 to the fraction of value lost. *)
Definition curve : Type := list (Z * Q).

Definition curve_of (rates : list Q) : curve :=
  combine (Py.range_from 1 (List.length rates)) rates.

Definition segment_curves : list (string * curve) :=
  [ ("luxury", curve_of
      [0.25; 0.42; 0.55; 0.65; 0.72; 0.77; 0.81; 0.84; 0.86; 0.88;
       0.89; 0.90; 0.91; 0.92; 0.93]);
    ("electric", curve_of
      [0.30; 0.50; 0.65; 0.75; 0.82; 0.86; 0.89; 0.91; 0.92; 0.93;
       0.94; 0.95; 0.95; 0.95; 0.95]);
    ("truck", curve_of
      [0.15; 0.28; 0.38; 0.46; 0.53; 0.59; 0.64; 0.68; 0.71; 0.74;
       0.76; 0.78; 0.80; 0.82; 0.84]);
    ("sports", curve_of
      [0.22; 0.38; 0.50; 0.60; 0.68; 0.74; 0.78; 0.81; 0.83; 0.85;
       0.86; 0.87; 0.88; 0.89; 0.90]);
    ("suv", curve_of
      [0.18; 0.32; 0.43; 0.52; 0.60; 0.66; 0.71; 0.75; 0.78; 0.80;
       0.82; 0.83; 0.84; 0.85; 0.86]);
    ("compact", curve_of
      [0.20; 0.35; 0.47; 0.56; 0.64; 0.70; 0.75; 0.79; 0.82; 0.84;
       0.86; 0.87; 0.88; 0.89; 0.90]);
    ("sedan", curve_of
      [0.21; 0.36; 0.48; 0.58; 0.66; 0.72; 0.77; 0.81; 0.84; 0.86;
       0.88; 0.89; 0.90; 0.91; 0.92]);
    ("economy", curve_of
      [0.24; 0.40; 0.52; 0.62; 0.70; 0.76; 0.81; 0.84; 0.87; 0.89;
       0.90; 0.91; 0.92; 0.93; 0.94]) ].

Definition standard_curve : curve :=
  curve_of
    [0.20; 0.34; 0.45; 0.54; 0.62; 0.68; 0.73; 0.77; 0.80; 0.82;
     0.84; 0.85; 0.86; 0.87; 0.88].

Definition high_retention_models : list (string * list string) :=
  [ ("Toyota", ["Prius"; "Camry"; "Corolla"; "RAV4"; "Highlander"; "Sienna";
                "Tundra"; "Tacoma"]);
    ("Honda", ["Civic"; "Accord"; "CR-V"; "Pilot"; "Odyssey"; "Ridgeline"]);
    ("Subaru", ["Outback"; "Forester"; "Impreza"; "WRX"; "Crosstrek"]);
    ("Lexus", ["RX"; "ES"; "GX"; "LX"; "NX"]);
    ("Jeep", ["Wrangler"]);
    ("Ford", ["F-150"; "Bronco"]);
    ("Chevrolet", ["Corvette"; "Silverado"; "Tahoe"]);
    ("Porsche", ["911"; "Macan"; "Cayenne"]);
    ("Tesla", ["Model S"; "Model 3"]) ].

Definition poor_retention_models : list (string * list string) :=
  [ ("BMW", ["X6"; "7 Series"; "i3"; "i8"]);
    ("Mercedes-Benz", ["S-Class"; "SL-Class"; "G-Class"]);
    ("Audi", ["A8"; "R8"; "Q7"]);
    ("Cadillac", ["Escalade"; "CT6"]);
    ("Lincoln", ["Navigator"; "Continental"]);
    ("Chrysler", ["300"; "Pacifica"]);
    ("Fiat", ["500"; "500X"]);
    ("Jaguar", ["XJ"; "F-Type"]);
    ("Land Rover", ["Range Rover"; "Discovery"]) ].

(** ** _classify_vehicle_segment *)

Definition ev_terms : list string :=
  ["electric"; "ev"; "volt"; "leaf"; "prius prime"; "ioniq";
   "model s"; "model 3"; "model x"; "model y"; "i3"; "i4"; "ix";
   "etron"; "e-tron"; "taycan"; "lightning"; "bolt"; "clarity"].

Definition ev_makes : list string := ["tesla"; "rivian"; "lucid"].

Definition luxury_brands : list string :=
  ["bmw"; "mercedes-benz"; "audi"; "lexus"; "acura"; "infiniti";
   "cadillac"; "lincoln"; "genesis"; "volvo"; "jaguar"; "land rover";
   "porsche"; "maserati"; "bentley"; "rolls-royce"].

Definition sports_terms : list string :=
  ["corvette"; "mustang"; "camaro"; "challenger"; "charger";
   "911"; "cayman"; "boxster"; "gt"; "sport"; "rs"; "m3"; "m5";
   "amg"; "type r"; "sti"; "wrx"; "z"; "supra"; "nsx"].

Definition truck_terms : list string :=
  ["f-150"; "f-250"; "f-350"; "silverado"; "sierra"; "ram 1500";
   "ram 2500"; "tundra"; "tacoma"; "frontier"; "ridgeline";
   "colorado"; "canyon"; "ranger"; "gladiator"; "titan"].

Definition suv_terms : list string :=
  ["suburban"; "tahoe"; "yukon"; "expedition"; "navigator";
   "escalade"; "pilot"; "passport"; "ridgeline"; "highlander";
   "rav4"; "cr-v"; "hr-v"; "santa fe"; "tucson"; "sorento";
   "telluride"; "palisade"; "cx-5"; "cx-9"; "outback"; "forester";
   "ascent"; "pathfinder"; "armada"; "durango"; "grand cherokee";
   "cherokee"; "compass"; "renegade"; "wrangler"].

Definition compact_terms : list string :=
  ["civic"; "corolla"; "elantra"; "forte"; "sentra"; "versa";
   "mazda3"; "impreza"; "crosstrek"; "jetta"; "golf"].

Definition economy_terms : list string :=
  ["spark"; "mirage"; "rio"; "accent"; "yaris"; "fit"].

(** The tests of the seven [if] statements, in source order. *)
Definition is_electric (make_lower model_lower : string) : bool :=
  Py.any_in ev_terms model_lower || Py.str_in make_lower ev_makes.
Definition is_luxury (make_lower : string) : bool :=
  Py.str_in make_lower luxury_brands.
Definition is_sports (model_lower : string) : bool :=
  Py.any_in sports_terms model_lower.
Definition is_truck (model_lower : string) : bool :=
  Py.any_in truck_terms model_lower || Py.contains "truck" model_lower.
Definition is_suv (model_lower : string) : bool :=
  Py.any_in suv_terms model_lower || Py.contains "suv" model_lower.
Definition is_compact (model_lower : string) : bool :=
  Py.any_in compact_terms model_lower.
Definition is_economy (model_lower : string) : bool :=
  Py.any_in economy_terms model_lower.

Definition _classify_vehicle_segment (make model : string) : string :=
  let model_lower := Py.lower model in
  let make_lower := Py.lower make in
  if is_electric make_lower model_lower then "electric"
  else if is_luxury make_lower then "luxury"
  else if is_sports model_lower then "sports"
  else if is_truck model_lower then "truck"
  else if is_suv model_lower then "suv"
  else if is_compact model_lower then "compact"
  else if is_economy model_lower then "economy"
  else "sedan".

(** ** _get_cumulative_depreciation_rate *)

(** [curve[year]]. *)
Definition curve_at (c : curve) (year : Z) : Py.result Q :=
  Py.subscript (Py.IntKey year) (Py.assoc Z.eqb year c).

Definition _get_cumulative_depreciation_rate (year : Z) (segment : string)
  : Py.result Q :=
  let curve := Py.dict_get segment_curves segment standard_curve in
  if (year <=? 15)%Z then curve_at curve year
  else
    final_rate <- curve_at curve 15 ;;
    let additional_years := (year - 15)%Z in
    Py.ret (Py.min 0.96 (final_rate + inject_Z additional_years * 0.005)).

(** ** _calculate_mileage_impact *)

Definition standard_mileage : Q := 12000.

Definition _calculate_mileage_impact (annual_mileage : Q) : Q :=
  if Py.Qleb annual_mileage 100 then 0.60
  else if Py.Qleb annual_mileage 1000 then
    let ratio := (annual_mileage - 100) / 900 in
    0.60 + ratio * 0.15
  else if Py.Qleb annual_mileage 5000 then
    let ratio := (annual_mileage - 1000) / 4000 in
    0.75 + ratio * 0.10
  else if Py.Qleb annual_mileage standard_mileage then
    let ratio := annual_mileage / standard_mileage in
    0.85 + ratio * 0.15
  else if Py.Qleb annual_mileage 20000 then
    let excess_ratio := (annual_mileage - standard_mileage) / 8000 in
    1.0 + excess_ratio * 0.25
  else
    Py.min 1.5 (1.25 + (annual_mileage - 20000) / 20000 * 0.25).

(** ** _apply_model_specific_adjustments *)

Definition model_listed (table : list (string * list string))
           (make model : string) : bool :=
  match Py.assoc String.eqb make table with
  | Some names =>
      existsb (fun model_name => Py.contains (Py.lower model_name) (Py.lower model))
              names
  | None => false
  end.

Definition _apply_model_specific_adjustments
           (make model : string) (base_multiplier : Q) : Q :=
  if model_listed high_retention_models make model then base_multiplier * 0.85
  else if model_listed poor_retention_models make model then base_multiplier * 1.15
  else base_multiplier.

(** ** calculate_depreciation_schedule *)

Definition max_depreciation : list (string * Q) :=
  [ ("luxury", 0.95); ("electric", 0.96); ("economy", 0.94);
    ("sedan", 0.92); ("compact", 0.91); ("suv", 0.88);
    ("truck", 0.85); ("sports", 0.90) ].

(** [schedule[-1]]. *)
Definition last_row (schedule : list DepRow.t) : Py.result DepRow.t :=
  match rev schedule with
  | r :: _ => Py.ret r
  | [] => Py.raise Py.IndexError
  end.

(** One iteration of the [for year in range(1, years + 1)] loop: the row
    appended to [schedule]. *)
Definition schedule_step (initial_value : Q) (segment : string)
           (adjusted_brand_multiplier mileage_multiplier : Q)
           (schedule : list DepRow.t) (year : Z) : Py.result DepRow.t :=
  base_cumulative_rate <- _get_cumulative_depreciation_rate year segment ;;
  let adjusted_rate :=
    base_cumulative_rate * adjusted_brand_multiplier * mileage_multiplier in
  let cap := Py.dict_get max_depreciation segment 0.92 in
  let adjusted_rate := Py.min adjusted_rate cap in
  let new_value := initial_value * (1 - adjusted_rate) in
  annual_depreciation <-
    (if (year =? 1)%Z then Py.ret (initial_value - new_value)
     else
       previous <- last_row schedule ;;
       Py.ret (DepRow.vehicle_value previous - new_value)) ;;
  Py.ret {| DepRow.year := year;
            DepRow.ownership_year := None;
            DepRow.vehicle_age := None;
            DepRow.vehicle_value := new_value;
            DepRow.annual_depreciation := annual_depreciation;
            DepRow.cumulative_depreciation := Some (initial_value - new_value);
            DepRow.depreciation_rate := adjusted_rate;
            DepRow.segment := Some segment;
            DepRow.brand_multiplier := Some adjusted_brand_multiplier;
            DepRow.mileage_multiplier := Some mileage_multiplier |}.

Fixpoint schedule_loop (initial_value : Q) (segment : string)
         (adjusted_brand_multiplier mileage_multiplier : Q)
         (years : list Z) (schedule : list DepRow.t)
  : Py.result (list DepRow.t) :=
  match years with
  | [] => Py.ret schedule
  | year :: rest =>
      row <- schedule_step initial_value segment adjusted_brand_multiplier
                           mileage_multiplier schedule year ;;
      schedule_loop initial_value segment adjusted_brand_multiplier
                    mileage_multiplier rest (schedule ++ [row])
  end.

Definition calculate_depreciation_schedule
           (initial_value : Q) (vehicle_make vehicle_model : string)
           (model_year : Z) (annual_mileage : Z) (years : Z)
  : Py.result (list DepRow.t) :=
  let segment := _classify_vehicle_segment vehicle_make vehicle_model in
  let brand_multiplier := Py.dict_get brand_multipliers vehicle_make 1.0 in
  let adjusted_brand_multiplier :=
    _apply_model_specific_adjustments vehicle_make vehicle_model brand_multiplier in
  let mileage_multiplier := _calculate_mileage_impact (inject_Z annual_mileage) in
  schedule_loop initial_value segment adjusted_brand_multiplier
                mileage_multiplier (Py.range1 years) [].

(** ** estimate_current_value *)

(** The caps are written out a second time in this function, with the same
    entries as [max_depreciation]. *)
Definition estimate_max_depreciation : list (string * Q) :=
  [ ("luxury", 0.95); ("electric", 0.96); ("economy", 0.94);
    ("sedan", 0.92); ("compact", 0.91); ("suv", 0.88);
    ("truck", 0.85); ("sports", 0.90) ].

Definition estimate_current_value
           (initial_value : Q) (vehicle_make vehicle_model : string)
           (vehicle_age current_mileage : Z) : Py.result Q :=
  if (vehicle_age <=? 0)%Z then Py.ret initial_value
  else
    (* Calculate annual mileage *)
    annual_mileage <- Py.div (inject_Z current_mileage)
                             (inject_Z (Z.max vehicle_age 1)) ;;
    (* Get segment and adjustments *)
    let segment := _classify_vehicle_segment vehicle_make vehicle_model in
    let brand_multiplier := Py.dict_get brand_multipliers vehicle_make 1.0 in
    let adjusted_brand_multiplier :=
      _apply_model_specific_adjustments vehicle_make vehicle_model
                                        brand_multiplier in
    let mileage_multiplier := _calculate_mileage_impact annual_mileage in
    (* Get depreciation rate *)
    base_rate <- _get_cumulative_depreciation_rate vehicle_age segment ;;
    let final_rate := base_rate * adjusted_brand_multiplier * mileage_multiplier in
    (* Apply cap *)
    let cap := Py.dict_get estimate_max_depreciation segment 0.92 in
    let final_rate := Py.min final_rate cap in
    Py.ret (initial_value * (1 - final_rate)).

(** ** _get_retention_rating *)

Definition _get_retention_rating (brand_multiplier : Q) : string :=
  if Py.Qleb brand_multiplier 0.80 then "Exceptional"
  else if Py.Qleb brand_multiplier 0.90 then "Excellent"
  else if Py.Qleb brand_multiplier 1.00 then "Good"
  else if Py.Qleb brand_multiplier 1.10 then "Average"
  else if Py.Qleb brand_multiplier 1.20 then "Below Average"
  else "Poor".

(** ** _generate_enhanced_insights *)

Definition segment_advice : list (string * string) :=
  [ ("luxury",
     "Luxury vehicles depreciate rapidly in first 3-5 years, then stabilize");
    ("electric",
     "Electric vehicles face technology obsolescence risk affecting resale value");
    ("truck",
     "Trucks typically hold value very well, especially popular models like F-150");
    ("suv",
     "SUVs generally maintain strong resale value due to continued popularity");
    ("compact",
     "Compact cars offer predictable, moderate depreciation rates");
    ("sports",
     "Sports cars vary widely - iconic models may appreciate, others depreciate quickly") ].

Definition _generate_enhanced_insights
           (make model segment : string) (brand_multiplier : Q) : list string :=
  let insights : list string := [] in
  (* Brand insights *)
  let insights :=
    if Py.Qleb brand_multiplier 0.85 then
      app insights
          [String.append make " vehicles are known for exceptional value retention"]
    else if Py.Qleb 1.20 brand_multiplier then
      app insights
          [String.append make " vehicles typically experience faster depreciation, especially luxury models"]
    else insights in
  (* Segment insights *)
  let insights :=
    match Py.assoc String.eqb segment segment_advice with
    | Some advice => app insights [advice]
    | None => insights
    end in
  (* Model-specific insights *)
  let insights :=
    if model_listed high_retention_models make model then
      app insights
          [String.append "The "
             (String.append model
                " is a high-demand model with above-average value retention")]
    else insights in
  (* General insights *)
  let insights :=
    app insights
        ["Mileage significantly impacts resale value - consider driving patterns carefully"] in
  let insights :=
    app insights
        ["Well-maintained vehicles with service records depreciate more slowly"] in
  insights.

(** ** get_depreciation_insights *)

Module Insights.
Record t : Type := mk {
  market_segment : string;
  brand_adjustment : Q;
  scenarios : list (string * Q);
  retention_rating : string;
  key_insights : list string
}.
End Insights.

Definition scenario_mileages : list (string * Z) :=
  [ ("Low", 8000%Z); ("Average", 12000%Z); ("High", 18000%Z) ].

(** The loop "Calculate scenarios". *)
Fixpoint scenarios_loop (initial_value : Q) (vehicle_make vehicle_model : string)
         (years : Z) (cases : list (string * Z)) (scenarios : list (string * Q))
  : Py.result (list (string * Q)) :=
  match cases with
  | [] => Py.ret scenarios
  | (desc, mileage) :: rest =>
      schedule <- calculate_depreciation_schedule
                    initial_value vehicle_make vehicle_model 2024 mileage years ;;
      value <-
        (match schedule with
         | _ :: _ =>
             final <- last_row schedule ;;
             Py.ret (DepRow.vehicle_value final)
         | [] => Py.ret 0
         end) ;;
      scenarios_loop initial_value vehicle_make vehicle_model years rest
                     (Py.setitem scenarios (Py.lower desc) value)
  end.

Definition get_depreciation_insights
           (vehicle_make vehicle_model : string) (initial_value : Q) (years : Z)
  : Py.result Insights.t :=
  let segment := _classify_vehicle_segment vehicle_make vehicle_model in
  let brand_multiplier := Py.dict_get brand_multipliers vehicle_make 1.0 in
  let adjusted_multiplier :=
    _apply_model_specific_adjustments vehicle_make vehicle_model
                                      brand_multiplier in
  scenarios <- scenarios_loop initial_value vehicle_make vehicle_model years
                              scenario_mileages [] ;;
  Py.ret {| Insights.market_segment := segment;
            Insights.brand_adjustment := adjusted_multiplier;
            Insights.scenarios := scenarios;
            Insights.retention_rating := _get_retention_rating adjusted_multiplier;
            Insights.key_insights :=
              _generate_enhanced_insights vehicle_make vehicle_model segment
                                          adjusted_multiplier |}.

End EnhancedDepreciationModel.

(* ===================================================================== *)
(** * models/maintenance/maintenance_utils.py                              *)
(* ===================================================================== *)

(** One service line of a maintenance year.  The base schedule, the
    purchase adjustment and the lease adjustment build dicts with different
    key sets; a key that a builder leaves out is [None]. *)
Module Service.
Record t : Type := mk {
  service : string;
  frequency : Z;
  cost_per_service : Q;
  total_cost : Q;
  due_at_mileage : option Z;
  warranty_covered : option Q;
  shop_type : option string;
  interval_based : option bool
}.
End Service.

(** One year of a maintenance schedule. *)
Module MaintYear.
Record t : Type := mk {
  year : Z;
  total_mileage : Z;
  starting_year_mileage : option Z;
  ending_year_mileage : option Z;
  services : list Service.t;
  total_year_cost : Q;
  warranty_discount : option Q;
  brand_multiplier : option Q;
  shop_multiplier : option Q;
  regional_multiplier : option Q
}.
End MaintYear.

Module MaintenanceCalculator.

Open Scope string_scope.
Open Scope Z_scope.

(** The keys of [self.service_costs]. *)
Inductive service_type : Type :=
| oil_change | tire_rotation | air_filter | cabin_filter | brake_inspection
| brake_pads | brake_rotors | transmission_service | coolant_flush
| spark_plugs | timing_belt | major_service | differential_service
| fuel_filter | battery_replacement | alternator | starter | water_pump.

(** The key as the string the source writes. *)
Definition key_name (s : service_type) : string :=
  match s with
  | oil_change => "oil_change"
  | tire_rotation => "tire_rotation"
  | air_filter => "air_filter"
  | cabin_filter => "cabin_filter"
  | brake_inspection => "brake_inspection"
  | brake_pads => "brake_pads"
  | brake_rotors => "brake_rotors"
  | transmission_service => "transmission_service"
  | coolant_flush => "coolant_flush"
  | spark_plugs => "spark_plugs"
  | timing_belt => "timing_belt"
  | major_service => "major_service"
  | differential_service => "differential_service"
  | fuel_filter => "fuel_filter"
  | battery_replacement => "battery_replacement"
  | alternator => "alternator"
  | starter => "starter"
  | water_pump => "water_pump"
  end.

Definition service_costs (s : service_type) : Z :=
  match s with
  | oil_change => 65
  | tire_rotation => 25
  | air_filter => 35
  | cabin_filter => 45
  | brake_inspection => 50
  | brake_pads => 350
  | brake_rotors => 450
  | transmission_service => 200
  | coolant_flush => 150
  | spark_plugs => 180
  | timing_belt => 800
  | major_service => 400
  | differential_service => 120
  | fuel_filter => 85
  | battery_replacement => 180
  | alternator => 650
  | starter => 550
  | water_pump => 750
  end.

(** [self.service_intervals], in insertion order. *)
Definition service_intervals : list (service_type * Z) :=
  [ (oil_change, 7500); (tire_rotation, 7500); (air_filter, 15000);
    (cabin_filter, 15000); (brake_inspection, 15000);
    (transmission_service, 60000); (coolant_flush, 60000);
    (spark_plugs, 45000); (major_service, 30000);
    (differential_service, 45000); (fuel_filter, 30000) ].

Definition brand_multipliers : list (string * Q) :=
  [ ("Toyota", 0.85); ("Honda", 0.87); ("Mazda", 0.90); ("Hyundai", 0.92);
    ("Kia", 0.92); ("Nissan", 0.95); ("Subaru", 0.98); ("Chevrolet", 1.05);
    ("Ford", 1.08); ("Ram", 1.12); ("BMW", 1.35); ("Mercedes-Benz", 1.40);
    ("Audi", 1.32); ("Volkswagen", 1.15); ("Volvo", 1.25) ]%Q.

(** [service_type.replace('_', ' ').title()]. *)
Definition display_name (s : service_type) : string :=
  Py.title (Py.replace_char "_" " " (key_name s)).

(** The body of the inner [for service_type, interval in ...] loop: the
    number of services that fall due in [year], where [total_mileage] is the
    running total at the end of that year. *)
Definition services_this_year
           (annual_mileage starting_mileage total_mileage year interval : Z) : Z :=
  let previous_total_mileage := starting_mileage + annual_mileage * (year - 1) in
  let services_due_by_end_of_year := Py.int_div total_mileage interval in
  let services_due_by_end_of_previous_year :=
    Py.int_div previous_total_mileage interval in
  services_due_by_end_of_year - services_due_by_end_of_previous_year.

(** One pass of the inner loop: the dict appended to [year_services] for a
    service, if any. *)
Definition service_line
           (annual_mileage starting_mileage total_mileage year : Z)
           (entry : service_type * Z) : list Service.t :=
  let (service_type, interval) := entry in
  let previous_total_mileage :=
    starting_mileage + annual_mileage * (year - 1) in
  let services_due_by_end_of_previous_year :=
    Py.int_div previous_total_mileage interval in
  let services_this_year :=
    services_this_year annual_mileage starting_mileage total_mileage
                       year interval in
  if 0 <? services_this_year then
    [ {| Service.service := display_name service_type;
         Service.frequency := services_this_year;
         Service.cost_per_service := inject_Z (service_costs service_type);
         Service.total_cost :=
           inject_Z (service_costs service_type * services_this_year);
         Service.due_at_mileage :=
           Some ((services_due_by_end_of_previous_year + 1) * interval);
         Service.warranty_covered := None;
         Service.shop_type := None;
         Service.interval_based := None |} ]
  else [].

Definition year_services
           (annual_mileage starting_mileage total_mileage year : Z)
  : list Service.t :=
  flat_map (service_line annual_mileage starting_mileage total_mileage year)
           service_intervals.

(** The [for year in range(1, years + 1)] loop; [total_mileage] is the
    running total carried from one year to the next. *)
Fixpoint year_loop (annual_mileage starting_mileage : Z) (years : list Z)
         (total_mileage : Z) (schedule : list MaintYear.t) : list MaintYear.t :=
  match years with
  | [] => schedule
  | year :: rest =>
      let total_mileage := total_mileage + annual_mileage in
      let year_services :=
        year_services annual_mileage starting_mileage total_mileage year in
      let previous_total_mileage :=
        starting_mileage + annual_mileage * (year - 1) in
      year_loop annual_mileage starting_mileage rest total_mileage
        (schedule ++
         [ {| MaintYear.year := year;
              MaintYear.total_mileage := total_mileage;
              MaintYear.starting_year_mileage := Some previous_total_mileage;
              MaintYear.ending_year_mileage := Some total_mileage;
              MaintYear.services := year_services;
              MaintYear.total_year_cost :=
                Py.sum (map Service.total_cost year_services);
              MaintYear.warranty_discount := None;
              MaintYear.brand_multiplier := None;
              MaintYear.shop_multiplier := None;
              MaintYear.regional_multiplier := None |} ])
  end.

(** The parameters the method declares besides [self]. *)
Definition get_maintenance_schedule_parameters : list string :=
  ["annual_mileage"; "years"; "starting_mileage"].

Definition get_maintenance_schedule
           (annual_mileage years starting_mileage : Z) : list MaintYear.t :=
  year_loop annual_mileage starting_mileage (Py.range1 years)
            starting_mileage [].

(** ** The remaining tables of [__init__] *)

Definition shop_multipliers : list (string * Q) :=
  [ ("independent", 0.85); ("dealership", 1.20); ("specialist", 1.10) ]%Q.

Definition age_multipliers : list (Z * Q) :=
  [ (1, 0.7%Q); (2, 0.8%Q); (3, 1.0%Q); (4, 1.1%Q); (5, 1.2%Q); (6, 1.4%Q);
    (7, 1.6%Q); (8, 1.8%Q); (9, 2.0%Q); (10, 2.2%Q) ].

(** ** _calculate_routine_maintenance *)

(** The loop over [self.service_intervals.items()]. *)
Fixpoint routine_loop (annual_mileage : Z) (vehicle_make shop_type : string)
         (regional_multiplier : Q) (entries : list (service_type * Z))
         (annual_cost : Q) : Py.result Q :=
  match entries with
  | [] => Py.ret annual_cost
  | (service_type, interval) :: rest =>
      services_per_year <- Py.div (inject_Z annual_mileage) (inject_Z interval) ;;
      let base_cost := inject_Z (service_costs service_type) in
      (* Apply multipliers *)
      let brand_multiplier := Py.dict_get brand_multipliers vehicle_make 1.0%Q in
      let shop_multiplier := Py.dict_get shop_multipliers shop_type 1.0%Q in
      let adjusted_cost :=
        (base_cost * brand_multiplier * shop_multiplier * regional_multiplier)%Q in
      routine_loop annual_mileage vehicle_make shop_type regional_multiplier rest
                   (annual_cost + adjusted_cost * services_per_year)%Q
  end.

Definition _calculate_routine_maintenance
           (annual_mileage vehicle_age : Z) (vehicle_make shop_type : string)
           (regional_multiplier : Q) : Py.result Q :=
  routine_loop annual_mileage vehicle_make shop_type regional_multiplier
               service_intervals 0%Q.

(** ** _calculate_wear_maintenance *)

Definition driving_multipliers : list (string * Q) :=
  [ ("gentle", 0.8); ("normal", 1.0); ("aggressive", 1.3) ]%Q.

Definition _calculate_wear_maintenance
           (vehicle_age annual_mileage : Z) (driving_style vehicle_make
            shop_type : string) (regional_multiplier : Q) : Q :=
  (* Base wear cost increases with age *)
  let base_wear_cost := 200%Q in
  (* Age multiplier *)
  let age_multiplier :=
    Py.get (Py.assoc Z.eqb (Z.min vehicle_age 10) age_multipliers) 2.5%Q in
  (* Driving style multiplier *)
  let driving_multiplier := Py.dict_get driving_multipliers driving_style 1.0%Q in
  (* Mileage impact (higher mileage = more wear) *)
  let mileage_multiplier :=
    (1.0 + (inject_Z (Z.max 0 (annual_mileage - 12000)) / 12000) * 0.3)%Q in
  (* Brand and shop multipliers *)
  let brand_multiplier := Py.dict_get brand_multipliers vehicle_make 1.0%Q in
  let shop_multiplier := Py.dict_get shop_multipliers shop_type 1.0%Q in
  (base_wear_cost * age_multiplier * driving_multiplier * mileage_multiplier
   * brand_multiplier * shop_multiplier * regional_multiplier)%Q.

(** ** calculate_annual_maintenance *)

Definition calculate_annual_maintenance
           (vehicle_make : string) (vehicle_year current_year annual_mileage : Z)
           (driving_style shop_type : string) (regional_multiplier : Q)
  : Py.result Q :=
  let vehicle_age := current_year in
  (* Calculate routine maintenance *)
  routine_cost <- _calculate_routine_maintenance annual_mileage vehicle_age
                    vehicle_make shop_type regional_multiplier ;;
  (* Calculate wear-based maintenance *)
  let wear_cost :=
    _calculate_wear_maintenance vehicle_age annual_mileage driving_style
                                vehicle_make shop_type regional_multiplier in
  let total_annual_cost := (routine_cost + wear_cost)%Q in
  Py.ret total_annual_cost.

(** The alias method. *)
Definition calculate_annual_maintenance_cost
           (vehicle_make : string) (vehicle_year current_year annual_mileage : Z)
           (driving_style shop_type : string) (regional_multiplier : Q)
  : Py.result Q :=
  calculate_annual_maintenance vehicle_make vehicle_year current_year
                               annual_mileage driving_style shop_type
                               regional_multiplier.

(** ** calculate_lease_maintenance *)

Definition calculate_lease_maintenance
           (vehicle_make : string) (vehicle_year lease_year annual_mileage : Z)
           (regional_multiplier : Q) : Py.result Q :=
  base_cost <- calculate_annual_maintenance vehicle_make vehicle_year lease_year
                 annual_mileage "normal" "dealership" regional_multiplier ;;
  (* Apply lease discount based on warranty coverage *)
  let warranty_discount :=
    if lease_year <=? 2 then 0.6%Q
    else if lease_year <=? 3 then 0.4%Q
    else 0.2%Q in
  Py.ret (base_cost * (1 - warranty_discount))%Q.

(** ** _get_reliability_rating *)

Definition _get_reliability_rating (make : string) : string :=
  let multiplier := Py.dict_get brand_multipliers make 1.0%Q in
  if Py.Qleb multiplier 0.90 then "Excellent"
  else if Py.Qleb multiplier 1.0 then "Good"
  else if Py.Qleb multiplier 1.15 then "Average"
  else if Py.Qleb multiplier 1.30 then "Below Average"
  else "Poor".

(** ** calculate_maintenance_comparison *)

(** One of the [vehicles] dicts. *)
Module Vehicle.
Record t : Type := mk {
  make : option string;
  year : option Z;
  model : option string;
  annual_mileage : option Z;
  driving_style : option string;
  shop_type : option string;
  regional_multiplier : option Q
}.
End Vehicle.

Module ComparisonRow.
Record t : Type := mk {
  vehicle : string;
  total_maintenance_cost : Q;
  average_annual_cost : Q;
  reliability_rating : string
}.
End ComparisonRow.

Module Comparison.
Record t : Type := mk {
  vehicles : list ComparisonRow.t;
  lowest_cost : ComparisonRow.t;
  highest_cost : ComparisonRow.t;
  cost_difference : Q;
  analysis_years : Z
}.
End Comparison.

(** The inner loop [for year in range(1, years + 1)]. *)
Fixpoint comparison_years (vehicle : Vehicle.t) (years : list Z)
         (total_maintenance_cost : Q) : Py.result Q :=
  match years with
  | [] => Py.ret total_maintenance_cost
  | year :: rest =>
      make <- Py.subscript (Py.StrKey "make") (Vehicle.make vehicle) ;;
      vehicle_year <- Py.subscript (Py.StrKey "year") (Vehicle.year vehicle) ;;
      annual_cost <-
        calculate_annual_maintenance make vehicle_year year
          (Py.get (Vehicle.annual_mileage vehicle) 12000)
          (Py.get (Vehicle.driving_style vehicle) "normal")
          (Py.get (Vehicle.shop_type vehicle) "independent")
          (Py.get (Vehicle.regional_multiplier vehicle) 1.0%Q) ;;
      comparison_years vehicle rest (total_maintenance_cost + annual_cost)%Q
  end.

(** The dict appended to [comparison_results] for one vehicle. *)
Definition comparison_row (vehicle : Vehicle.t) (years : Z)
  : Py.result ComparisonRow.t :=
  total_maintenance_cost <- comparison_years vehicle (Py.range1 years) 0%Q ;;
  vehicle_year <- Py.subscript (Py.StrKey "year") (Vehicle.year vehicle) ;;
  make <- Py.subscript (Py.StrKey "make") (Vehicle.make vehicle) ;;
  model <- Py.subscript (Py.StrKey "model") (Vehicle.model vehicle) ;;
  average_annual_cost <- Py.div total_maintenance_cost (inject_Z years) ;;
  Py.ret {| ComparisonRow.vehicle :=
              Py.str_of_int vehicle_year ++ " " ++ make ++ " " ++ model;
            ComparisonRow.total_maintenance_cost := total_maintenance_cost;
            ComparisonRow.average_annual_cost := average_annual_cost;
            ComparisonRow.reliability_rating := _get_reliability_rating make |}.

(** The outer loop [for vehicle in vehicles]. *)
Fixpoint comparison_loop (vehicles : list Vehicle.t) (years : Z)
         (comparison_results : list ComparisonRow.t)
  : Py.result (list ComparisonRow.t) :=
  match vehicles with
  | [] => Py.ret comparison_results
  | vehicle :: rest =>
      row <- comparison_row vehicle years ;;
      comparison_loop rest years (comparison_results ++ [row])%list
  end.

Definition calculate_maintenance_comparison
           (vehicles : list Vehicle.t) (years : Z) : Py.result Comparison.t :=
  comparison_results <- comparison_loop vehicles years [] ;;
  (* Sort by total maintenance cost *)
  let comparison_results :=
    Py.sort_by ComparisonRow.total_maintenance_cost comparison_results in
  lowest_cost <- Py.item comparison_results 0 ;;
  highest_cost <- Py.item comparison_results (-1) ;;
  Py.ret {| Comparison.vehicles := comparison_results;
            Comparison.lowest_cost := lowest_cost;
            Comparison.highest_cost := highest_cost;
            Comparison.cost_difference :=
              (ComparisonRow.total_maintenance_cost highest_cost
               - ComparisonRow.total_maintenance_cost lowest_cost)%Q;
            Comparison.analysis_years := years |}.

End MaintenanceCalculator.

(* ===================================================================== *)
(** * zip_code_utils.py                                                    *)
(* ===================================================================== *)

Module ZipCodeUtils.

Open Scope string_scope.
Open Scope Q_scope.

Definition base_multipliers : list (string * Q) :=
  [ ("urban", 1.15); ("suburban", 1.0); ("rural", 0.85) ].

Definition high_cost_states : list string :=
  ["CA"; "NY"; "HI"; "MA"; "CT"; "NJ"; "AK"].

Definition low_cost_states : list string :=
  ["MS"; "AL"; "AR"; "WV"; "OK"; "KS"; "ND"; "SD"].

Definition get_regional_cost_multiplier (geography_type state : string) : Q :=
  let multiplier := Py.dict_get base_multipliers (Py.lower geography_type) 1.0 in
  if Py.str_in state high_cost_states then multiplier * 1.1
  else if Py.str_in state low_cost_states then multiplier * 0.9
  else multiplier.

End ZipCodeUtils.

(* ===================================================================== *)
(** * prediction_service.py: data                                          *)
(* ===================================================================== *)

(** The value of [datetime.now()]. *)
Module Datetime.
Record t : Type := mk {
  year : Z;
  month : Z;
  day : Z;
  hour : Z;
  minute : Z;
  second : Z
}.
End Datetime.

(** The [input_data] dict.  [make], [model] and [year] are read by subscript
    as the first step of every calculation and are plain fields; every other
    key may be absent ([None]): the source reads it with [.get(key, default)]
    on some paths and by subscript, raising [KeyError], on others. *)
Module InputData.
Record t : Type := mk {
  make : string;
  model : string;
  year : Z;
  state : option string;
  geography_type : option string;
  zip_code : option string;
  transaction_type : option string;
  analysis_years : option Z;
  price : option Q;
  trim_msrp : option Q;
  current_mileage : option Z;
  annual_mileage : option Z;
  financing_type : option string;
  financing_option : option string;
  loan_amount : option Q;
  interest_rate : option Q;
  loan_term : option Z;
  driving_style : option string;
  terrain : option string;
  shop_type : option string;
  driver_age : option Z;
  user_age : option Z;
  coverage_type : option string;
  num_household_vehicles : option Z;
  is_electric : option bool;
  electricity_rate : option Q;
  fuel_price : option Q;
  charging_preference : option string;
  charging_pref : option string;
  gross_income : option Q;
  lease_monthly_payment : option Q;
  lease_mileage_limit : option Z;
  down_payment : option Q
}.
End InputData.

(** The dict returned by [get_vehicle_characteristics]; every key is read
    with [.get]. *)
Module VehicleCharacteristics.
Record t : Type := mk {
  efficiency : option Q;
  mpg : option Q;
  mpge : option Q;
  is_electric : option bool;
  reliability_score : option Q;
  market_segment : option string
}.
End VehicleCharacteristics.

(** One entry of the financing schedule; only [annual_payment] is read. *)
Module FinancingRow.
Record t : Type := mk {
  annual_payment : option Q
}.
End FinancingRow.

(** The collaborators of the orchestrator whose modules are not part of the
    sources at hand (models/insurance/advanced_insurance.py,
    models/fuel/fuel_utils.py, models/fuel/electric_vehicle_utils.py,
    services/financial_analysis.py, data/vehicle_database.py).  They are
    parameters of the embedding: total functions of their arguments, in the
    order the orchestrator passes them. *)
Module Collaborators.
Record t : Type := mk {
  (* vehicle_value, vehicle_make, vehicle_year, driver_age, state,
     coverage_type, annual_mileage, num_vehicles, regional_multiplier,
     vehicle_model (None when the caller leaves it out) *)
  calculate_annual_premium :
    Q -> string -> Z -> Z -> string -> string -> Z -> Z -> Q ->
    option string -> Q;
  (* annual_mileage, mpg, fuel_price, driving_style, terrain *)
  calculate_annual_fuel_cost : Z -> Q -> Q -> string -> string -> Q;
  (* annual_mileage, vehicle_efficiency, electricity_rate, charging_preference *)
  calculate_annual_electricity_cost : Z -> Q -> Q -> string -> Q;
  (* loan_amount, interest_rate, loan_term_years, analysis_years *)
  calculate_loan_payments : Q -> Q -> Z -> Z -> list FinancingRow.t;
  (* make, model, year *)
  get_vehicle_characteristics : string -> string -> Z -> VehicleCharacteristics.t
}.
End Collaborators.

Module PurchaseRow.
Record t : Type := mk {
  year : Z;
  ownership_year : Z;
  vehicle_age : Z;
  vehicle_model_year : Z;
  cumulative_mileage : Z;
  depreciation : Q;
  maintenance : Q;
  maintenance_activities : list Service.t;
  insurance : Q;
  fuel_energy : Q;
  financing : Q;
  total_annual_cost : Q
}.
End PurchaseRow.

Module PurchaseTotals.
Record t : Type := mk {
  depreciation : Q;
  maintenance : Q;
  insurance : Q;
  fuel_energy : Q;
  financing : Q
}.
(** [category_totals.values()], in insertion order. *)
Definition values (c : t) : list Q :=
  [depreciation c; maintenance c; insurance c; fuel_energy c; financing c].
End PurchaseTotals.

Module LeaseRow.
Record t : Type := mk {
  year : Z;
  ownership_year : Z;
  lease_year : Z;
  vehicle_age : Z;
  vehicle_model_year : Z;
  lease_payment : Q;
  maintenance : Q;
  maintenance_activities : list Service.t;
  cumulative_mileage : Z;
  insurance : Q;
  fuel_energy : Q;
  fees_penalties : Q;
  total_annual_cost : Q
}.
End LeaseRow.

Module LeaseTotals.
Record t : Type := mk {
  lease_payments : Q;
  maintenance : Q;
  insurance : Q;
  fuel_energy : Q;
  fees_penalties : Q
}.
Definition values (c : t) : list Q :=
  [lease_payments c; maintenance c; insurance c; fuel_energy c; fees_penalties c].
End LeaseTotals.

Module Affordability.
Record t : Type := mk {
  annual_cost : Q;
  monthly_cost : Q;
  percentage_of_income : Q;
  is_affordable : bool;
  recommended_max_percentage : Q;
  monthly_budget_impact : Q;
  affordability_score : Q
}.
End Affordability.

Module Assumptions.
Record t : Type := mk {
  depreciation_method : string;
  maintenance_source : string;
  insurance_basis : string;
  fuel_prices : string;
  regional_adjustments : string;
  reliability_score : Q;
  market_segment : string;
  calculation_date : string;
  data_sources : list string
}.
End Assumptions.

Module PurchaseSummary.
Record t : Type := mk {
  total_ownership_cost : Q;
  average_annual_cost : Q;
  cost_per_mile : Q;
  final_vehicle_value : Q;
  total_depreciation : Q;
  purchase_price : Q;
  original_msrp : Q;
  is_used_vehicle : bool;
  total_tco_with_depreciation : Q;
  average_annual_tco : Q;
  cost_per_mile_tco : Q;
  out_of_pocket_total : Q
}.
End PurchaseSummary.

Module PurchaseResult.
Record t : Type := mk {
  summary : PurchaseSummary.t;
  annual_breakdown : list PurchaseRow.t;
  category_totals : PurchaseTotals.t;
  depreciation_schedule : list DepRow.t;
  financing_schedule : option (list FinancingRow.t);
  maintenance_schedule : list MaintYear.t;
  affordability : Affordability.t;
  vehicle_characteristics : VehicleCharacteristics.t;
  assumptions : Assumptions.t;
  display_total_cost : Q;
  display_includes_depreciation : bool
}.
End PurchaseResult.

Module LeaseSummary.
Record t : Type := mk {
  total_lease_cost : Q;
  average_annual_cost : Q;
  average_monthly_cost : Q;
  cost_per_mile : Q;
  down_payment : Q
}.
End LeaseSummary.

Module LeaseResult.
Record t : Type := mk {
  summary : LeaseSummary.t;
  annual_breakdown : list LeaseRow.t;
  category_totals : LeaseTotals.t;
  maintenance_schedule : list MaintYear.t;
  affordability : Affordability.t;
  vehicle_characteristics : VehicleCharacteristics.t;
  assumptions : Assumptions.t
}.
End LeaseResult.

(** What [calculate_total_cost_of_ownership] returns. *)
Inductive TcoResult : Type :=
| Purchase (r : PurchaseResult.t)
| Lease (r : LeaseResult.t).

(* ===================================================================== *)
(** * prediction_service.py: class PredictionService                       *)
(* ===================================================================== *)

(** The keys that [_update_results_structure_for_display] adds to a copy
    of the results; none of them is a key of the results themselves. *)
Module DisplayResults.
Record t (R : Type) : Type := mk {
  results : R;
  total_cost : Q;
  annual_cost : Q;
  cost_per_mile : Q;
  final_value : Q;
  depreciation : Q;
  maintenance : Q;
  insurance : Q;
  energy : Q;
  financing : Q;
  total_tco : Q;
  annual_operating_cost : Q;
  is_electric : bool
}.
End DisplayResults.

Module PredictionService.

Open Scope string_scope.
Open Scope Q_scope.

Section Service.

(** The collaborating engines held by the service object. *)
Variable self : Collaborators.t.

(** The reading of the clock during the calculation. *)
Variable now : Datetime.t.

(** ** _calculate_realistic_used_vehicle_depreciation *)

Definition used_brand_multipliers : list (string * Q) :=
  [ ("Toyota", 0.8); ("Honda", 0.8); ("Lexus", 0.7);
    ("BMW", 1.2); ("Mercedes-Benz", 1.2); ("Audi", 1.1);
    ("Chevrolet", 1.0); ("Ford", 1.0); ("Hyundai", 0.9) ].

Definition annual_rates_for (vehicle_age_at_purchase : Z) : list Q :=
  if (vehicle_age_at_purchase <=? 3)%Z then [0.08; 0.07; 0.06; 0.05; 0.04]
  else if (vehicle_age_at_purchase <=? 7)%Z then [0.05; 0.04; 0.04; 0.03; 0.03]
  else [0.03; 0.02; 0.02; 0.02; 0.02].

(** One iteration of the loop: the row appended, which also carries the
    next [current_value]. *)
Definition used_step (input_data : InputData.t) (initial_value : Q)
           (annual_rates : list Q) (brand_multiplier : Q)
           (current_year : Z) (current_value : Q) (year : Z)
  : Py.result DepRow.t :=
  base_rate <- Py.item annual_rates
                 (Z.min (year - 1) (Py.len annual_rates - 1)) ;;
  let adjusted_rate := base_rate * brand_multiplier in
  let annual_depreciation := current_value * adjusted_rate in
  let new_value := current_value - annual_depreciation in
  let min_value := initial_value * 0.15 in
  let new_value := Py.max new_value min_value in
  let annual_depreciation := current_value - new_value in
  let ownership_year := (current_year + year - 1)%Z in
  Py.ret {| DepRow.year := year;
            DepRow.ownership_year := Some ownership_year;
            DepRow.vehicle_age := Some (ownership_year - InputData.year input_data)%Z;
            DepRow.vehicle_value := new_value;
            DepRow.annual_depreciation := annual_depreciation;
            DepRow.cumulative_depreciation := None;
            DepRow.depreciation_rate := adjusted_rate;
            DepRow.segment := None;
            DepRow.brand_multiplier := None;
            DepRow.mileage_multiplier := None |}.

Fixpoint used_loop (input_data : InputData.t) (initial_value : Q)
         (annual_rates : list Q) (brand_multiplier : Q) (current_year : Z)
         (years : list Z) (current_value : Q) (schedule : list DepRow.t)
  : Py.result (list DepRow.t) :=
  match years with
  | [] => Py.ret schedule
  | year :: rest =>
      row <- used_step input_data initial_value annual_rates brand_multiplier
                       current_year current_value year ;;
      used_loop input_data initial_value annual_rates brand_multiplier
                current_year rest (DepRow.vehicle_value row) (schedule ++ [row])
  end.

Definition _calculate_realistic_used_vehicle_depreciation
           (input_data : InputData.t) (initial_value : Q) (analysis_years : Z)
  : Py.result (list DepRow.t) :=
  let current_year := Datetime.year now in
  let vehicle_age_at_purchase := (current_year - InputData.year input_data)%Z in
  let current_value := initial_value in
  let annual_rates := annual_rates_for vehicle_age_at_purchase in
  let brand_multiplier :=
    Py.dict_get used_brand_multipliers (InputData.make input_data) 1.0 in
  used_loop input_data initial_value annual_rates brand_multiplier current_year
            (Py.range1 analysis_years) current_value [].

(** ** _calculate_year_specific_wear_maintenance *)

Definition base_wear_costs : list (Z * Q) :=
  [ (4%Z, 100); (5%Z, 150); (6%Z, 200); (7%Z, 300); (8%Z, 400); (9%Z, 500);
    (10%Z, 600) ].

Definition wear_shop_multipliers : list (string * Q) :=
  [ ("dealership", 1.15); ("independent", 1.0); ("chain", 1.05);
    ("specialty", 1.1) ].

Definition _calculate_year_specific_wear_maintenance
           (vehicle_age : Z) (vehicle_make shop_type : string)
           (regional_multiplier : Q) : Q :=
  let base_cost :=
    Py.get (Py.assoc Z.eqb (Z.min vehicle_age 10) base_wear_costs) 600 in
  let brand_multiplier :=
    Py.dict_get MaintenanceCalculator.brand_multipliers vehicle_make 1.0 in
  let shop_multiplier := Py.dict_get wear_shop_multipliers shop_type 1.0 in
  base_cost * brand_multiplier * shop_multiplier * regional_multiplier.

(** ** _adjust_maintenance_schedule *)

Definition shop_multipliers : list (string * Q) :=
  [ ("dealership", 1.15); ("independent", 1.0); ("chain", 1.05);
    ("specialty", 1.1); ("diy", 0.5) ].

Definition adjust_service (brand_multiplier shop_multiplier regional_multiplier : Q)
           (shop_type : string) (service : Service.t) : Service.t :=
  let base_cost := Service.cost_per_service service in
  let adjusted_cost :=
    if Py.Qltb brand_multiplier 0.95 then base_cost * brand_multiplier
    else if Py.Qgtb brand_multiplier 1.25 then
      base_cost * Py.min brand_multiplier 1.4
    else base_cost * brand_multiplier in
  let final_cost_per_service :=
    adjusted_cost * shop_multiplier * regional_multiplier in
  let total_cost_for_service :=
    final_cost_per_service * inject_Z (Service.frequency service) in
  {| Service.service := Service.service service;
     Service.frequency := Service.frequency service;
     Service.cost_per_service := final_cost_per_service;
     Service.total_cost := total_cost_for_service;
     Service.due_at_mileage := None;
     Service.warranty_covered := None;
     Service.shop_type := Some shop_type;
     Service.interval_based := Some true |}.

(** [adjusted_total_cost += x] over a list of additions, starting from
    [start]. *)
Definition accumulate (start : Q) (additions : list Q) : Q :=
  fold_left Qplus additions start.

Definition adjust_year (vehicle_make shop_type : string)
           (brand_multiplier shop_multiplier regional_multiplier : Q)
           (year_data : MaintYear.t) : MaintYear.t :=
  let adjusted_services :=
    map (adjust_service brand_multiplier shop_multiplier regional_multiplier
                        shop_type)
        (MaintYear.services year_data) in
  let adjusted_total_cost :=
    accumulate 0 (map Service.total_cost adjusted_services) in
  let vehicle_age := MaintYear.year year_data in
  let wear_cost :=
    _calculate_year_specific_wear_maintenance vehicle_age vehicle_make
      shop_type regional_multiplier in
  let add_wear := (3 <? vehicle_age)%Z && Py.Qgtb wear_cost 100 in
  let adjusted_services :=
    if add_wear then
      app adjusted_services
      [ {| Service.service := "Additional Wear & Tear";
           Service.frequency := 1;
           Service.cost_per_service := wear_cost;
           Service.total_cost := wear_cost;
           Service.due_at_mileage := None;
           Service.warranty_covered := None;
           Service.shop_type := Some shop_type;
           Service.interval_based := Some false |} ]
    else adjusted_services in
  let adjusted_total_cost :=
    if add_wear then adjusted_total_cost + wear_cost else adjusted_total_cost in
  {| MaintYear.year := MaintYear.year year_data;
     MaintYear.total_mileage := MaintYear.total_mileage year_data;
     MaintYear.starting_year_mileage :=
       Some (Py.get (MaintYear.starting_year_mileage year_data) 0%Z);
     MaintYear.ending_year_mileage :=
       Some (Py.get (MaintYear.ending_year_mileage year_data) 0%Z);
     MaintYear.services := adjusted_services;
     MaintYear.total_year_cost := adjusted_total_cost;
     MaintYear.warranty_discount := None;
     MaintYear.brand_multiplier := Some brand_multiplier;
     MaintYear.shop_multiplier := Some shop_multiplier;
     MaintYear.regional_multiplier := Some regional_multiplier |}.

Definition _adjust_maintenance_schedule
           (base_schedule : list MaintYear.t) (vehicle_make shop_type : string)
           (regional_multiplier : Q) : list MaintYear.t :=
  let brand_multiplier :=
    Py.dict_get MaintenanceCalculator.brand_multipliers vehicle_make 1.0 in
  let shop_multiplier := Py.dict_get shop_multipliers shop_type 1.0 in
  let regional_multiplier := Py.max 0.8 (Py.min 1.3 regional_multiplier) in
  map (adjust_year vehicle_make shop_type brand_multiplier shop_multiplier
                   regional_multiplier)
      base_schedule.

(** ** _adjust_lease_maintenance_schedule *)

Definition lease_warranty_discount (lease_year : Z) : Q :=
  if (lease_year <=? 2)%Z then 0.6
  else if (lease_year <=? 3)%Z then 0.4
  else 0.2.

Definition adjust_lease_year (brand_multiplier shop_multiplier regional_multiplier : Q)
           (year_data : MaintYear.t) : MaintYear.t :=
  let lease_year := MaintYear.year year_data in
  let warranty_discount := lease_warranty_discount lease_year in
  let adjusted_services :=
    flat_map
      (fun service : Service.t =>
         let full_cost :=
           Service.cost_per_service service * brand_multiplier *
           shop_multiplier * regional_multiplier in
         let out_of_pocket_cost := full_cost * (1 - warranty_discount) in
         if Py.Qgtb out_of_pocket_cost 5 then
           [ {| Service.service := Service.service service;
                Service.frequency := Service.frequency service;
                Service.cost_per_service := out_of_pocket_cost;
                Service.total_cost :=
                  out_of_pocket_cost * inject_Z (Service.frequency service);
                Service.due_at_mileage := None;
                Service.warranty_covered :=
                  Some (full_cost * warranty_discount *
                        inject_Z (Service.frequency service));
                Service.shop_type := Some "dealership";
                Service.interval_based := Some true |} ]
         else [])
      (MaintYear.services year_data) in
  let adjusted_total_cost :=
    accumulate 0 (map Service.total_cost adjusted_services) in
  let wear_cost := 100 * brand_multiplier * regional_multiplier in
  let add_wear := (3 <? lease_year)%Z in
  let adjusted_services :=
    if add_wear then
      app adjusted_services
      [ {| Service.service := "Minor Wear Items";
           Service.frequency := 1;
           Service.cost_per_service := wear_cost;
           Service.total_cost := wear_cost;
           Service.due_at_mileage := None;
           Service.warranty_covered := Some 0;
           Service.shop_type := Some "dealership";
           Service.interval_based := Some false |} ]
    else adjusted_services in
  let adjusted_total_cost :=
    if add_wear then adjusted_total_cost + wear_cost else adjusted_total_cost in
  {| MaintYear.year := lease_year;
     MaintYear.total_mileage := MaintYear.total_mileage year_data;
     MaintYear.starting_year_mileage := None;
     MaintYear.ending_year_mileage := None;
     MaintYear.services := adjusted_services;
     MaintYear.total_year_cost := adjusted_total_cost;
     MaintYear.warranty_discount := Some warranty_discount;
     MaintYear.brand_multiplier := Some brand_multiplier;
     MaintYear.shop_multiplier := Some shop_multiplier;
     MaintYear.regional_multiplier := Some regional_multiplier |}.

Definition _adjust_lease_maintenance_schedule
           (base_schedule : list MaintYear.t) (vehicle_make : string)
           (regional_multiplier : Q) : list MaintYear.t :=
  let brand_multiplier :=
    Py.dict_get MaintenanceCalculator.brand_multipliers vehicle_make 1.0 in
  let shop_multiplier := 1.2 in
  map (adjust_lease_year brand_multiplier shop_multiplier regional_multiplier)
      base_schedule.

(** ** _calculate_lease_fees_and_penalties *)

Definition _calculate_lease_fees_and_penalties
           (actual_mileage allowed_mileage lease_year : Z) (vehicle_value : Q) : Q :=
  let fees := 0 in
  let fees :=
    if (allowed_mileage <? actual_mileage)%Z then
      let overage_miles := (actual_mileage - allowed_mileage)%Z in
      let overage_rate := 0.20 in
      fees + inject_Z overage_miles * overage_rate
    else fees in
  let wear_tear_rate := vehicle_value * 0.001 in
  fees + wear_tear_rate.

(** ** _calculate_affordability *)

Definition _calculate_affordability
           (annual_cost gross_income : Q) (transaction_type : string)
  : Py.result Affordability.t :=
  let monthly_cost := annual_cost / 12 in
  ratio <- Py.div annual_cost gross_income ;;
  let percentage_of_income := ratio * 100 in
  let recommended_max := 10 in
  let is_affordable := Py.Qleb percentage_of_income recommended_max in
  score <-
    (if Py.Qgtb percentage_of_income 0 then
       quotient <- Py.div recommended_max percentage_of_income ;;
       Py.ret (Py.min 100 (quotient * 100))
     else Py.ret 100) ;;
  Py.ret {| Affordability.annual_cost := annual_cost;
            Affordability.monthly_cost := monthly_cost;
            Affordability.percentage_of_income := percentage_of_income;
            Affordability.is_affordable := is_affordable;
            Affordability.recommended_max_percentage := recommended_max;
            Affordability.monthly_budget_impact := monthly_cost;
            Affordability.affordability_score := score |}.

(** ** _get_calculation_assumptions *)

Definition _get_calculation_assumptions
           (input_data : InputData.t)
           (vehicle_characteristics : VehicleCharacteristics.t)
  : Py.result Assumptions.t :=
  geography_type <- Py.subscript (Py.StrKey "geography_type")
                      (InputData.geography_type input_data) ;;
  state <- Py.subscript (Py.StrKey "state") (InputData.state input_data) ;;
  Py.ret {| Assumptions.depreciation_method := "Enhanced market-based model";
            Assumptions.maintenance_source :=
              "Manufacturer schedules + historical data";
            Assumptions.insurance_basis :=
              "State-specific rates with driver profile";
            Assumptions.fuel_prices := "Current regional averages";
            Assumptions.regional_adjustments :=
              geography_type ++ " geography in " ++ state;
            Assumptions.reliability_score :=
              Py.get (VehicleCharacteristics.reliability_score
                        vehicle_characteristics) 3.5;
            Assumptions.market_segment :=
              Py.get (VehicleCharacteristics.market_segment
                        vehicle_characteristics) "standard";
            Assumptions.calculation_date := "2025-08-08";
            Assumptions.data_sources :=
              [ "Manufacturer MSRP data";
                "Regional fuel price databases";
                "State insurance regulations";
                "Historical depreciation curves" ] |}.

(** ** _calculate_purchase_tco *)

Definition purchase_price_of (input_data : InputData.t) : Q :=
  Py.get (InputData.price input_data)
         (Py.get (InputData.trim_msrp input_data) 25000).

(** The "smarter used vehicle detection". *)
Definition detect_used_vehicle (input_data : InputData.t) (current_mileage : Z)
  : bool :=
  let current_year := Datetime.year now in
  let vehicle_age_at_purchase := (current_year - InputData.year input_data)%Z in
  if (0 <? vehicle_age_at_purchase)%Z then true
  else if (vehicle_age_at_purchase =? 0)%Z && (3000 <? current_mileage)%Z then true
  else false.

Definition purchase_depreciation_schedule
           (input_data : InputData.t) (purchase_price : Q)
           (analysis_years current_mileage : Z) : Py.result (list DepRow.t) :=
  if detect_used_vehicle input_data current_mileage then
    _calculate_realistic_used_vehicle_depreciation input_data purchase_price
                                                   analysis_years
  else
    annual_mileage <- Py.subscript (Py.StrKey "annual_mileage")
                        (InputData.annual_mileage input_data) ;;
    EnhancedDepreciationModel.calculate_depreciation_schedule
      purchase_price (InputData.make input_data) (InputData.model input_data)
      (InputData.year input_data) annual_mileage analysis_years.

Definition purchase_financing_schedule
           (input_data : InputData.t) (purchase_price : Q) (analysis_years : Z)
  : option (list FinancingRow.t) :=
  if negb (String.eqb (Py.get (InputData.financing_type input_data) "cash") "cash")
     || Py.Qgtb (Py.get (InputData.loan_amount input_data) 0) 0
     || match InputData.financing_option input_data with
        | Some option => String.eqb option "finance"
        | None => false
        end
  then
    let loan_amount :=
      Py.get (InputData.loan_amount input_data) (purchase_price * 0.8) in
    if Py.Qgtb loan_amount 0 then
      Some (Collaborators.calculate_loan_payments self
              loan_amount
              (Py.get (InputData.interest_rate input_data) 5.0)
              (Py.get (InputData.loan_term input_data) 5%Z)
              analysis_years)
    else None
  else None.

(** The body of the loop "Calculate costs for each year": the row stored in
    [annual_breakdown] for [year]. *)
Definition purchase_year
           (input_data : InputData.t)
           (vehicle_characteristics : VehicleCharacteristics.t)
           (regional_multiplier purchase_price : Q) (current_mileage : Z)
           (depreciation_schedule : list DepRow.t)
           (financing_schedule : option (list FinancingRow.t))
           (adjusted_maintenance_schedule : list MaintYear.t)
           (year : Z) : Py.result PurchaseRow.t :=
  let ownership_year := (2024 + year)%Z in
  (* Depreciation (from schedule) *)
  annual_depreciation <-
    (if (year <=? Py.len depreciation_schedule)%Z then
       if (year =? 1)%Z then
         this <- Py.item depreciation_schedule (year - 1) ;;
         Py.ret (purchase_price - DepRow.vehicle_value this)
       else
         previous <- Py.item depreciation_schedule (year - 2) ;;
         this <- Py.item depreciation_schedule (year - 1) ;;
         Py.ret (DepRow.vehicle_value previous - DepRow.vehicle_value this)
     else Py.ret 0) ;;
  (* Maintenance (from adjusted schedule) *)
  maintenance <-
    (if (year <=? Py.len adjusted_maintenance_schedule)%Z then
       year_data <- Py.item adjusted_maintenance_schedule (year - 1) ;;
       Py.ret (MaintYear.total_year_cost year_data, MaintYear.services year_data)
     else Py.ret (0, [])) ;;
  let annual_maintenance := fst maintenance in
  let maintenance_activities := snd maintenance in
  (* Insurance *)
  vehicle_value <-
    (if (year <=? Py.len depreciation_schedule)%Z then
       this <- Py.item depreciation_schedule (year - 1) ;;
       Py.ret (DepRow.vehicle_value this)
     else Py.ret (purchase_price * 0.5)) ;;
  state <- Py.subscript (Py.StrKey "state") (InputData.state input_data) ;;
  annual_mileage <- Py.subscript (Py.StrKey "annual_mileage")
                      (InputData.annual_mileage input_data) ;;
  let annual_insurance :=
    Collaborators.calculate_annual_premium self
      vehicle_value
      (InputData.make input_data)
      (InputData.year input_data)
      (Py.get (InputData.driver_age input_data) 35%Z)
      state
      (Py.get (InputData.coverage_type input_data) "comprehensive")
      annual_mileage
      (Py.get (InputData.num_household_vehicles input_data) 2%Z)
      regional_multiplier
      (Some (InputData.model input_data)) in
  (* Fuel/Energy costs *)
  let annual_fuel :=
    if Py.get (InputData.is_electric input_data) false then
      Collaborators.calculate_annual_electricity_cost self
        annual_mileage
        (Py.get (VehicleCharacteristics.efficiency vehicle_characteristics) 32)
        (Py.get (InputData.electricity_rate input_data) 0.12)
        (Py.get (InputData.charging_preference input_data) "mixed")
    else
      Collaborators.calculate_annual_fuel_cost self
        annual_mileage
        (Py.get (VehicleCharacteristics.mpg vehicle_characteristics) 25)
        (Py.get (InputData.fuel_price input_data) 3.50)
        (Py.get (InputData.driving_style input_data) "normal")
        (Py.get (InputData.terrain input_data) "mixed") in
  (* Financing costs *)
  annual_financing <-
    match financing_schedule with
    | Some (_ :: _ as schedule) =>
        if (year <=? Py.len schedule)%Z then
          payment <- Py.item schedule (year - 1) ;;
          Py.ret (Py.get (FinancingRow.annual_payment payment) 0)
        else Py.ret 0
    | _ => Py.ret 0
    end ;;
  let total_annual :=
    annual_depreciation + annual_maintenance + annual_insurance + annual_fuel
    + annual_financing in
  Py.ret {| PurchaseRow.year := year;
            PurchaseRow.ownership_year := ownership_year;
            PurchaseRow.vehicle_age := (ownership_year - InputData.year input_data)%Z;
            PurchaseRow.vehicle_model_year := InputData.year input_data;
            PurchaseRow.cumulative_mileage :=
              (current_mileage + annual_mileage * year)%Z;
            PurchaseRow.depreciation := annual_depreciation;
            PurchaseRow.maintenance := annual_maintenance;
            PurchaseRow.maintenance_activities := maintenance_activities;
            PurchaseRow.insurance := annual_insurance;
            PurchaseRow.fuel_energy := annual_fuel;
            PurchaseRow.financing := annual_financing;
            PurchaseRow.total_annual_cost := total_annual |}.

(** "Add to totals". *)
Definition add_to_totals (category_totals : PurchaseTotals.t) (row : PurchaseRow.t)
  : PurchaseTotals.t :=
  {| PurchaseTotals.depreciation :=
       PurchaseTotals.depreciation category_totals + PurchaseRow.depreciation row;
     PurchaseTotals.maintenance :=
       PurchaseTotals.maintenance category_totals + PurchaseRow.maintenance row;
     PurchaseTotals.insurance :=
       PurchaseTotals.insurance category_totals + PurchaseRow.insurance row;
     PurchaseTotals.fuel_energy :=
       PurchaseTotals.fuel_energy category_totals + PurchaseRow.fuel_energy row;
     PurchaseTotals.financing :=
       PurchaseTotals.financing category_totals + PurchaseRow.financing row |}.

(** The loop [for year in range(1, analysis_years + 1)], threading
    [annual_breakdown] and [category_totals]. *)
Fixpoint purchase_loop
         (input_data : InputData.t)
         (vehicle_characteristics : VehicleCharacteristics.t)
         (regional_multiplier purchase_price : Q) (current_mileage : Z)
         (depreciation_schedule : list DepRow.t)
         (financing_schedule : option (list FinancingRow.t))
         (adjusted_maintenance_schedule : list MaintYear.t)
         (years : list Z)
         (annual_breakdown : list PurchaseRow.t)
         (category_totals : PurchaseTotals.t)
  : Py.result (list PurchaseRow.t * PurchaseTotals.t) :=
  match years with
  | [] => Py.ret (annual_breakdown, category_totals)
  | year :: rest =>
      row <- purchase_year input_data vehicle_characteristics
               regional_multiplier purchase_price current_mileage
               depreciation_schedule financing_schedule
               adjusted_maintenance_schedule year ;;
      purchase_loop input_data vehicle_characteristics regional_multiplier
        purchase_price current_mileage depreciation_schedule
        financing_schedule adjusted_maintenance_schedule rest
        (annual_breakdown ++ [row]) (add_to_totals category_totals row)
  end.

Definition initial_purchase_totals : PurchaseTotals.t :=
  {| PurchaseTotals.depreciation := 0;
     PurchaseTotals.maintenance := 0;
     PurchaseTotals.insurance := 0;
     PurchaseTotals.fuel_energy := 0;
     PurchaseTotals.financing := 0 |}.

(** The part of [_calculate_purchase_tco] that follows the construction of
    the three schedules: the yearly loop, the final metrics and the result
    dict. *)
Definition purchase_costs
           (input_data : InputData.t)
           (vehicle_characteristics : VehicleCharacteristics.t)
           (regional_multiplier : Q) (analysis_years : Z)
           (purchase_price : Q) (current_mileage : Z)
           (depreciation_schedule : list DepRow.t)
           (financing_schedule : option (list FinancingRow.t))
           (adjusted_maintenance_schedule : list MaintYear.t)
  : Py.result PurchaseResult.t :=
  loop <- purchase_loop input_data vehicle_characteristics regional_multiplier
            purchase_price current_mileage depreciation_schedule
            financing_schedule adjusted_maintenance_schedule
            (Py.range1 analysis_years) [] initial_purchase_totals ;;
  let annual_breakdown := fst loop in
  let category_totals := snd loop in
  let total_tco := Py.sum (PurchaseTotals.values category_totals) in
  let out_of_pocket_total :=
    PurchaseTotals.maintenance category_totals
    + PurchaseTotals.insurance category_totals
    + PurchaseTotals.fuel_energy category_totals
    + PurchaseTotals.financing category_totals in
  average_annual_tco <- Py.div total_tco (inject_Z analysis_years) ;;
  average_annual_out_of_pocket <-
    Py.div out_of_pocket_total (inject_Z analysis_years) ;;
  annual_mileage <- Py.subscript (Py.StrKey "annual_mileage")
                      (InputData.annual_mileage input_data) ;;
  let total_miles := (annual_mileage * analysis_years)%Z in
  cost_per_mile_out_of_pocket <-
    (if (0 <? total_miles)%Z then Py.div out_of_pocket_total (inject_Z total_miles)
     else Py.ret 0) ;;
  cost_per_mile_tco <-
    (if (0 <? total_miles)%Z then Py.div total_tco (inject_Z total_miles)
     else Py.ret 0) ;;
  final_vehicle_value <-
    (match depreciation_schedule with
     | _ :: _ =>
         final <- Py.item depreciation_schedule (-1) ;;
         Py.ret (DepRow.vehicle_value final)
     | [] => Py.ret (purchase_price * 0.15)
     end) ;;
  affordability <-
    _calculate_affordability average_annual_out_of_pocket
      (Py.get (InputData.gross_income input_data) 60000) "purchase" ;;
  assumptions <- _get_calculation_assumptions input_data vehicle_characteristics ;;
  Py.ret
    {| PurchaseResult.summary :=
         {| PurchaseSummary.total_ownership_cost := out_of_pocket_total;
            PurchaseSummary.average_annual_cost := average_annual_out_of_pocket;
            PurchaseSummary.cost_per_mile := cost_per_mile_out_of_pocket;
            PurchaseSummary.final_vehicle_value := final_vehicle_value;
            PurchaseSummary.total_depreciation :=
              PurchaseTotals.depreciation category_totals;
            PurchaseSummary.purchase_price := purchase_price;
            PurchaseSummary.original_msrp :=
              Py.get (InputData.trim_msrp input_data) purchase_price;
            PurchaseSummary.is_used_vehicle := (0 <? current_mileage)%Z;
            PurchaseSummary.total_tco_with_depreciation := total_tco;
            PurchaseSummary.average_annual_tco := average_annual_tco;
            PurchaseSummary.cost_per_mile_tco := cost_per_mile_tco;
            PurchaseSummary.out_of_pocket_total := out_of_pocket_total |};
       PurchaseResult.annual_breakdown := annual_breakdown;
       PurchaseResult.category_totals := category_totals;
       PurchaseResult.depreciation_schedule := depreciation_schedule;
       PurchaseResult.financing_schedule := financing_schedule;
       PurchaseResult.maintenance_schedule := adjusted_maintenance_schedule;
       PurchaseResult.affordability := affordability;
       PurchaseResult.vehicle_characteristics := vehicle_characteristics;
       PurchaseResult.assumptions := assumptions;
       PurchaseResult.display_total_cost := out_of_pocket_total;
       PurchaseResult.display_includes_depreciation := false |}.

(** The keywords of the call to [get_maintenance_schedule] on the purchase
    path. *)
Definition purchase_maintenance_keywords : list string :=
  ["annual_mileage"; "years"; "starting_mileage"; "vehicle_make";
   "driving_style"; "vehicle_model"].

Definition _calculate_purchase_tco
           (input_data : InputData.t)
           (vehicle_characteristics : VehicleCharacteristics.t)
           (regional_multiplier : Q) : Py.result PurchaseResult.t :=
  let analysis_years := Py.get (InputData.analysis_years input_data) 5%Z in
  let purchase_price := purchase_price_of input_data in
  let current_mileage := Py.get (InputData.current_mileage input_data) 0%Z in
  depreciation_schedule <-
    purchase_depreciation_schedule input_data purchase_price analysis_years
                                   current_mileage ;;
  let financing_schedule :=
    purchase_financing_schedule input_data purchase_price analysis_years in
  (* Calculate maintenance schedule *)
  annual_mileage <- Py.subscript (Py.StrKey "annual_mileage")
                      (InputData.annual_mileage input_data) ;;
  _ <- Py.bind_keywords MaintenanceCalculator.get_maintenance_schedule_parameters
                        purchase_maintenance_keywords ;;
  let base_maintenance_schedule :=
    MaintenanceCalculator.get_maintenance_schedule
      annual_mileage analysis_years current_mileage in
  let adjusted_maintenance_schedule :=
    _adjust_maintenance_schedule base_maintenance_schedule
      (InputData.make input_data)
      (Py.get (InputData.shop_type input_data) "independent")
      regional_multiplier in
  purchase_costs input_data vehicle_characteristics regional_multiplier
    analysis_years purchase_price current_mileage depreciation_schedule
    financing_schedule adjusted_maintenance_schedule.

(** ** _calculate_lease_tco *)

(** The body of the lease loop: the row stored in [annual_breakdown]. *)
Definition lease_year
           (input_data : InputData.t)
           (vehicle_characteristics : VehicleCharacteristics.t)
           (regional_multiplier monthly_payment : Q)
           (annual_mileage_limit lease_start_year : Z)
           (lease_maintenance_schedule : list MaintYear.t)
           (year : Z) : Py.result LeaseRow.t :=
  let ownership_year := (lease_start_year + year - 1)%Z in
  let current_mileage := (annual_mileage_limit * year)%Z in
  (* Lease payments (12 months) *)
  let annual_lease_payment := monthly_payment * 12 in
  (* Maintenance (with detailed activities) *)
  maintenance <-
    (if (year <=? Py.len lease_maintenance_schedule)%Z then
       year_data <- Py.item lease_maintenance_schedule (year - 1) ;;
       Py.ret (MaintYear.total_year_cost year_data, MaintYear.services year_data)
     else Py.ret (0, [])) ;;
  let annual_maintenance := fst maintenance in
  let maintenance_activities := snd maintenance in
  (* Insurance (required for leased vehicles): use MSRP for lease insurance *)
  vehicle_value <- Py.subscript (Py.StrKey "trim_msrp")
                     (InputData.trim_msrp input_data) ;;
  user_age <- Py.subscript (Py.StrKey "user_age") (InputData.user_age input_data) ;;
  state <- Py.subscript (Py.StrKey "state") (InputData.state input_data) ;;
  num_household_vehicles <-
    Py.subscript (Py.StrKey "num_household_vehicles")
                 (InputData.num_household_vehicles input_data) ;;
  let annual_insurance :=
    Collaborators.calculate_annual_premium self
      vehicle_value
      (InputData.make input_data)
      (InputData.year input_data)
      user_age
      state
      "comprehensive"
      annual_mileage_limit
      num_household_vehicles
      regional_multiplier
      None in
  (* Fuel/Energy costs (limited by lease mileage) *)
  annual_fuel <-
    (if Py.get (VehicleCharacteristics.is_electric vehicle_characteristics) false
     then
       Py.ret
         (Collaborators.calculate_annual_electricity_cost self
            annual_mileage_limit
            (Py.get (VehicleCharacteristics.mpge vehicle_characteristics) 100)
            (Py.get (InputData.electricity_rate input_data) 0.12)
            (Py.get (InputData.charging_pref input_data) "mixed"))
     else
       fuel_price <- Py.subscript (Py.StrKey "fuel_price")
                       (InputData.fuel_price input_data) ;;
       driving_style <- Py.subscript (Py.StrKey "driving_style")
                          (InputData.driving_style input_data) ;;
       terrain <- Py.subscript (Py.StrKey "terrain")
                    (InputData.terrain input_data) ;;
       Py.ret
         (Collaborators.calculate_annual_fuel_cost self
            annual_mileage_limit
            (Py.get (VehicleCharacteristics.mpg vehicle_characteristics) 25)
            fuel_price driving_style terrain)) ;;
  (* Fees or penalties (mileage overage, wear and tear) *)
  let annual_fees :=
    _calculate_lease_fees_and_penalties
      (Py.get (InputData.annual_mileage input_data) annual_mileage_limit)
      annual_mileage_limit year vehicle_value in
  let total_annual :=
    annual_lease_payment + annual_maintenance + annual_insurance + annual_fuel
    + annual_fees in
  Py.ret {| LeaseRow.year := year;
            LeaseRow.ownership_year := ownership_year;
            LeaseRow.lease_year := year;
            LeaseRow.vehicle_age := (ownership_year - InputData.year input_data)%Z;
            LeaseRow.vehicle_model_year := InputData.year input_data;
            LeaseRow.lease_payment := annual_lease_payment;
            LeaseRow.maintenance := annual_maintenance;
            LeaseRow.maintenance_activities := maintenance_activities;
            LeaseRow.cumulative_mileage := current_mileage;
            LeaseRow.insurance := annual_insurance;
            LeaseRow.fuel_energy := annual_fuel;
            LeaseRow.fees_penalties := annual_fees;
            LeaseRow.total_annual_cost := total_annual |}.

Definition add_to_lease_totals (category_totals : LeaseTotals.t) (row : LeaseRow.t)
  : LeaseTotals.t :=
  {| LeaseTotals.lease_payments :=
       LeaseTotals.lease_payments category_totals + LeaseRow.lease_payment row;
     LeaseTotals.maintenance :=
       LeaseTotals.maintenance category_totals + LeaseRow.maintenance row;
     LeaseTotals.insurance :=
       LeaseTotals.insurance category_totals + LeaseRow.insurance row;
     LeaseTotals.fuel_energy :=
       LeaseTotals.fuel_energy category_totals + LeaseRow.fuel_energy row;
     LeaseTotals.fees_penalties :=
       LeaseTotals.fees_penalties category_totals + LeaseRow.fees_penalties row |}.

Fixpoint lease_loop
         (input_data : InputData.t)
         (vehicle_characteristics : VehicleCharacteristics.t)
         (regional_multiplier monthly_payment : Q)
         (annual_mileage_limit lease_start_year : Z)
         (lease_maintenance_schedule : list MaintYear.t)
         (years : list Z)
         (annual_breakdown : list LeaseRow.t)
         (category_totals : LeaseTotals.t)
  : Py.result (list LeaseRow.t * LeaseTotals.t) :=
  match years with
  | [] => Py.ret (annual_breakdown, category_totals)
  | year :: rest =>
      row <- lease_year input_data vehicle_characteristics regional_multiplier
               monthly_payment annual_mileage_limit lease_start_year
               lease_maintenance_schedule year ;;
      lease_loop input_data vehicle_characteristics regional_multiplier
        monthly_payment annual_mileage_limit lease_start_year
        lease_maintenance_schedule rest
        (annual_breakdown ++ [row]) (add_to_lease_totals category_totals row)
  end.

Definition initial_lease_totals : LeaseTotals.t :=
  {| LeaseTotals.lease_payments := 0;
     LeaseTotals.maintenance := 0;
     LeaseTotals.insurance := 0;
     LeaseTotals.fuel_energy := 0;
     LeaseTotals.fees_penalties := 0 |}.

(** The keywords of the call to [get_maintenance_schedule] on the lease
    path. *)
Definition lease_maintenance_keywords : list string :=
  ["annual_mileage"; "years"; "starting_mileage"].

Definition _calculate_lease_tco
           (input_data : InputData.t)
           (vehicle_characteristics : VehicleCharacteristics.t)
           (regional_multiplier : Q) : Py.result LeaseResult.t :=
  lease_term <- Py.subscript (Py.StrKey "analysis_years")
                  (InputData.analysis_years input_data) ;;
  monthly_payment <- Py.subscript (Py.StrKey "lease_monthly_payment")
                       (InputData.lease_monthly_payment input_data) ;;
  annual_mileage_limit <- Py.subscript (Py.StrKey "lease_mileage_limit")
                            (InputData.lease_mileage_limit input_data) ;;
  let down_payment := Py.get (InputData.down_payment input_data) 0 in
  let starting_mileage := Py.get (InputData.current_mileage input_data) 0%Z in
  _ <- Py.bind_keywords MaintenanceCalculator.get_maintenance_schedule_parameters
                        lease_maintenance_keywords ;;
  let base_maintenance_schedule :=
    MaintenanceCalculator.get_maintenance_schedule
      annual_mileage_limit lease_term starting_mileage in
  let lease_maintenance_schedule :=
    _adjust_lease_maintenance_schedule base_maintenance_schedule
      (InputData.make input_data) regional_multiplier in
  let lease_start_year := Datetime.year now in
  loop <- lease_loop input_data vehicle_characteristics regional_multiplier
            monthly_payment annual_mileage_limit lease_start_year
            lease_maintenance_schedule (Py.range1 lease_term)
            [] initial_lease_totals ;;
  let annual_breakdown := fst loop in
  let category_totals := snd loop in
  let total_lease_cost :=
    Py.sum (LeaseTotals.values category_totals) + down_payment in
  average_annual_cost <- Py.div total_lease_cost (inject_Z lease_term) ;;
  average_monthly_cost <- Py.div total_lease_cost (inject_Z (lease_term * 12)) ;;
  let total_miles := (annual_mileage_limit * lease_term)%Z in
  cost_per_mile <-
    (if (0 <? total_miles)%Z then Py.div total_lease_cost (inject_Z total_miles)
     else Py.ret 0) ;;
  gross_income <- Py.subscript (Py.StrKey "gross_income")
                    (InputData.gross_income input_data) ;;
  affordability <-
    _calculate_affordability average_annual_cost gross_income "lease" ;;
  assumptions <- _get_calculation_assumptions input_data vehicle_characteristics ;;
  Py.ret
    {| LeaseResult.summary :=
         {| LeaseSummary.total_lease_cost := total_lease_cost;
            LeaseSummary.average_annual_cost := average_annual_cost;
            LeaseSummary.average_monthly_cost := average_monthly_cost;
            LeaseSummary.cost_per_mile := cost_per_mile;
            LeaseSummary.down_payment := down_payment |};
       LeaseResult.annual_breakdown := annual_breakdown;
       LeaseResult.category_totals := category_totals;
       LeaseResult.maintenance_schedule := lease_maintenance_schedule;
       LeaseResult.affordability := affordability;
       LeaseResult.vehicle_characteristics := vehicle_characteristics;
       LeaseResult.assumptions := assumptions |}.

(** ** calculate_total_cost_of_ownership *)

Definition calculate_total_cost_of_ownership (input_data : InputData.t)
  : Py.result TcoResult :=
  let vehicle_characteristics :=
    Collaborators.get_vehicle_characteristics self
      (InputData.make input_data) (InputData.model input_data)
      (InputData.year input_data) in
  let regional_multiplier :=
    ZipCodeUtils.get_regional_cost_multiplier
      (Py.get (InputData.zip_code input_data) "")
      (Py.get (InputData.state input_data) "") in
  let analysis_years := Py.get (InputData.analysis_years input_data) 5%Z in
  if String.eqb
       (Py.lower (Py.get (InputData.transaction_type input_data) "purchase"))
       "lease"
  then
    r <- _calculate_lease_tco input_data vehicle_characteristics
                              regional_multiplier ;;
    Py.ret (Lease r)
  else
    r <- _calculate_purchase_tco input_data vehicle_characteristics
                                 regional_multiplier ;;
    Py.ret (Purchase r).

(** ** _update_results_structure_for_display *)

(** The [.get(key, default)] reads are resolved on the keys each kind of
    result has: a purchase summary has no [total_tco] key; lease totals
    have no [depreciation] and no [financing] key, and a lease summary no
    [final_vehicle_value] and no [total_tco] key. *)
Definition _update_results_structure_for_display (results : TcoResult)
  : DisplayResults.t TcoResult :=
  match results with
  | Purchase r =>
      let summary := PurchaseResult.summary r in
      let category_totals := PurchaseResult.category_totals r in
      (* Calculate out-of-pocket costs (excluding depreciation) *)
      let out_of_pocket_total :=
        PurchaseTotals.maintenance category_totals
        + PurchaseTotals.insurance category_totals
        + PurchaseTotals.fuel_energy category_totals
        + PurchaseTotals.financing category_totals in
      {| DisplayResults.results := results;
         DisplayResults.total_cost := out_of_pocket_total;
         DisplayResults.annual_cost := PurchaseSummary.average_annual_cost summary;
         DisplayResults.cost_per_mile := PurchaseSummary.cost_per_mile summary;
         DisplayResults.final_value := PurchaseSummary.final_vehicle_value summary;
         DisplayResults.depreciation := PurchaseTotals.depreciation category_totals;
         DisplayResults.maintenance := PurchaseTotals.maintenance category_totals;
         DisplayResults.insurance := PurchaseTotals.insurance category_totals;
         DisplayResults.energy := PurchaseTotals.fuel_energy category_totals;
         DisplayResults.financing := PurchaseTotals.financing category_totals;
         DisplayResults.total_tco :=
           out_of_pocket_total + PurchaseTotals.depreciation category_totals;
         DisplayResults.annual_operating_cost := out_of_pocket_total;
         DisplayResults.is_electric :=
           Py.get (VehicleCharacteristics.is_electric
                     (PurchaseResult.vehicle_characteristics r)) false |}
  | Lease r =>
      let summary := LeaseResult.summary r in
      let category_totals := LeaseResult.category_totals r in
      let out_of_pocket_total :=
        LeaseTotals.maintenance category_totals
        + LeaseTotals.insurance category_totals
        + LeaseTotals.fuel_energy category_totals
        + 0 in
      {| DisplayResults.results := results;
         DisplayResults.total_cost := out_of_pocket_total;
         DisplayResults.annual_cost := LeaseSummary.average_annual_cost summary;
         DisplayResults.cost_per_mile := LeaseSummary.cost_per_mile summary;
         DisplayResults.final_value := 0;
         DisplayResults.depreciation := 0;
         DisplayResults.maintenance := LeaseTotals.maintenance category_totals;
         DisplayResults.insurance := LeaseTotals.insurance category_totals;
         DisplayResults.energy := LeaseTotals.fuel_energy category_totals;
         DisplayResults.financing := 0;
         DisplayResults.total_tco := out_of_pocket_total + 0;
         DisplayResults.annual_operating_cost := out_of_pocket_total;
         DisplayResults.is_electric :=
           Py.get (VehicleCharacteristics.is_electric
                     (LeaseResult.vehicle_characteristics r)) false |}
  end.

End Service.

End PredictionService.

(* ===================================================================== *)
(** * utils/used_vehicle_estimator.py                                      *)
(* ===================================================================== *)

(** Of class UsedVehicleEstimator, the test that needs neither the vehicle
    database nor the user interface.  [self.current_year] is the year read
    from the clock when the estimator is built. *)
Module UsedVehicleEstimator.

Definition is_used_vehicle (current_year year current_mileage : Z) : bool :=
  if (year <? current_year)%Z then true
  else if (year =? current_year)%Z && (1000 <? current_mileage)%Z then true
  else false.

End UsedVehicleEstimator.

(* ===================================================================== *)
(** * Vocabulary of the specification                                      *)
(* ===================================================================== *)

Module Spec.

Import EnhancedDepreciationModel.
Open Scope string_scope.

(** The eight segments. *)
Definition segments : list string :=
  ["luxury"; "electric"; "truck"; "suv"; "sports"; "compact"; "sedan"; "economy"].

(** The priority order of the specification: each rule is a segment and its
    test on the lower-cased make and model; the first rule that matches wins
    and [sedan] is the default. *)
Definition priority_rules : list (string * (string -> string -> bool)) :=
  [ ("electric", fun make_lower model_lower => is_electric make_lower model_lower);
    ("luxury", fun make_lower _ => is_luxury make_lower);
    ("sports", fun _ model_lower => is_sports model_lower);
    ("truck", fun _ model_lower => is_truck model_lower);
    ("suv", fun _ model_lower => is_suv model_lower);
    ("compact", fun _ model_lower => is_compact model_lower);
    ("economy", fun _ model_lower => is_economy model_lower) ].

Fixpoint first_matching_rule (rules : list (string * (string -> string -> bool)))
         (make_lower model_lower : string) : string :=
  match rules with
  | [] => "sedan"
  | (segment, test) :: rest =>
      if test make_lower model_lower then segment
      else first_matching_rule rest make_lower model_lower
  end.

(** Continuity of a function of a rational argument at a point. *)
Definition continuous_at (f : Q -> Q) (a : Q) : Prop :=
  forall eps : Q, (0 < eps)%Q ->
    exists delta : Q, (0 < delta)%Q /\
      forall x : Q, (Qabs (x - a) < delta)%Q -> (Qabs (f x - f a) < eps)%Q.

(** The vehicle value at the end of a schedule that started from
    [initial_value]: the value of its last row. *)
Definition value_after (initial_value : Q) (schedule : list DepRow.t) : Q :=
  match rev schedule with
  | final :: _ => DepRow.vehicle_value final
  | [] => initial_value
  end.

(** The annual depreciation amounts of a schedule, summed. *)
Definition total_annual_depreciation (schedule : list DepRow.t) : Q :=
  Py.sum (map DepRow.annual_depreciation schedule).

(** How often the service [name] is listed in one year of a schedule, and
    over a whole schedule. *)
Definition listed_frequency (name : string) (services : list Service.t) : Z :=
  fold_right Z.add 0%Z
    (map Service.frequency
         (filter (fun s => String.eqb (Service.service s) name) services)).

Definition occurrences_this_year (name : string) (year_data : MaintYear.t) : Z :=
  listed_frequency name (MaintYear.services year_data).

Definition lifetime_occurrences (name : string) (schedule : list MaintYear.t) : Z :=
  fold_right Z.add 0%Z (map (occurrences_this_year name) schedule).

(** The cash outflow of one year of a purchase: everything but
    depreciation. *)
Definition out_of_pocket_of_row (row : PurchaseRow.t) : Q :=
  (PurchaseRow.maintenance row + PurchaseRow.insurance row
   + PurchaseRow.fuel_energy row + PurchaseRow.financing row)%Q.

(** A column of the annual breakdown, summed over the years. *)
Definition over_years (column : PurchaseRow.t -> Q) (rows : list PurchaseRow.t) : Q :=
  Py.sum (map column rows).

(** The category totals are the column sums of the breakdown. *)
Definition totals_match (rows : list PurchaseRow.t) (totals : PurchaseTotals.t)
  : Prop :=
  PurchaseTotals.depreciation totals == over_years PurchaseRow.depreciation rows
  /\ PurchaseTotals.maintenance totals == over_years PurchaseRow.maintenance rows
  /\ PurchaseTotals.insurance totals == over_years PurchaseRow.insurance rows
  /\ PurchaseTotals.fuel_energy totals == over_years PurchaseRow.fuel_energy rows
  /\ PurchaseTotals.financing totals == over_years PurchaseRow.financing rows.

(** The vehicle value the purchase path insures in [year]: the value the
    depreciation schedule gives for that year, or half the purchase price
    for a year the schedule does not reach. *)
Definition depreciated_value (purchase_price : Q) (schedule : list DepRow.t)
           (year : Z) : Q :=
  match nth_error schedule (Z.to_nat (year - 1)) with
  | Some row => DepRow.vehicle_value row
  | None => (purchase_price * 0.5)%Q
  end.

(** The premium of a purchase year for a given vehicle value. *)
Definition purchase_premium (self : Collaborators.t) (input_data : InputData.t)
           (regional_multiplier : Q) (state : string) (annual_mileage : Z)
           (vehicle_value : Q) : Q :=
  Collaborators.calculate_annual_premium self
    vehicle_value
    (InputData.make input_data)
    (InputData.year input_data)
    (Py.get (InputData.driver_age input_data) 35%Z)
    state
    (Py.get (InputData.coverage_type input_data) "comprehensive")
    annual_mileage
    (Py.get (InputData.num_household_vehicles input_data) 2%Z)
    regional_multiplier
    (Some (InputData.model input_data)).

(** The premium of a lease year for a given vehicle value. *)
Definition lease_premium (self : Collaborators.t) (input_data : InputData.t)
           (regional_multiplier : Q) (user_age : Z) (state : string)
           (annual_mileage_limit num_household_vehicles : Z)
           (vehicle_value : Q) : Q :=
  Collaborators.calculate_annual_premium self
    vehicle_value
    (InputData.make input_data)
    (InputData.year input_data)
    user_age
    state
    "comprehensive"
    annual_mileage_limit
    num_household_vehicles
    regional_multiplier
    None.

(** A purchase row is insured at the depreciated value of its year. *)
Definition insured_at_depreciated_value
           (self : Collaborators.t) (input_data : InputData.t)
           (regional_multiplier purchase_price : Q) (schedule : list DepRow.t)
           (row : PurchaseRow.t) : Prop :=
  exists state annual_mileage,
    InputData.state input_data = Some state
    /\ InputData.annual_mileage input_data = Some annual_mileage
    /\ PurchaseRow.insurance row
       = purchase_premium self input_data regional_multiplier state
           annual_mileage
           (depreciated_value purchase_price schedule (PurchaseRow.year row)).

(** A lease row is insured at the MSRP. *)
Definition insured_at_msrp
           (self : Collaborators.t) (input_data : InputData.t)
           (regional_multiplier : Q) (row : LeaseRow.t) : Prop :=
  exists msrp user_age state annual_mileage_limit num_household_vehicles,
    InputData.trim_msrp input_data = Some msrp
    /\ InputData.user_age input_data = Some user_age
    /\ InputData.state input_data = Some state
    /\ InputData.lease_mileage_limit input_data = Some annual_mileage_limit
    /\ InputData.num_household_vehicles input_data = Some num_household_vehicles
    /\ LeaseRow.insurance row
       = lease_premium self input_data regional_multiplier user_age state
           annual_mileage_limit num_household_vehicles msrp.

(** [input_data] with the key [transaction_type] set to [value]. *)
Definition with_transaction_type (input_data : InputData.t) (value : string)
  : InputData.t :=
  {| InputData.make := InputData.make input_data;
     InputData.model := InputData.model input_data;
     InputData.year := InputData.year input_data;
     InputData.state := InputData.state input_data;
     InputData.geography_type := InputData.geography_type input_data;
     InputData.zip_code := InputData.zip_code input_data;
     InputData.transaction_type := Some value;
     InputData.analysis_years := InputData.analysis_years input_data;
     InputData.price := InputData.price input_data;
     InputData.trim_msrp := InputData.trim_msrp input_data;
     InputData.current_mileage := InputData.current_mileage input_data;
     InputData.annual_mileage := InputData.annual_mileage input_data;
     InputData.financing_type := InputData.financing_type input_data;
     InputData.financing_option := InputData.financing_option input_data;
     InputData.loan_amount := InputData.loan_amount input_data;
     InputData.interest_rate := InputData.interest_rate input_data;
     InputData.loan_term := InputData.loan_term input_data;
     InputData.driving_style := InputData.driving_style input_data;
     InputData.terrain := InputData.terrain input_data;
     InputData.shop_type := InputData.shop_type input_data;
     InputData.driver_age := InputData.driver_age input_data;
     InputData.user_age := InputData.user_age input_data;
     InputData.coverage_type := InputData.coverage_type input_data;
     InputData.num_household_vehicles :=
       InputData.num_household_vehicles input_data;
     InputData.is_electric := InputData.is_electric input_data;
     InputData.electricity_rate := InputData.electricity_rate input_data;
     InputData.fuel_price := InputData.fuel_price input_data;
     InputData.charging_preference := InputData.charging_preference input_data;
     InputData.charging_pref := InputData.charging_pref input_data;
     InputData.gross_income := InputData.gross_income input_data;
     InputData.lease_monthly_payment :=
       InputData.lease_monthly_payment input_data;
     InputData.lease_mileage_limit := InputData.lease_mileage_limit input_data;
     InputData.down_payment := InputData.down_payment input_data |}.

(** The transaction type is routed to the lease calculation. *)
Definition is_lease (transaction_type : string) : bool :=
  String.eqb (Py.lower transaction_type) "lease".

Definition present {A} (v : option A) : bool :=
  match v with
  | Some _ => true
  | None => false
  end.

(** The keys the lease calculation reads by subscript are all there. *)
Definition lease_keys_present (input_data : InputData.t) : bool :=
  present (InputData.lease_monthly_payment input_data)
  && present (InputData.lease_mileage_limit input_data)
  && present (InputData.trim_msrp input_data)
  && present (InputData.user_age input_data)
  && present (InputData.state input_data)
  && present (InputData.num_household_vehicles input_data)
  && present (InputData.fuel_price input_data)
  && present (InputData.driving_style input_data)
  && present (InputData.terrain input_data)
  && present (InputData.geography_type input_data).

(** *** Sample scenarios

    Stand-ins for the collaborating engines (which are parameters of the
    embedding) and a few scenarios, used to run the orchestrator on concrete
    inputs. *)

Definition sample_collaborators : Collaborators.t :=
  {| Collaborators.calculate_annual_premium :=
       fun vehicle_value _ _ _ _ _ _ _ _ _ => (vehicle_value * 0.04)%Q;
     Collaborators.calculate_annual_fuel_cost :=
       fun annual_mileage mpg fuel_price _ _ =>
         (inject_Z annual_mileage / mpg * fuel_price)%Q;
     Collaborators.calculate_annual_electricity_cost :=
       fun annual_mileage efficiency electricity_rate _ =>
         (inject_Z annual_mileage * electricity_rate / efficiency)%Q;
     Collaborators.calculate_loan_payments := fun _ _ _ _ => [];
     Collaborators.get_vehicle_characteristics :=
       fun _ _ _ =>
         {| VehicleCharacteristics.efficiency := None;
            VehicleCharacteristics.mpg := None;
            VehicleCharacteristics.mpge := None;
            VehicleCharacteristics.is_electric := None;
            VehicleCharacteristics.reliability_score := None;
            VehicleCharacteristics.market_segment := None |} |}.

Definition june_2025 : Datetime.t :=
  {| Datetime.year := 2025; Datetime.month := 6; Datetime.day := 15;
     Datetime.hour := 12; Datetime.minute := 0; Datetime.second := 0 |}.



(** A lease of a 2025 Toyota Camry, MSRP $30,000, $300 a month, 12,000
    miles a year allowed and 15,000 driven, over [term] years. *)
Definition sample_lease (term : Z) : InputData.t :=
  {| InputData.make := "Toyota";
     InputData.model := "Camry";
     InputData.year := 2025;
     InputData.state := Some "CA";
     InputData.geography_type := Some "urban";
     InputData.zip_code := None;
     InputData.transaction_type := Some "Lease";
     InputData.analysis_years := Some term;
     InputData.price := None;
     InputData.trim_msrp := Some 30000%Q;
     InputData.current_mileage := None;
     InputData.annual_mileage := Some 15000%Z;
     InputData.financing_type := None;
     InputData.financing_option := None;
     InputData.loan_amount := None;
     InputData.interest_rate := None;
     InputData.loan_term := None;
     InputData.driving_style := Some "normal";
     InputData.terrain := Some "flat";
     InputData.shop_type := None;
     InputData.driver_age := None;
     InputData.user_age := Some 35%Z;
     InputData.coverage_type := None;
     InputData.num_household_vehicles := Some 2%Z;
     InputData.is_electric := None;
     InputData.electricity_rate := None;
     InputData.fuel_price := Some 3.5%Q;
     InputData.charging_preference := None;
     InputData.charging_pref := None;
     InputData.gross_income := Some 60000%Q;
     InputData.lease_monthly_payment := Some 300%Q;
     InputData.lease_mileage_limit := Some 12000%Z;
     InputData.down_payment := None |}.

(** The used 2018 BMW 3-Series of the specification: 70,000 miles, bought
    for $18,000 in cash, 12,000 miles a year over five years. *)
Definition sample_used_purchase : InputData.t :=
  {| InputData.make := "BMW";
     InputData.model := "3 Series";
     InputData.year := 2018;
     InputData.state := Some "CA";
     InputData.geography_type := Some "urban";
     InputData.zip_code := None;
     InputData.transaction_type := Some "purchase";
     InputData.analysis_years := Some 5%Z;
     InputData.price := Some 18000%Q;
     InputData.trim_msrp := None;
     InputData.current_mileage := Some 70000%Z;
     InputData.annual_mileage := Some 12000%Z;
     InputData.financing_type := None;
     InputData.financing_option := None;
     InputData.loan_amount := None;
     InputData.interest_rate := None;
     InputData.loan_term := None;
     InputData.driving_style := None;
     InputData.terrain := None;
     InputData.shop_type := None;
     InputData.driver_age := None;
     InputData.user_age := None;
     InputData.coverage_type := None;
     InputData.num_household_vehicles := None;
     InputData.is_electric := None;
     InputData.electricity_rate := None;
     InputData.fuel_price := None;
     InputData.charging_preference := None;
     InputData.charging_pref := None;
     InputData.gross_income := None;
     InputData.lease_monthly_payment := None;
     InputData.lease_mileage_limit := None;
     InputData.down_payment := None |}.

Definition sample_characteristics : VehicleCharacteristics.t :=
  Collaborators.get_vehicle_characteristics sample_collaborators
    "BMW" "3 Series" 2018%Z.

(** The schedules the purchase path builds for [sample_used_purchase]. *)
Definition sample_depreciation_schedule : list DepRow.t :=
  match PredictionService._calculate_realistic_used_vehicle_depreciation
          june_2025 sample_used_purchase 18000%Q 5%Z with
  | inr schedule => schedule
  | inl _ => []
  end.

Definition sample_maintenance_schedule : list MaintYear.t :=
  PredictionService._adjust_maintenance_schedule
    (MaintenanceCalculator.get_maintenance_schedule 12000 5 70000)
    "BMW" "independent" 1%Q.

(** The premium the sample insurer asks for the sample lease at a given
    vehicle value. *)
Definition sample_lease_premium (vehicle_value : Q) : Q :=
  lease_premium sample_collaborators (sample_lease 2)
    (ZipCodeUtils.get_regional_cost_multiplier "" "CA")
    35 "CA" 12000 2 vehicle_value.

(** *** Checks on the tables of the depreciation model *)

(** Every curve of the model: the eight segment curves and the standard
    one. *)
Definition all_curves : list EnhancedDepreciationModel.curve :=
  EnhancedDepreciationModel.standard_curve
    :: map snd EnhancedDepreciationModel.segment_curves.

(** A curve rises from year to year over the years 1 to 15, starts above
    zero and ends at 0.95 or below. *)
Definition curve_rises (c : EnhancedDepreciationModel.curve) : bool :=
  forallb
    (fun year =>
       match Py.assoc Z.eqb year c, Py.assoc Z.eqb (year + 1)%Z c with
       | Some rate, Some next =>
           Py.Qltb 0 rate && Py.Qleb rate next && Py.Qleb next 0.95
       | _, _ => false
       end)
    (Py.range_from 1 14).

(** Every brand multiplier of the depreciation model, the default included,
    is positive; every cap, the default included, lies in (0, 0.96]. *)
Definition brand_multipliers_positive : bool :=
  forallb (fun v => Py.Qltb 0 v)
          (1.0%Q :: map snd EnhancedDepreciationModel.brand_multipliers).

Definition caps_in_range : bool :=
  forallb (fun v => Py.Qltb 0 v && Py.Qleb v 0.96)
          (0.92%Q :: map snd EnhancedDepreciationModel.max_depreciation).

(** A row of a depreciation schedule that started from [initial_value]
    loses nothing it had not, and keeps at least 4% of the initial value. *)
Definition sound_depreciation_row (initial_value : Q) (row : DepRow.t) : Prop :=
  (0 <= DepRow.annual_depreciation row
   /\ initial_value * 0.04 <= DepRow.vehicle_value row
   /\ DepRow.vehicle_value row <= initial_value
   /\ 0 <= DepRow.depreciation_rate row
   /\ DepRow.depreciation_rate row <= 0.96)%Q.

(** *** Maintenance schedules *)

(** The entry of the base maintenance schedule for [year], written without
    the running total of the loop. *)
Definition maintenance_year_row (annual_mileage starting_mileage year : Z)
  : MaintYear.t :=
  let total_mileage := (starting_mileage + annual_mileage * year)%Z in
  let year_services :=
    MaintenanceCalculator.year_services annual_mileage starting_mileage
                                        total_mileage year in
  {| MaintYear.year := year;
     MaintYear.total_mileage := total_mileage;
     MaintYear.starting_year_mileage :=
       Some (starting_mileage + annual_mileage * (year - 1))%Z;
     MaintYear.ending_year_mileage := Some total_mileage;
     MaintYear.services := year_services;
     MaintYear.total_year_cost := Py.sum (map Service.total_cost year_services);
     MaintYear.warranty_discount := None;
     MaintYear.brand_multiplier := None;
     MaintYear.shop_multiplier := None;
     MaintYear.regional_multiplier := None |}.

(** A service line charges its unit cost once per occurrence. *)
Definition line_is_consistent (line : Service.t) : Prop :=
  (Service.total_cost line
   == Service.cost_per_service line * inject_Z (Service.frequency line))%Q.

(** The cost of a year is the sum of its service lines. *)
Definition year_cost_is_sum (year_data : MaintYear.t) : Prop :=
  (MaintYear.total_year_cost year_data
   == Py.sum (map Service.total_cost (MaintYear.services year_data)))%Q.

(** The first occurrence of each listed service falls due within the
    mileage driven in that year. *)
Definition due_within_year (year_data : MaintYear.t) : Prop :=
  exists first_mile last_mile,
    MaintYear.starting_year_mileage year_data = Some first_mile
    /\ MaintYear.ending_year_mileage year_data = Some last_mile
    /\ Forall (fun line =>
                 exists due,
                   Service.due_at_mileage line = Some due
                   /\ (first_mile < due <= last_mile)%Z)
              (MaintYear.services year_data).

(** A year of the purchase-adjusted schedule: the regional multiplier it
    records is clamped, its cost is the sum of its lines, every line is
    consistent, and a line that is not interval-based (the wear line)
    appears only after year 3 and costs more than 100. *)
Definition adjusted_year_is_sound (year_data : MaintYear.t) : Prop :=
  (exists regional,
      MaintYear.regional_multiplier year_data = Some regional
      /\ (0.8 <= regional <= 1.3)%Q)
  /\ year_cost_is_sum year_data
  /\ Forall (fun line =>
               line_is_consistent line
               /\ (Service.interval_based line = Some false ->
                   (3 < MaintYear.year year_data)%Z
                   /\ (100 < Service.total_cost line)%Q))
            (MaintYear.services year_data).

(** A year of the lease-adjusted schedule: the warranty discount is between
    20% and 60%, the cost of the year is the sum of its lines, every line is
    consistent, and an interval-based line costs more than 5 per occurrence
    and splits its full cost between the lessee and the warranty in the
    proportion of the discount. *)
Definition lease_year_is_sound (year_data : MaintYear.t) : Prop :=
  exists discount,
    MaintYear.warranty_discount year_data = Some discount
    /\ (0.2 <= discount <= 0.6)%Q
    /\ year_cost_is_sum year_data
    /\ Forall (fun line =>
                 line_is_consistent line
                 /\ exists covered,
                     Service.warranty_covered line = Some covered
                     /\ (Service.interval_based line = Some true ->
                         (5 < Service.cost_per_service line)%Q
                         /\ (covered * (1 - discount)
                             == Service.total_cost line * discount)%Q))
              (MaintYear.services year_data).

(** *** Roll-ups of the orchestrator *)

(** The vehicle value at the end of [year] according to a depreciation
    schedule: the purchase price at year 0, the value of the year's row
    after. *)
Definition value_at_end_of_year (purchase_price : Q) (schedule : list DepRow.t)
           (year : Z) : Q :=
  if (year <=? 0)%Z then purchase_price
  else match nth_error schedule (Z.to_nat (year - 1)) with
       | Some row => DepRow.vehicle_value row
       | None => purchase_price
       end.

(** A row of the purchase breakdown for a vehicle of model year
    [model_year] at [current_mileage] miles driven [annual_mileage] a year:
    it is dated 2024 plus its year, its mileage is cumulated, and its total
    is depreciation plus the cash outflow. *)
Definition purchase_row_is_sound (model_year current_mileage annual_mileage : Z)
           (row : PurchaseRow.t) : Prop :=
  PurchaseRow.ownership_year row = (2024 + PurchaseRow.year row)%Z
  /\ PurchaseRow.vehicle_age row
     = (2024 + PurchaseRow.year row - model_year)%Z
  /\ PurchaseRow.cumulative_mileage row
     = (current_mileage + annual_mileage * PurchaseRow.year row)%Z
  /\ (PurchaseRow.total_annual_cost row
      == PurchaseRow.depreciation row + out_of_pocket_of_row row)%Q.

(** The fees of one lease year: 20 cents for each mile driven beyond the
    allowance, the mileage driven defaulting to the allowance, and 0.1% of
    the MSRP for wear and tear. *)
Definition yearly_lease_fees (input_data : InputData.t) (limit : Z) (msrp : Q) : Q :=
  (inject_Z (Z.max 0 (Py.get (InputData.annual_mileage input_data) limit - limit))
   * 0.20
   + msrp * 0.001)%Q.

(** A row of the lease breakdown for a lease that starts in [start_year]
    at [monthly] a month with [limit] miles a year. *)
Definition lease_row_is_sound (input_data : InputData.t) (start_year limit : Z)
           (monthly : Q) (row : LeaseRow.t) : Prop :=
  LeaseRow.ownership_year row = (start_year + LeaseRow.year row - 1)%Z
  /\ LeaseRow.vehicle_age row
     = (start_year + LeaseRow.year row - 1 - InputData.year input_data)%Z
  /\ LeaseRow.cumulative_mileage row = (limit * LeaseRow.year row)%Z
  /\ (LeaseRow.lease_payment row == monthly * 12)%Q
  /\ (exists msrp,
         InputData.trim_msrp input_data = Some msrp
         /\ LeaseRow.fees_penalties row == yearly_lease_fees input_data limit msrp)%Q
  /\ (LeaseRow.total_annual_cost row
      == LeaseRow.lease_payment row + LeaseRow.maintenance row
         + LeaseRow.insurance row + LeaseRow.fuel_energy row
         + LeaseRow.fees_penalties row)%Q.

Definition over_lease_years (column : LeaseRow.t -> Q) (rows : list LeaseRow.t) : Q :=
  Py.sum (map column rows).

(** A row of the schedule of a used vehicle bought for [initial_value] in
    [start_year]: it never gains value, loses at most its rate times the
    initial value, stays between the 15% floor and the initial value, and
    its rate is between 1.4% and 9.6%. *)
Definition used_depreciation_row (initial_value : Q) (start_year model_year : Z)
           (row : DepRow.t) : Prop :=
  (0 <= DepRow.annual_depreciation row)%Q
  /\ (DepRow.annual_depreciation row
      <= initial_value * DepRow.depreciation_rate row)%Q
  /\ (initial_value * 0.15 <= DepRow.vehicle_value row)%Q
  /\ (DepRow.vehicle_value row <= initial_value)%Q
  /\ (0.014 <= DepRow.depreciation_rate row)%Q
  /\ (DepRow.depreciation_rate row <= 0.096)%Q
  /\ DepRow.ownership_year row = Some (start_year + DepRow.year row - 1)%Z
  /\ DepRow.vehicle_age row
     = Some (start_year + DepRow.year row - 1 - model_year)%Z.

(** A string of decimal digits, as a ZIP code is. *)
Definition is_digit (c : ascii) : bool :=
  let n := nat_of_ascii c in (48 <=? n)%nat && (n <=? 57)%nat.

Fixpoint is_digits (s : string) : bool :=
  match s with
  | EmptyString => true
  | String c rest => is_digit c && is_digits rest
  end.

(** The adjustment of the regional multiplier that depends on the state
    alone. *)
Definition state_adjustment (state : string) : Q :=
  if Py.str_in state ZipCodeUtils.high_cost_states then 1.1%Q
  else if Py.str_in state ZipCodeUtils.low_cost_states then 0.9%Q
  else 1%Q.

(** Each category total of a lease is the sum of its column. *)
Definition lease_totals_match (rows : list LeaseRow.t) (totals : LeaseTotals.t)
  : Prop :=
  (LeaseTotals.lease_payments totals
   == over_lease_years LeaseRow.lease_payment rows
   /\ LeaseTotals.maintenance totals == over_lease_years LeaseRow.maintenance rows
   /\ LeaseTotals.insurance totals == over_lease_years LeaseRow.insurance rows
   /\ LeaseTotals.fuel_energy totals == over_lease_years LeaseRow.fuel_energy rows
   /\ LeaseTotals.fees_penalties totals
      == over_lease_years LeaseRow.fees_penalties rows)%Q.

(** *** Ratings *)

(** The position of a rating on the scale from best to worst. *)
Definition rating_rank (rating : string) : nat :=
  if String.eqb rating "Exceptional" then 0
  else if String.eqb rating "Excellent" then 1
  else if String.eqb rating "Good" then 2
  else if String.eqb rating "Average" then 3
  else if String.eqb rating "Below Average" then 4
  else 5.

(** *** Comparisons *)

(** A row of a maintenance comparison over [years] years, between the rows
    reported as the cheapest and the dearest. *)
Definition comparison_row_is_sound (years : Z)
           (lowest highest row : MaintenanceCalculator.ComparisonRow.t) : Prop :=
  (MaintenanceCalculator.ComparisonRow.total_maintenance_cost lowest
   <= MaintenanceCalculator.ComparisonRow.total_maintenance_cost row)%Q
  /\ (MaintenanceCalculator.ComparisonRow.total_maintenance_cost row
      <= MaintenanceCalculator.ComparisonRow.total_maintenance_cost highest)%Q
  /\ (MaintenanceCalculator.ComparisonRow.average_annual_cost row * inject_Z years
      == MaintenanceCalculator.ComparisonRow.total_maintenance_cost row)%Q.

Definition ascending_cost : list MaintenanceCalculator.ComparisonRow.t -> Prop :=
  StronglySorted
    (fun a b =>
       (MaintenanceCalculator.ComparisonRow.total_maintenance_cost a
        <= MaintenanceCalculator.ComparisonRow.total_maintenance_cost b)%Q).

End Spec.

(* ===================================================================== *)
(** * Properties                                                           *)
(* ===================================================================== *)

(** ** Comparisons and arithmetic of the embedding *)

Section PyFacts.

Open Scope Q_scope.

Lemma Qleb_true (a b : Q) : Py.Qleb a b = true <-> a <= b.
Proof. unfold Py.Qleb. apply Qle_bool_iff. Qed.

Lemma Qleb_false (a b : Q) : Py.Qleb a b = false <-> b < a.
Proof.
  unfold Py.Qleb. split; intro H.
  - apply Qnot_le_lt. intro C. apply Qle_bool_iff in C. congruence.
  - destruct (Qle_bool a b) eqn:E; [ | reflexivity ].
    apply Qle_bool_iff in E. lra.
Qed.

Lemma Qltb_true (a b : Q) : Py.Qltb a b = true <-> a < b.
Proof.
  unfold Py.Qltb. rewrite negb_true_iff. apply (Qleb_false b a).
Qed.

Lemma Qltb_false (a b : Q) : Py.Qltb a b = false <-> b <= a.
Proof.
  unfold Py.Qltb. rewrite negb_false_iff. apply (Qleb_true b a).
Qed.

Lemma Qeqb_true (a b : Q) : Py.Qeqb a b = true <-> a == b.
Proof. unfold Py.Qeqb. apply Qeq_bool_iff. Qed.

Lemma Qeqb_false (a b : Q) : Py.Qeqb a b = false <-> ~ a == b.
Proof.
  unfold Py.Qeqb. split; intro H.
  - intro C. apply Qeq_bool_iff in C. congruence.
  - destruct (Qeq_bool a b) eqn:E; [ | reflexivity ].
    apply Qeq_bool_iff in E. contradiction.
Qed.

Lemma max_lower_bound (a b : Q) : b <= Py.max a b.
Proof.
  unfold Py.max, Py.Qgtb. destruct (Py.Qltb a b) eqn:E.
  - lra.
  - apply Qltb_false in E. exact E.
Qed.

Lemma min_cases (a b : Q) :
  (b < a /\ Py.min a b = b) \/ (a <= b /\ Py.min a b = a).
Proof.
  unfold Py.min. destruct (Py.Qltb b a) eqn:E.
  - left. apply Qltb_true in E. auto.
  - right. apply Qltb_false in E. auto.
Qed.

Lemma div_nonzero (a b : Q) : ~ b == 0 -> Py.div a b = inr (a / b).
Proof.
  intro H. unfold Py.div. apply Qeqb_false in H. rewrite H. reflexivity.
Qed.

Lemma div_zero (a b : Q) : b == 0 -> Py.div a b = inl Py.ZeroDivisionError.
Proof.
  intro H. unfold Py.div. apply Qeqb_true in H. rewrite H. reflexivity.
Qed.

(** [acc + x1 + ... + xn], as the [+=] loops compute it. *)
Lemma fold_left_Qplus_acc (xs : list Q) (acc : Q) :
  fold_left Qplus xs acc == acc + fold_left Qplus xs 0.
Proof.
  revert acc. induction xs as [ | x xs IH ]; intro acc; simpl.
  - lra.
  - rewrite (IH (acc + x)), (IH (0 + x)). lra.
Qed.

Lemma sum_app (xs ys : list Q) : Py.sum (xs ++ ys) == Py.sum xs + Py.sum ys.
Proof.
  unfold Py.sum. rewrite fold_left_app.
  rewrite fold_left_Qplus_acc. reflexivity.
Qed.

Lemma sum_cons (x : Q) (xs : list Q) : Py.sum (x :: xs) == x + Py.sum xs.
Proof.
  unfold Py.sum. simpl. rewrite fold_left_Qplus_acc. lra.
Qed.

Lemma length_range_from (lo : Z) (n : nat) : List.length (Py.range_from lo n) = n.
Proof.
  revert lo. induction n as [ | n IH ]; intro lo; simpl; [ | rewrite IH ]; reflexivity.
Qed.

Lemma range_from_ge (lo : Z) (n : nat) (y : Z) :
  In y (Py.range_from lo n) -> (lo <= y < lo + Z.of_nat n)%Z.
Proof.
  revert lo. induction n as [ | n IH ]; intros lo H; simpl in H.
  - contradiction.
  - destruct H as [ H | H ].
    + lia.
    + apply IH in H. lia.
Qed.

(** [xs[i]] inside the list. *)
Lemma item_in_range {A} (xs : list A) (i : Z) :
  (0 <= i < Py.len xs)%Z ->
  exists a, Py.item xs i = inr a /\ nth_error xs (Z.to_nat i) = Some a.
Proof.
  intros [ H0 H1 ]. unfold Py.item, Py.len in *.
  destruct (i <? 0)%Z eqn:E; [ apply Z.ltb_lt in E; lia | ].
  rewrite E.
  destruct (nth_error xs (Z.to_nat i)) as [ a | ] eqn:N.
  - exists a. split; reflexivity.
  - apply nth_error_None in N. lia.
Qed.

End PyFacts.

(** ** Segment classification *)

Section Classification.

Import EnhancedDepreciationModel.
Import Spec.
Open Scope string_scope.

(** C8. Classification is total: for every make and model it returns one of
    the eight segments, and the segment is the one of the first rule that
    matches in the order electric, luxury brand, sports, truck, suv, compact,
    economy, with sedan as the default. *)
Theorem classify_vehicle_segment_priority (make model : string) :
  In (_classify_vehicle_segment make model) segments
  /\ _classify_vehicle_segment make model
     = first_matching_rule priority_rules (Py.lower make) (Py.lower model).
Proof.
  split.
  - unfold _classify_vehicle_segment, segments.
    destruct (is_electric _ _); [ simpl; tauto | ].
    destruct (is_luxury _); [ simpl; tauto | ].
    destruct (is_sports _); [ simpl; tauto | ].
    destruct (is_truck _); [ simpl; tauto | ].
    destruct (is_suv _); [ simpl; tauto | ].
    destruct (is_compact _); [ simpl; tauto | ].
    destruct (is_economy _); simpl; tauto.
  - unfold _classify_vehicle_segment, priority_rules, first_matching_rule.
    reflexivity.
Qed.

Example classify_bmw_i3 : _classify_vehicle_segment "BMW" "i3" = "electric".
Proof. reflexivity. Qed.

Example classify_bmw_x5 : _classify_vehicle_segment "BMW" "X5" = "luxury".
Proof. reflexivity. Qed.

Example classify_ford_mustang : _classify_vehicle_segment "Ford" "Mustang" = "sports".
Proof. reflexivity. Qed.

Example classify_honda_ridgeline :
  _classify_vehicle_segment "Honda" "Ridgeline" = "truck".
Proof. reflexivity. Qed.

Example classify_toyota_rav4 : _classify_vehicle_segment "Toyota" "RAV4" = "suv".
Proof. reflexivity. Qed.

Example classify_honda_civic : _classify_vehicle_segment "Honda" "Civic" = "compact".
Proof. reflexivity. Qed.

Example classify_toyota_yaris : _classify_vehicle_segment "Toyota" "Yaris" = "economy".
Proof. reflexivity. Qed.

(** The first match wins: "versa" is a compact keyword, but it contains the
    sports keyword "rs", which is tested before. *)
Example classify_nissan_versa : _classify_vehicle_segment "Nissan" "Versa" = "sports".
Proof. reflexivity. Qed.

Example classify_unknown : _classify_vehicle_segment "Acme" "Roadrunner" = "sedan".
Proof. reflexivity. Qed.

End Classification.

(** ** Mileage multiplier *)

Section MileageImpact.

Import EnhancedDepreciationModel.
Import Spec.
Open Scope Q_scope.

(** Division by the constants of the curve, in the form [lra] reads. *)
Ltac divisions :=
  unfold standard_mileage, Qdiv;
  try (progress setoid_replace (/ 900) with (1 # 900) by reflexivity);
  try (progress setoid_replace (/ 4000) with (1 # 4000) by reflexivity);
  try (progress setoid_replace (/ 12000) with (1 # 12000) by reflexivity);
  try (progress setoid_replace (/ 8000) with (1 # 8000) by reflexivity);
  try (progress setoid_replace (/ 20000) with (1 # 20000) by reflexivity).

Ltac branch E :=
  match goal with
  | |- context [ Py.Qleb ?a ?b ] =>
      destruct (Py.Qleb a b) eqn:E;
      [ apply Qleb_true in E | apply Qleb_false in E ];
      unfold standard_mileage in E
  end.

(** The six pieces of the curve. *)
Lemma mileage_impact_upto_100 (m : Q) :
  m <= 100 -> _calculate_mileage_impact m == 0.60.
Proof.
  intro H. unfold _calculate_mileage_impact.
  branch E1; [ reflexivity | lra ].
Qed.

Lemma mileage_impact_100_1000 (m : Q) :
  100 < m -> m <= 1000 ->
  _calculate_mileage_impact m == 0.60 + (m - 100) * (1 # 900) * 0.15.
Proof.
  intros H1 H2. unfold _calculate_mileage_impact.
  branch E1; [ lra | ]. branch E2; [ | lra ].
  divisions. reflexivity.
Qed.

Lemma mileage_impact_1000_5000 (m : Q) :
  1000 < m -> m <= 5000 ->
  _calculate_mileage_impact m == 0.75 + (m - 1000) * (1 # 4000) * 0.10.
Proof.
  intros H1 H2. unfold _calculate_mileage_impact.
  branch E1; [ lra | ]. branch E2; [ lra | ]. branch E3; [ | lra ].
  divisions. reflexivity.
Qed.

Lemma mileage_impact_5000_12000 (m : Q) :
  5000 < m -> m <= 12000 ->
  _calculate_mileage_impact m == 0.85 + m * (1 # 12000) * 0.15.
Proof.
  intros H1 H2. unfold _calculate_mileage_impact.
  branch E1; [ lra | ]. branch E2; [ lra | ]. branch E3; [ lra | ].
  branch E4; [ | lra ].
  divisions. reflexivity.
Qed.

Lemma mileage_impact_12000_20000 (m : Q) :
  12000 < m -> m <= 20000 ->
  _calculate_mileage_impact m == 1.0 + (m - 12000) * (1 # 8000) * 0.25.
Proof.
  intros H1 H2. unfold _calculate_mileage_impact.
  branch E1; [ lra | ]. branch E2; [ lra | ]. branch E3; [ lra | ].
  branch E4; [ lra | ]. branch E5; [ | lra ].
  divisions. reflexivity.
Qed.

Lemma mileage_impact_20000_40000 (m : Q) :
  20000 < m -> m < 40000 ->
  _calculate_mileage_impact m == 1.25 + (m - 20000) * (1 # 20000) * 0.25.
Proof.
  intros H1 H2. unfold _calculate_mileage_impact.
  branch E1; [ lra | ]. branch E2; [ lra | ]. branch E3; [ lra | ].
  branch E4; [ lra | ]. branch E5; [ lra | ].
  pose proof (min_cases 1.5 (1.25 + (m - 20000) / 20000 * 0.25)) as C.
  destruct C as [ [ _ C ] | [ C _ ] ].
  - rewrite C. unfold Qdiv.
    setoid_replace (/ 20000) with (1 # 20000) by reflexivity. reflexivity.
  - unfold Qdiv in C.
    setoid_replace (/ 20000) with (1 # 20000) in C by reflexivity. lra.
Qed.

(** The values at the five breakpoints. *)
Lemma mileage_impact_at_breakpoints :
  _calculate_mileage_impact 100 == 0.60
  /\ _calculate_mileage_impact 1000 == 0.75
  /\ _calculate_mileage_impact 5000 == 0.85
  /\ _calculate_mileage_impact 12000 == 1.0
  /\ _calculate_mileage_impact 20000 == 1.25.
Proof. repeat split; vm_compute; reflexivity. Qed.

(** A value of the multiplier known up to [==] bounds the distance to it. *)
Ltac distance Hx Ha :=
  apply Qabs_Qlt_condition; rewrite Hx, Ha; split; lra.

(** The curve is continuous at 100, 1000, 12000 and 20000 miles. *)
Lemma mileage_impact_continuous_at_100 :
  continuous_at _calculate_mileage_impact 100.
Proof.
  intros eps Heps.
  destruct (mileage_impact_at_breakpoints) as (Ha & _).
  destruct (Qlt_le_dec eps 1) as [ Hsmall | Hbig ].
  - exists (eps * 900). split; [ lra | ].
    intros x Hx. apply Qabs_Qlt_condition in Hx.
    destruct (Qlt_le_dec 100 x) as [ Hr | Hl ].
    + pose proof (@mileage_impact_100_1000 x Hr ltac:(lra)) as Hv.
      distance Hv Ha.
    + pose proof (@mileage_impact_upto_100 x Hl) as Hv.
      distance Hv Ha.
  - exists 900. split; [ lra | ].
    intros x Hx. apply Qabs_Qlt_condition in Hx.
    destruct (Qlt_le_dec 100 x) as [ Hr | Hl ].
    + pose proof (@mileage_impact_100_1000 x Hr ltac:(lra)) as Hv.
      distance Hv Ha.
    + pose proof (@mileage_impact_upto_100 x Hl) as Hv.
      distance Hv Ha.
Qed.
Lemma mileage_impact_continuous_at_1000 :
  continuous_at _calculate_mileage_impact 1000.
Proof.
  intros eps Heps.
  destruct (mileage_impact_at_breakpoints) as (_ & Ha & _).
  destruct (Qlt_le_dec eps 1) as [ Hsmall | Hbig ];
    [ exists (eps * 900) | exists 900 ];
    (split; [ lra | ]);
    intros x Hx; apply Qabs_Qlt_condition in Hx;
    (destruct (Qlt_le_dec 1000 x) as [ Hr | Hl ];
     [ pose proof (@mileage_impact_1000_5000 x Hr ltac:(lra)) as Hv
     | pose proof (@mileage_impact_100_1000 x ltac:(lra) Hl) as Hv ];
     distance Hv Ha).
Qed.

Lemma mileage_impact_continuous_at_12000 :
  continuous_at _calculate_mileage_impact 12000.
Proof.
  intros eps Heps.
  destruct (mileage_impact_at_breakpoints) as (_ & _ & _ & Ha & _).
  destruct (Qlt_le_dec eps 1) as [ Hsmall | Hbig ];
    [ exists (eps * 7000) | exists 7000 ];
    (split; [ lra | ]);
    intros x Hx; apply Qabs_Qlt_condition in Hx;
    (destruct (Qlt_le_dec 12000 x) as [ Hr | Hl ];
     [ pose proof (@mileage_impact_12000_20000 x Hr ltac:(lra)) as Hv
     | pose proof (@mileage_impact_5000_12000 x ltac:(lra) Hl) as Hv ];
     distance Hv Ha).
Qed.

Lemma mileage_impact_continuous_at_20000 :
  continuous_at _calculate_mileage_impact 20000.
Proof.
  intros eps Heps.
  destruct (mileage_impact_at_breakpoints) as (_ & _ & _ & _ & Ha).
  destruct (Qlt_le_dec eps 1) as [ Hsmall | Hbig ];
    [ exists (eps * 8000) | exists 8000 ];
    (split; [ lra | ]);
    intros x Hx; apply Qabs_Qlt_condition in Hx;
    (destruct (Qlt_le_dec 20000 x) as [ Hr | Hl ];
     [ pose proof (@mileage_impact_20000_40000 x Hr ltac:(lra)) as Hv
     | pose proof (@mileage_impact_12000_20000 x ltac:(lra) Hl) as Hv ];
     distance Hv Ha).
Qed.

(** C2. The multiplier jumps at 5000 miles: it is 0.85 at 5000 and
    0.9125125 at 5001, and at least 0.9125 on the whole piece that follows
    5000, so the function is not continuous there.  (It is continuous at the
    other four breakpoints, see the lemmas above.) *)
Theorem mileage_impact_jump_at_5000 :
  _calculate_mileage_impact 5000 == 0.85
  /\ _calculate_mileage_impact 5001 == 0.9125125
  /\ ~ continuous_at _calculate_mileage_impact 5000.
Proof.
  destruct (mileage_impact_at_breakpoints) as (_ & _ & Ha & _).
  split; [ exact Ha | ].
  split; [ vm_compute; reflexivity | ].
  intro Hc.
  destruct (Hc 0.05 ltac:(lra)) as (delta & Hdelta & Hnear).
  destruct (Qlt_le_dec delta 2) as [ Hsmall | Hbig ].
  - pose proof (Hnear (5000 + delta * (1 # 2))) as Hx.
    assert (Hd : Qabs (5000 + delta * (1 # 2) - 5000) < delta).
    { apply Qabs_Qlt_condition. split; lra. }
    specialize (Hx Hd). apply Qabs_Qlt_condition in Hx.
    pose proof (@mileage_impact_5000_12000 (5000 + delta * (1 # 2))
                  ltac:(lra) ltac:(lra)) as Hv.
    rewrite Hv, Ha in Hx. lra.
  - pose proof (Hnear 5001) as Hx.
    assert (Hd : Qabs (5001 - 5000) < delta).
    { apply Qabs_Qlt_condition. split; lra. }
    specialize (Hx Hd). apply Qabs_Qlt_condition in Hx.
    pose proof (@mileage_impact_5000_12000 5001 ltac:(lra) ltac:(lra)) as Hv.
    rewrite Hv, Ha in Hx. lra.
Qed.

End MileageImpact.

(** ** Affordability *)

Section AffordabilityFacts.

Import PredictionService.
Open Scope Q_scope.

(** One step through a chain of binds that is known to return. *)
Ltac returned H :=
  match type of H with
  | Py.bind ?m _ = inr _ =>
      let E := fresh "E" in
      destruct m eqn:E; simpl in H; [ discriminate H | ]
  end.

Lemma affordability_zero_income (annual_cost gross_income : Q)
      (transaction_type : string) :
  gross_income == 0 ->
  _calculate_affordability annual_cost gross_income transaction_type
  = inl Py.ZeroDivisionError.
Proof.
  intro H. unfold _calculate_affordability.
  rewrite (div_zero annual_cost H). reflexivity.
Qed.

Lemma affordability_positive_income (annual_cost gross_income : Q)
      (transaction_type : string) :
  0 < gross_income ->
  exists a,
    _calculate_affordability annual_cost gross_income transaction_type = inr a
    /\ Affordability.percentage_of_income a == annual_cost / gross_income * 100.
Proof.
  intro H. unfold _calculate_affordability.
  rewrite (@div_nonzero annual_cost gross_income) by lra.
  simpl.
  destruct (Py.Qgtb (annual_cost / gross_income * 100) 0) eqn:E.
  - apply Qltb_true in E.
    rewrite (@div_nonzero 10 (annual_cost / gross_income * 100)) by lra.
    simpl. eexists. split; [ reflexivity | simpl; reflexivity ].
  - simpl. eexists. split; [ reflexivity | simpl; reflexivity ].
Qed.

(** C10. The affordability step divides by the gross income without a guard:
    a gross income of zero raises [ZeroDivisionError], so that neither the
    lease calculation nor the purchase cost roll-up returns a result, and a
    strictly positive gross income always yields the affordability record,
    with the percentage [annual_cost / gross_income * 100]. *)
Theorem affordability_division_by_gross_income :
  (forall annual_cost gross_income transaction_type,
      gross_income == 0 ->
      _calculate_affordability annual_cost gross_income transaction_type
      = inl Py.ZeroDivisionError)
  /\ (forall annual_cost gross_income transaction_type,
         0 < gross_income ->
         exists a,
           _calculate_affordability annual_cost gross_income transaction_type
           = inr a
           /\ Affordability.percentage_of_income a
              == annual_cost / gross_income * 100)
  /\ (forall self now input_data vehicle_characteristics regional_multiplier g,
         InputData.gross_income input_data = Some g ->
         g == 0 ->
         forall r,
           _calculate_lease_tco self now input_data vehicle_characteristics
                                regional_multiplier <> inr r)
  /\ (forall self input_data vehicle_characteristics regional_multiplier
             analysis_years purchase_price current_mileage
             depreciation_schedule financing_schedule maintenance_schedule,
         Py.get (InputData.gross_income input_data) 60000 == 0 ->
         forall r,
           purchase_costs self input_data vehicle_characteristics
             regional_multiplier analysis_years purchase_price current_mileage
             depreciation_schedule financing_schedule maintenance_schedule
           <> inr r).
Proof.
  split; [ exact affordability_zero_income | ].
  split; [ exact affordability_positive_income | ].
  split.
  - intros self now input_data vc regional g Hg Hzero r H.
    unfold _calculate_lease_tco in H.
    rewrite Hg in H.
    do 7 returned H.
    simpl in H.
    rewrite (affordability_zero_income _ _ Hzero) in H.
    discriminate H.
  - intros self input_data vc regional n price cm ds fs ms Hzero r H.
    unfold purchase_costs in H.
    do 7 returned H.
    rewrite (affordability_zero_income _ _ Hzero) in H.
    discriminate H.
Qed.

End AffordabilityFacts.

(** ** Used-vehicle depreciation *)

Section UsedVehicle.

Import PredictionService.
Open Scope Q_scope.
Open Scope list_scope.

Lemma annual_rates_len (age : Z) : Py.len (annual_rates_for age) = 5%Z.
Proof.
  unfold annual_rates_for.
  destruct (age <=? 3)%Z; [ reflexivity | ].
  destruct (age <=? 7)%Z; reflexivity.
Qed.

(** One iteration returns a row whose value respects the floor. *)
Lemma used_step_floor (input_data : InputData.t) (initial_value : Q)
      (annual_rates : list Q) (brand_multiplier : Q)
      (current_year : Z) (current_value : Q) (year : Z) :
  Py.len annual_rates = 5%Z ->
  (1 <= year)%Z ->
  exists row,
    used_step input_data initial_value annual_rates brand_multiplier
              current_year current_value year = inr row
    /\ initial_value * 0.15 <= DepRow.vehicle_value row.
Proof.
  intros Hlen Hyear. unfold used_step.
  destruct (@item_in_range Q annual_rates (Z.min (year - 1) (Py.len annual_rates - 1)))
    as (rate & Hitem & _); [ lia | ].
  rewrite Hitem. simpl.
  eexists. split; [ reflexivity | ].
  simpl. apply max_lower_bound.
Qed.

Lemma used_loop_floor (input_data : InputData.t) (initial_value : Q)
      (annual_rates : list Q) (brand_multiplier : Q) (current_year : Z)
      (n : nat) :
  Py.len annual_rates = 5%Z ->
  forall (lo : Z) (current_value : Q) (schedule : list DepRow.t),
    (1 <= lo)%Z ->
    Forall (fun row => initial_value * 0.15 <= DepRow.vehicle_value row) schedule ->
    exists result,
      used_loop input_data initial_value annual_rates brand_multiplier
                current_year (Py.range_from lo n) current_value schedule
      = inr result
      /\ List.length result = (List.length schedule + n)%nat
      /\ Forall (fun row => initial_value * 0.15 <= DepRow.vehicle_value row)
                result.
Proof.
  intro Hlen. induction n as [ | n IH ]; intros lo current_value schedule Hlo Hacc.
  - exists schedule. simpl. repeat split; [ lia | exact Hacc ].
  - simpl.
    destruct (@used_step_floor input_data initial_value annual_rates
                brand_multiplier current_year current_value lo Hlen Hlo)
      as (row & Hrow & Hfloor).
    rewrite Hrow. simpl.
    destruct (IH (lo + 1)%Z (DepRow.vehicle_value row) (schedule ++ [row]))
      as (result & Hresult & Hlength & Hall).
    + lia.
    + apply Forall_app. split; [ exact Hacc | ].
      constructor; [ exact Hfloor | constructor ].
    + exists result. split; [ exact Hresult | ].
      split; [ | exact Hall ].
      rewrite Hlength, length_app. simpl. lia.
Qed.

(** C7. The used-vehicle schedule always exists, has one row per year of the
    horizon, and every row's vehicle value is at least 15% of the purchase
    price it started from. *)
Theorem used_vehicle_value_floor
        (now : Datetime.t) (input_data : InputData.t)
        (initial_value : Q) (analysis_years : Z) :
  exists schedule,
    _calculate_realistic_used_vehicle_depreciation now input_data initial_value
                                                   analysis_years
    = inr schedule
    /\ List.length schedule = Z.to_nat analysis_years
    /\ Forall (fun row => initial_value * 0.15 <= DepRow.vehicle_value row)
              schedule.
Proof.
  unfold _calculate_realistic_used_vehicle_depreciation, Py.range1.
  destruct (@used_loop_floor input_data initial_value
              (annual_rates_for (Datetime.year now - InputData.year input_data))
              (Py.dict_get used_brand_multipliers (InputData.make input_data) 1.0)
              (Datetime.year now) (Z.to_nat analysis_years)
              (annual_rates_len _) 1%Z initial_value [])
    as (result & Hresult & Hlength & Hall).
  - lia.
  - constructor.
  - exists result. repeat split; assumption.
Qed.

End UsedVehicle.

(** ** Enhanced depreciation schedule *)

Section DepreciationSchedule.

Import EnhancedDepreciationModel.
Import Spec.
Open Scope Q_scope.
Open Scope list_scope.

(** Every curve of the model lists the years 1 to 15. *)
Lemma curve_of_lookup (rates : list Q) (lo year : Z) :
  (lo <= year < lo + Z.of_nat (List.length rates))%Z ->
  exists rate,
    Py.assoc Z.eqb year (combine (Py.range_from lo (List.length rates)) rates)
    = Some rate.
Proof.
  revert lo. induction rates as [ | r rates IH ]; intros lo H; simpl in *.
  - lia.
  - destruct (year =? lo)%Z eqn:E.
    + exists r. reflexivity.
    + apply Z.eqb_neq in E. apply IH. lia.
Qed.

Lemma segment_curve_shape (segment : string) :
  exists rates,
    Py.dict_get segment_curves segment standard_curve = curve_of rates
    /\ List.length rates = 15%nat.
Proof.
  unfold Py.dict_get, segment_curves, standard_curve. simpl.
  repeat match goal with
         | |- context [ String.eqb segment ?k ] =>
             destruct (String.eqb segment k);
             [ simpl; eexists; split; reflexivity | ]
         end.
  simpl. eexists. split; reflexivity.
Qed.

Lemma cumulative_rate_returns (year : Z) (segment : string) :
  (1 <= year)%Z ->
  exists rate, _get_cumulative_depreciation_rate year segment = inr rate.
Proof.
  intro H. unfold _get_cumulative_depreciation_rate, curve_at.
  destruct (segment_curve_shape segment) as (rates & -> & Hlen).
  unfold curve_of.
  destruct (year <=? 15)%Z eqn:E.
  - apply Z.leb_le in E.
    destruct (@curve_of_lookup rates 1 year) as (rate & ->); [ lia | ].
    exists rate. reflexivity.
  - destruct (@curve_of_lookup rates 1 15) as (rate & ->); [ lia | ].
    simpl. eexists. reflexivity.
Qed.

Lemma value_after_snoc (initial_value : Q) (schedule : list DepRow.t)
      (row : DepRow.t) :
  value_after initial_value (schedule ++ [row]) = DepRow.vehicle_value row.
Proof. unfold value_after. rewrite rev_app_distr. reflexivity. Qed.

Lemma total_annual_depreciation_snoc (schedule : list DepRow.t) (row : DepRow.t) :
  total_annual_depreciation (schedule ++ [row])
  == total_annual_depreciation schedule + DepRow.annual_depreciation row.
Proof.
  unfold total_annual_depreciation. rewrite map_app, sum_app. simpl.
  rewrite sum_cons. unfold Py.sum. simpl. lra.
Qed.

(** One iteration: the row's annual depreciation is the drop from the value
    the schedule had reached. *)
Lemma schedule_step_drop (initial_value : Q) (segment : string)
      (brand mileage : Q) (schedule : list DepRow.t) (year : Z) :
  (1 <= year)%Z ->
  Z.of_nat (List.length schedule) = (year - 1)%Z ->
  exists row,
    schedule_step initial_value segment brand mileage schedule year = inr row
    /\ DepRow.annual_depreciation row
       == value_after initial_value schedule - DepRow.vehicle_value row.
Proof.
  intros Hyear Hlen. unfold schedule_step.
  destruct (cumulative_rate_returns segment Hyear) as (rate & ->). simpl.
  destruct (year =? 1)%Z eqn:E.
  - apply Z.eqb_eq in E. subst year.
    destruct schedule; [ | simpl in Hlen; lia ].
    eexists. split; [ reflexivity | ]. simpl. unfold value_after. simpl. lra.
  - apply Z.eqb_neq in E.
    unfold last_row, value_after.
    destruct (rev schedule) as [ | final rest ] eqn:R.
    + apply (f_equal (@List.length _)) in R. rewrite length_rev in R.
      simpl in R. lia.
    + simpl. eexists. split; [ reflexivity | ]. simpl. lra.
Qed.

Lemma schedule_loop_telescopes (initial_value : Q) (segment : string)
      (brand mileage : Q) (n : nat) :
  forall (lo : Z) (schedule : list DepRow.t),
    (1 <= lo)%Z ->
    Z.of_nat (List.length schedule) = (lo - 1)%Z ->
    total_annual_depreciation schedule
    == initial_value - value_after initial_value schedule ->
    exists result,
      schedule_loop initial_value segment brand mileage (Py.range_from lo n)
                    schedule = inr result
      /\ List.length result = (List.length schedule + n)%nat
      /\ total_annual_depreciation result
         == initial_value - value_after initial_value result.
Proof.
  induction n as [ | n IH ]; intros lo schedule Hlo Hlen Hinv.
  - exists schedule. simpl. repeat split; [ lia | exact Hinv ].
  - simpl.
    destruct (@schedule_step_drop initial_value segment brand mileage schedule
                lo Hlo Hlen) as (row & -> & Hdrop).
    simpl.
    destruct (IH (lo + 1)%Z (schedule ++ [row])) as (result & Hres & Hl & Hsum).
    + lia.
    + rewrite length_app. simpl. lia.
    + rewrite total_annual_depreciation_snoc, value_after_snoc, Hinv, Hdrop.
      lra.
    + exists result. split; [ exact Hres | ]. split; [ | exact Hsum ].
      rewrite Hl, length_app. simpl. lia.
Qed.

(** C5. For a horizon of one or more years the enhanced model returns a
    schedule with one row per year, and its annual depreciation amounts sum
    to the initial value minus the value of the last row: the difference is
    zero, hence within a cent. *)
Theorem depreciation_schedule_sums_to_loss
        (initial_value : Q) (vehicle_make vehicle_model : string)
        (model_year annual_mileage years : Z) :
  (1 <= years)%Z ->
  exists schedule final,
    calculate_depreciation_schedule initial_value vehicle_make vehicle_model
                                    model_year annual_mileage years
    = inr schedule
    /\ List.length schedule = Z.to_nat years
    /\ last_row schedule = inr final
    /\ total_annual_depreciation schedule
       == initial_value - DepRow.vehicle_value final
    /\ Qabs (total_annual_depreciation schedule
             - (initial_value - DepRow.vehicle_value final)) <= 0.01.
Proof.
  intro Hyears. unfold calculate_depreciation_schedule, Py.range1.
  destruct (@schedule_loop_telescopes initial_value
              (_classify_vehicle_segment vehicle_make vehicle_model)
              (_apply_model_specific_adjustments vehicle_make vehicle_model
                 (Py.dict_get brand_multipliers vehicle_make 1.0))
              (_calculate_mileage_impact (inject_Z annual_mileage))
              (Z.to_nat years) 1%Z [])
    as (result & Hres & Hlen & Hsum).
  - lia.
  - reflexivity.
  - unfold total_annual_depreciation, value_after, Py.sum. simpl. lra.
  - simpl in Hlen.
    unfold value_after in Hsum.
    destruct (rev result) as [ | final rest ] eqn:R.
    + apply (f_equal (@List.length _)) in R. rewrite length_rev in R.
      simpl in R. lia.
    + exists result, final.
      split; [ exact Hres | ]. split; [ exact Hlen | ].
      split; [ unfold last_row; rewrite R; reflexivity | ].
      split; [ exact Hsum | ].
      apply Qabs_Qle_condition. split; lra.
Qed.

(** The 2024 Toyota Camry of the specification's scenario, over five years. *)
Lemma depreciation_schedule_sums_to_loss_witness :
  exists schedule final,
    calculate_depreciation_schedule 28000 "Toyota" "Camry" 2024 12000 5
    = inr schedule
    /\ List.length schedule = Z.to_nat 5
    /\ last_row schedule = inr final
    /\ total_annual_depreciation schedule == 28000 - DepRow.vehicle_value final
    /\ Qabs (total_annual_depreciation schedule
             - (28000 - DepRow.vehicle_value final)) <= 0.01.
Proof.
  apply (@depreciation_schedule_sums_to_loss 28000 "Toyota" "Camry" 2024 12000 5).
  lia.
Defined.

End DepreciationSchedule.

(** ** Maintenance schedule *)

Section MaintenanceSchedule.

Import MaintenanceCalculator.
Import Spec.
Open Scope Z_scope.
Open Scope list_scope.

Lemma listed_frequency_app (name : string) (xs ys : list Service.t) :
  listed_frequency name (xs ++ ys)
  = listed_frequency name xs + listed_frequency name ys.
Proof.
  unfold listed_frequency. rewrite filter_app, map_app.
  induction (map Service.frequency
                 (filter (fun s => String.eqb (Service.service s) name) xs))
    as [ | f fs IH ]; simpl; [ reflexivity | rewrite IH; lia ].
Qed.

Lemma lifetime_occurrences_app (name : string) (xs ys : list MaintYear.t) :
  lifetime_occurrences name (xs ++ ys)
  = lifetime_occurrences name xs + lifetime_occurrences name ys.
Proof.
  unfold lifetime_occurrences. rewrite map_app.
  induction (map (occurrences_this_year name) xs) as [ | f fs IH ]; simpl;
    [ reflexivity | rewrite IH; lia ].
Qed.

(** The line of a service carries the count of that service, when positive. *)
Lemma service_line_same (annual start total year : Z) (s : service_type)
      (interval : Z) :
  listed_frequency (display_name s)
                   (service_line annual start total year (s, interval))
  = Z.max 0 (services_this_year annual start total year interval).
Proof.
  unfold service_line.
  destruct (0 <? services_this_year annual start total year interval) eqn:E.
  - apply Z.ltb_lt in E. unfold listed_frequency. simpl.
    rewrite String.eqb_refl. simpl. lia.
  - apply Z.ltb_ge in E. unfold listed_frequency. simpl. lia.
Qed.

Lemma service_line_other (annual start total year : Z) (name : string)
      (s : service_type) (interval : Z) :
  display_name s <> name ->
  listed_frequency name (service_line annual start total year (s, interval)) = 0.
Proof.
  intro H. unfold service_line.
  destruct (0 <? services_this_year annual start total year interval).
  - unfold listed_frequency. simpl.
    apply String.eqb_neq in H. rewrite H. reflexivity.
  - reflexivity.
Qed.

Lemma table_lines_absent (annual start total year : Z) (name : string)
      (table : list (service_type * Z)) :
  ~ In name (map (fun e => display_name (fst e)) table) ->
  listed_frequency name
    (flat_map (service_line annual start total year) table) = 0.
Proof.
  induction table as [ | [ s i ] table IH ]; intro H; cbn [flat_map].
  - reflexivity.
  - cbn [map fst] in H.
    rewrite listed_frequency_app, service_line_other, IH.
    + reflexivity.
    + intro C. apply H. right. exact C.
    + intro C. apply H. left. exact C.
Qed.

Lemma table_lines_present (annual start total year : Z) (s : service_type)
      (interval : Z) (table : list (service_type * Z)) :
  NoDup (map (fun e => display_name (fst e)) table) ->
  In (s, interval) table ->
  listed_frequency (display_name s)
    (flat_map (service_line annual start total year) table)
  = Z.max 0 (services_this_year annual start total year interval).
Proof.
  induction table as [ | [ s' i' ] table IH ]; intros Hnodup Hin;
    cbn [flat_map map fst In] in *.
  - contradiction.
  - inversion Hnodup as [ | name names Hfresh Hrest ]; subst.
    rewrite listed_frequency_app.
    destruct Hin as [ Hhead | Htail ].
    + inversion Hhead; subst.
      rewrite service_line_same, table_lines_absent by exact Hfresh. lia.
    + rewrite service_line_other.
      * rewrite (IH Hrest Htail). reflexivity.
      * intro C. apply Hfresh. rewrite C.
        apply (in_map (fun e => display_name (fst e)) table (s, interval) Htail).
Qed.

Lemma service_names_distinct :
  NoDup (map (fun e => display_name (fst e)) service_intervals).
Proof.
  vm_compute.
  repeat (constructor; [ simpl; intuition discriminate | ]).
  constructor.
Qed.

Lemma service_intervals_positive (s : service_type) (interval : Z) :
  In (s, interval) service_intervals -> 0 < interval.
Proof.
  intro H.
  assert (F : Forall (fun e : service_type * Z => 0 < snd e) service_intervals).
  { unfold service_intervals. repeat constructor. }
  rewrite Forall_forall in F. apply (F _ H).
Qed.

(** With non-negative mileages the count of a year is the difference of two
    floors, and it is not negative. *)
Lemma services_this_year_floor (annual start year interval : Z) :
  0 <= annual -> 0 <= start -> 1 <= year -> 0 < interval ->
  services_this_year annual start (start + annual * year) year interval
  = (start + annual * year) / interval - (start + annual * (year - 1)) / interval
  /\ 0 <= services_this_year annual start (start + annual * year) year interval.
Proof.
  intros Ha Hs Hy Hi. unfold services_this_year, Py.int_div.
  rewrite !Z.quot_div_nonneg by nia.
  split; [ reflexivity | ].
  assert ((start + annual * (year - 1)) / interval
          <= (start + annual * year) / interval).
  { apply Z.div_le_mono; nia. }
  lia.
Qed.

Lemma year_loop_occurrences (annual start : Z) (s : service_type)
      (interval : Z) (n : nat) :
  0 <= annual -> 0 <= start ->
  In (s, interval) service_intervals ->
  forall (lo total : Z) (schedule : list MaintYear.t),
    1 <= lo ->
    total = start + annual * (lo - 1) ->
    lifetime_occurrences (display_name s)
      (year_loop annual start (Py.range_from lo n) total schedule)
    = lifetime_occurrences (display_name s) schedule
      + ((start + annual * (lo - 1 + Z.of_nat n)) / interval
         - (start + annual * (lo - 1)) / interval).
Proof.
  intros Ha Hs Hin.
  pose proof (@service_intervals_positive s interval Hin) as Hi.
  induction n as [ | n IH ]; intros lo total schedule Hlo Htotal.
  - simpl. replace (lo - 1 + 0) with (lo - 1) by lia. lia.
  - cbn [Py.range_from year_loop].
    rewrite (IH (lo + 1) (total + annual)) by lia.
    rewrite lifetime_occurrences_app.
    unfold lifetime_occurrences at 2. simpl.
    unfold occurrences_this_year. simpl. unfold year_services.
    rewrite (@table_lines_present annual start (total + annual) lo s interval
               service_intervals service_names_distinct Hin).
    replace (total + annual) with (start + annual * lo) by lia.
    destruct (@services_this_year_floor annual start lo interval Ha Hs Hlo Hi)
      as [ Heq Hge ].
    rewrite Z.max_r by exact Hge. rewrite Heq.
    replace (lo + 1 - 1 + Z.of_nat n) with (lo - 1 + Z.of_nat (S n)) by lia.
    replace (lo + 1 - 1) with lo by lia.
    lia.
Qed.

(** C4. For non-negative mileages and every service of the interval table,
    the occurrences listed year by year add up to the lifetime count
    [floor(final / interval) - floor(starting / interval)]. *)
Theorem maintenance_occurrences_telescope
        (annual_mileage years starting_mileage : Z)
        (service : service_type) (interval : Z) :
  0 <= annual_mileage -> 0 <= starting_mileage -> 0 <= years ->
  In (service, interval) service_intervals ->
  lifetime_occurrences (display_name service)
    (get_maintenance_schedule annual_mileage years starting_mileage)
  = (starting_mileage + annual_mileage * years) / interval
    - starting_mileage / interval.
Proof.
  intros Ha Hs Hy Hin. unfold get_maintenance_schedule, Py.range1.
  rewrite (@year_loop_occurrences annual_mileage starting_mileage service
             interval (Z.to_nat years) Ha Hs Hin 1 starting_mileage [])
    by lia.
  unfold lifetime_occurrences. cbn [map fold_right].
  rewrite Z2Nat.id by exact Hy.
  replace (starting_mileage + annual_mileage * (1 - 1)) with starting_mileage
    by lia.
  replace (1 - 1 + years) with years by lia.
  lia.
Qed.

(** A used car at 70,000 miles driven 12,000 miles a year for five years:
    the oil changes listed add up to floor(130000/7500) - floor(70000/7500). *)
Lemma maintenance_occurrences_telescope_witness :
  lifetime_occurrences (display_name oil_change)
    (get_maintenance_schedule 12000 5 70000)
  = (70000 + 12000 * 5) / 7500 - 70000 / 7500.
Proof.
  apply (@maintenance_occurrences_telescope 12000 5 70000 oil_change 7500).
  - lia.
  - lia.
  - lia.
  - simpl. left. reflexivity.
Defined.

End MaintenanceSchedule.

(** ** Purchase roll-up: out-of-pocket cost and total cost *)

Section PurchaseRollUp.

Import PredictionService.
Import Spec.
Open Scope Q_scope.
Open Scope list_scope.

Variable self : Collaborators.t.

Lemma over_years_snoc (column : PurchaseRow.t -> Q) (rows : list PurchaseRow.t)
      (row : PurchaseRow.t) :
  over_years column (rows ++ [row]) == over_years column rows + column row.
Proof.
  unfold over_years. rewrite map_app, sum_app. simpl.
  rewrite sum_cons. unfold Py.sum. simpl. lra.
Qed.

Lemma add_to_totals_match (rows : list PurchaseRow.t) (totals : PurchaseTotals.t)
      (row : PurchaseRow.t) :
  totals_match rows totals ->
  totals_match (rows ++ [row]) (add_to_totals totals row).
Proof.
  intros (Hd & Hm & Hi & Hf & Hn). unfold totals_match, add_to_totals. simpl.
  rewrite !over_years_snoc, Hd, Hm, Hi, Hf, Hn.
  repeat split; reflexivity.
Qed.

Lemma purchase_loop_totals
      (input_data : InputData.t) (vc : VehicleCharacteristics.t)
      (regional price : Q) (current_mileage : Z)
      (ds : list DepRow.t) (fs : option (list FinancingRow.t))
      (ms : list MaintYear.t) (years : list Z) :
  forall rows totals rows' totals',
    totals_match rows totals ->
    purchase_loop self input_data vc regional price current_mileage ds fs ms
                  years rows totals = inr (rows', totals') ->
    totals_match rows' totals'.
Proof.
  induction years as [ | year years IH ]; intros rows totals rows' totals' Hm H.
  - simpl in H. inversion H; subst. exact Hm.
  - simpl in H.
    destruct (purchase_year self input_data vc regional price current_mileage
                            ds fs ms year) as [ e | row ];
      simpl in H; [ discriminate H | ].
    apply (IH _ _ _ _ (add_to_totals_match row Hm) H).
Qed.
(** The row of a year carries that year. *)
Lemma purchase_year_is_dated
      (input_data : InputData.t) (vc : VehicleCharacteristics.t)
      (regional price : Q) (current_mileage : Z)
      (ds : list DepRow.t) (fs : option (list FinancingRow.t))
      (ms : list MaintYear.t) (year : Z) (row : PurchaseRow.t) :
  purchase_year self input_data vc regional price current_mileage ds fs ms year
  = inr row ->
  PurchaseRow.year row = year.
Proof.
  intro H. unfold purchase_year in H.
  repeat match type of H with
         | Py.bind ?m _ = inr _ =>
             destruct m; simpl in H; [ discriminate H | ]
         end.
  inversion H. reflexivity.
Qed.

(** The loop appends, for each year in turn, the row of that year: nothing
    is dropped, repeated or reordered. *)
Lemma purchase_loop_breakdown
      (input_data : InputData.t) (vc : VehicleCharacteristics.t)
      (regional price : Q) (current_mileage : Z)
      (ds : list DepRow.t) (fs : option (list FinancingRow.t))
      (ms : list MaintYear.t) (years : list Z) :
  forall rows totals rows' totals',
    purchase_loop self input_data vc regional price current_mileage ds fs ms
                  years rows totals = inr (rows', totals') ->
    exists added,
      rows' = rows ++ added
      /\ Forall2 (fun year row =>
                    purchase_year self input_data vc regional price
                                  current_mileage ds fs ms year = inr row)
                 years added.
Proof.
  induction years as [ | year years IH ]; intros rows totals rows' totals' H.
  - simpl in H. inversion H; subst.
    exists []. rewrite app_nil_r. split; [ reflexivity | constructor ].
  - simpl in H.
    destruct (purchase_year self input_data vc regional price current_mileage
                            ds fs ms year) as [ e | row ] eqn:E;
      simpl in H; [ discriminate H | ].
    destruct (IH _ _ _ _ H) as (added & -> & Hadded).
    exists (row :: added). split; [ rewrite <- app_assoc; reflexivity | ].
    constructor; [ exact E | exact Hadded ].
Qed.

(** C1. Whenever the purchase roll-up returns a result, its breakdown holds
    exactly the rows of the years 1, 2, ... of the horizon, one per year
    and in order, each the row the loop computes for that year; every
    category total is the sum of its column over these rows; the
    out-of-pocket total is the sum of the maintenance, insurance,
    fuel/energy and financing totals, that is the sum of these four columns
    over all the years (depreciation takes no part in it); and the total
    cost of ownership exceeds it by exactly the sum of the annual
    depreciation. *)
Theorem purchase_out_of_pocket_excludes_depreciation
        (input_data : InputData.t) (vc : VehicleCharacteristics.t)
        (regional : Q) (analysis_years : Z) (price : Q) (current_mileage : Z)
        (ds : list DepRow.t) (fs : option (list FinancingRow.t))
        (ms : list MaintYear.t) (r : PurchaseResult.t) :
  purchase_costs self input_data vc regional analysis_years price
                 current_mileage ds fs ms = inr r ->
  let summary := PurchaseResult.summary r in
  let rows := PurchaseResult.annual_breakdown r in
  let totals := PurchaseResult.category_totals r in
  Forall2 (fun year row =>
             purchase_year self input_data vc regional price current_mileage
                           ds fs ms year = inr row)
          (Py.range1 analysis_years) rows
  /\ map PurchaseRow.year rows = Py.range1 analysis_years
  /\ totals_match rows totals
  /\ PurchaseSummary.out_of_pocket_total summary
     == PurchaseTotals.maintenance totals + PurchaseTotals.insurance totals
        + PurchaseTotals.fuel_energy totals + PurchaseTotals.financing totals
  /\ PurchaseSummary.out_of_pocket_total summary
     == over_years PurchaseRow.maintenance rows
        + over_years PurchaseRow.insurance rows
        + over_years PurchaseRow.fuel_energy rows
        + over_years PurchaseRow.financing rows
  /\ PurchaseSummary.out_of_pocket_total summary
     == over_years out_of_pocket_of_row rows
  /\ PurchaseSummary.total_tco_with_depreciation summary
     - PurchaseSummary.out_of_pocket_total summary
     == over_years PurchaseRow.depreciation rows
  /\ PurchaseSummary.total_ownership_cost summary
     == PurchaseSummary.out_of_pocket_total summary.
Proof.
  intro H. unfold purchase_costs in H.
  destruct (purchase_loop self input_data vc regional price current_mileage
                          ds fs ms (Py.range1 analysis_years) []
                          initial_purchase_totals)
    as [ e | [ rows totals ] ] eqn:L; simpl in H; [ discriminate H | ].
  destruct (purchase_loop_breakdown _ _ _ _ _ _ _ _ _ _ _ L)
    as (added & Hrows & Hadded).
  simpl in Hrows. subst added.
  assert (Y : map PurchaseRow.year rows = Py.range1 analysis_years).
  { clear - Hadded. induction Hadded as [ | year row years rows Hrow _ IH ].
    - reflexivity.
    - simpl. rewrite IH, (purchase_year_is_dated _ _ _ _ _ _ _ _ _ Hrow).
      reflexivity. }
  assert (M : totals_match rows totals).
  { apply (purchase_loop_totals _ _ _ _ _ _ _ _ _ (rows := []) (totals := initial_purchase_totals)) in L.
    - exact L.
    - unfold totals_match, over_years, Py.sum, initial_purchase_totals. simpl.
      repeat split; reflexivity. }
  pose proof M as (Hd & Hm & Hi & Hf & Hn).
  repeat match type of H with
         | Py.bind ?m _ = inr _ =>
             destruct m; simpl in H; [ discriminate H | ]
         end.
  inversion H; subst r; clear H.
  cbn [PurchaseResult.summary PurchaseResult.annual_breakdown
       PurchaseResult.category_totals PurchaseSummary.out_of_pocket_total
       PurchaseSummary.total_tco_with_depreciation
       PurchaseSummary.total_ownership_cost].
  assert (Hrows : over_years out_of_pocket_of_row rows
                  == over_years PurchaseRow.maintenance rows
                     + over_years PurchaseRow.insurance rows
                     + over_years PurchaseRow.fuel_energy rows
                     + over_years PurchaseRow.financing rows).
  { clear. induction rows as [ | row rows IH ].
    - unfold over_years, Py.sum. simpl. lra.
    - unfold over_years in *. simpl. rewrite !sum_cons, IH.
      unfold out_of_pocket_of_row. lra. }
  split; [ exact Hadded | ]. split; [ exact Y | ]. split; [ exact M | ].
  unfold PurchaseTotals.values, Py.sum. cbn [fold_left].
  rewrite Hrows, Hd, Hm, Hi, Hf, Hn.
  repeat split; lra.
Qed.

End PurchaseRollUp.

Section PurchaseRollUpExample.

Import PredictionService.
Import Spec.
Open Scope Q_scope.

(** The roll-up of the used BMW scenario returns five rows, for the years
    1 to 5, and obeys the separation. *)
Lemma purchase_out_of_pocket_excludes_depreciation_witness :
  exists r,
    purchase_costs sample_collaborators sample_used_purchase
      sample_characteristics 1 5 18000 70000
      sample_depreciation_schedule None sample_maintenance_schedule = inr r
    /\ map PurchaseRow.year (PurchaseResult.annual_breakdown r)
       = [1; 2; 3; 4; 5]%Z
    /\ PurchaseSummary.total_tco_with_depreciation (PurchaseResult.summary r)
       - PurchaseSummary.out_of_pocket_total (PurchaseResult.summary r)
       == over_years PurchaseRow.depreciation (PurchaseResult.annual_breakdown r).
Proof.
  destruct (purchase_costs sample_collaborators sample_used_purchase
              sample_characteristics 1 5 18000 70000
              sample_depreciation_schedule None sample_maintenance_schedule)
    as [ e | r ] eqn:E.
  - vm_compute in E. discriminate E.
  - exists r. split; [ reflexivity | ].
    destruct (@purchase_out_of_pocket_excludes_depreciation
                _ _ _ _ _ _ _ _ _ _ _ E)
      as (_ & Hyears & _ & _ & _ & _ & Hdepreciation & _).
    split; [ exact Hyears | exact Hdepreciation ].
Defined.

End PurchaseRollUpExample.

(** ** Determinism and the clock *)

Section Determinism.

Import PredictionService.
Import Spec.
Open Scope Q_scope.











End Determinism.

(** ** The vehicle value behind the insurance premium *)

Section InsuranceBasis.

Import PredictionService.
Import Spec.
Open Scope Q_scope.
Open Scope list_scope.

Variable self : Collaborators.t.

(** One step through a chain of binds that is known to return, naming the
    value and the equation. *)
Tactic Notation "returned_as" hyp(H) ident(x) ident(E) :=
  match type of H with
  | Py.bind ?m _ = inr _ =>
      destruct m as [ ? | x ] eqn:E; simpl in H; [ discriminate H | ]
  end.

Lemma subscript_returned {A} (k : Py.key) (v : option A) (a : A) :
  Py.subscript k v = inr a -> v = Some a.
Proof.
  destruct v; simpl; intro H; inversion H; reflexivity.
Qed.

Lemma insured_value_of_year (purchase_price : Q) (ds : list DepRow.t)
      (year : Z) (v : Q) :
  (1 <= year)%Z ->
  (if (year <=? Py.len ds)%Z then
     this <- Py.item ds (year - 1) ;; Py.ret (DepRow.vehicle_value this)
   else Py.ret (purchase_price * 0.5)) = inr v ->
  v = depreciated_value purchase_price ds year.
Proof.
  intros Hyear H. unfold depreciated_value.
  destruct (year <=? Py.len ds)%Z eqn:E.
  - apply Z.leb_le in E.
    destruct (@item_in_range _ ds (year - 1)) as (row & Hitem & Hnth); [ lia | ].
    rewrite Hitem in H. simpl in H. rewrite Hnth.
    inversion H. reflexivity.
  - apply Z.leb_gt in E. unfold Py.len in E.
    assert (N : nth_error ds (Z.to_nat (year - 1)) = None).
    { apply nth_error_None. lia. }
    rewrite N. inversion H. reflexivity.
Qed.

Lemma purchase_year_insurance
      (input_data : InputData.t) (vc : VehicleCharacteristics.t)
      (regional price : Q) (current_mileage : Z) (ds : list DepRow.t)
      (fs : option (list FinancingRow.t)) (ms : list MaintYear.t)
      (year : Z) (row : PurchaseRow.t) :
  (1 <= year)%Z ->
  purchase_year self input_data vc regional price current_mileage ds fs ms year
  = inr row ->
  insured_at_depreciated_value self input_data regional price ds row.
Proof.
  intros Hyear H. unfold purchase_year in H.
  returned_as H dep E1.
  returned_as H maint E2.
  returned_as H value E3.
  returned_as H state E4.
  returned_as H mileage E5.
  returned_as H fin E6.
  inversion H; subst row; clear H.
  apply subscript_returned in E4, E5.
  apply (insured_value_of_year _ _ Hyear) in E3.
  exists state, mileage. simpl.
  split; [ exact E4 | ]. split; [ exact E5 | ].
  unfold purchase_premium. rewrite E3. reflexivity.
Qed.

Lemma purchase_loop_rows
      (P : PurchaseRow.t -> Prop)
      (input_data : InputData.t) (vc : VehicleCharacteristics.t)
      (regional price : Q) (current_mileage : Z) (ds : list DepRow.t)
      (fs : option (list FinancingRow.t)) (ms : list MaintYear.t)
      (years : list Z) :
  (forall year row,
      In year years ->
      purchase_year self input_data vc regional price current_mileage ds fs ms
                    year = inr row ->
      P row) ->
  forall rows totals rows' totals',
    Forall P rows ->
    purchase_loop self input_data vc regional price current_mileage ds fs ms
                  years rows totals = inr (rows', totals') ->
    Forall P rows'.
Proof.
  induction years as [ | year years IH ]; intros Hstep rows totals rows' totals' Hacc H.
  - simpl in H. inversion H; subst. exact Hacc.
  - simpl in H.
    destruct (purchase_year self input_data vc regional price current_mileage
                            ds fs ms year) as [ e | row ] eqn:E;
      simpl in H; [ discriminate H | ].
    apply (IH (fun y r Hin => Hstep y r (or_intror Hin))
              (rows ++ [row]) (add_to_totals totals row) rows' totals').
    + apply Forall_app. split; [ exact Hacc | ].
      constructor; [ | constructor ].
      apply (Hstep year row (or_introl eq_refl) E).
    + exact H.
Qed.

Lemma lease_year_insurance
      (input_data : InputData.t) (vc : VehicleCharacteristics.t)
      (regional monthly_payment : Q) (limit start_year : Z)
      (ms : list MaintYear.t) (year : Z) (row : LeaseRow.t) :
  InputData.lease_mileage_limit input_data = Some limit ->
  lease_year self input_data vc regional monthly_payment limit start_year ms year
  = inr row ->
  insured_at_msrp self input_data regional row.
Proof.
  intros Hlimit H. unfold lease_year in H.
  returned_as H maint E1.
  returned_as H msrp E2.
  returned_as H age E3.
  returned_as H state E4.
  returned_as H vehicles E5.
  returned_as H fuel E6.
  inversion H; subst row; clear H.
  apply subscript_returned in E2, E3, E4, E5.
  exists msrp, age, state, limit, vehicles. simpl.
  repeat (split; [ assumption | ]).
  reflexivity.
Qed.

Lemma lease_loop_rows
      (P : LeaseRow.t -> Prop)
      (now_year : Z)
      (input_data : InputData.t) (vc : VehicleCharacteristics.t)
      (regional monthly_payment : Q) (limit : Z) (ms : list MaintYear.t)
      (years : list Z) :
  (forall year row,
      In year years ->
      lease_year self input_data vc regional monthly_payment limit now_year ms
                 year = inr row ->
      P row) ->
  forall rows totals rows' totals',
    Forall P rows ->
    lease_loop self input_data vc regional monthly_payment limit now_year ms
               years rows totals = inr (rows', totals') ->
    Forall P rows'.
Proof.
  induction years as [ | year years IH ]; intros Hstep rows totals rows' totals' Hacc H.
  - simpl in H. inversion H; subst. exact Hacc.
  - simpl in H.
    destruct (lease_year self input_data vc regional monthly_payment limit
                         now_year ms year) as [ e | row ] eqn:E;
      simpl in H; [ discriminate H | ].
    apply (IH (fun y r Hin => Hstep y r (or_intror Hin))
              (rows ++ [row]) (add_to_lease_totals totals row) rows' totals').
    + apply Forall_app. split; [ exact Hacc | ].
      constructor; [ | constructor ].
      apply (Hstep year row (or_introl eq_refl) E).
    + exact H.
Qed.

(** C6 (as amended). In a purchase calculation every year's premium is
    computed from the vehicle value the depreciation schedule gives for that
    year; in a lease calculation every year's premium is computed from the
    MSRP, the same value for all years. *)
Theorem insurance_value_basis :
  (forall input_data vc regional analysis_years price current_mileage ds fs ms r,
      purchase_costs self input_data vc regional analysis_years price
                     current_mileage ds fs ms = inr r ->
      Forall (insured_at_depreciated_value self input_data regional price ds)
             (PurchaseResult.annual_breakdown r))
  /\ (forall now input_data vc regional r,
         _calculate_lease_tco self now input_data vc regional = inr r ->
         Forall (insured_at_msrp self input_data regional)
                (LeaseResult.annual_breakdown r)).
Proof.
  split.
  - intros input_data vc regional n price cm ds fs ms r H.
    unfold purchase_costs in H.
    destruct (purchase_loop self input_data vc regional price cm ds fs ms
                            (Py.range1 n) [] initial_purchase_totals)
      as [ e | [ rows totals ] ] eqn:L; simpl in H; [ discriminate H | ].
    assert (F : Forall (insured_at_depreciated_value self input_data regional
                                                     price ds) rows).
    { apply (@purchase_loop_rows _ input_data vc regional price cm ds fs ms
               (Py.range1 n)) with (rows := []) (totals := initial_purchase_totals)
                                    (totals' := totals).
      - intros year row Hin Hrow.
        apply range_from_ge in Hin.
        apply (@purchase_year_insurance input_data vc regional price cm ds fs
                 ms year row); [ lia | exact Hrow ].
      - constructor.
      - exact L. }
    repeat match type of H with
           | Py.bind ?m _ = inr _ =>
               destruct m; simpl in H; [ discriminate H | ]
           end.
    inversion H; subst r. simpl. exact F.
  - intros now input_data vc regional r H.
    unfold _calculate_lease_tco in H.
    returned_as H term E1.
    returned_as H payment E2.
    returned_as H limit E3.
    match type of H with
    | Py.bind ?m _ = inr _ =>
        destruct m as [ e | [ rows totals ] ] eqn:L; simpl in H;
          [ discriminate H | ]
    end.
    apply subscript_returned in E3.
    assert (F : Forall (insured_at_msrp self input_data regional) rows).
    { eapply lease_loop_rows with (rows := []); [ | constructor | exact L ].
      intros year row Hin Hrow.
      apply (lease_year_insurance _ _ _ _ _ _ _ E3 Hrow). }
    repeat match type of H with
           | Py.bind ?m _ = inr _ =>
               destruct m; simpl in H; [ discriminate H | ]
           end.
    inversion H; subst r. simpl. exact F.
Qed.

End InsuranceBasis.

Section InsuranceBasisExample.

Import PredictionService.
Import Spec.
Open Scope Q_scope.

(** C6, counterexample. In the two-year sample lease each year's premium is
    the premium of the $30,000 MSRP; the depreciation engine values the car
    below $30,000 in both years, and the premium of that value is another
    amount. *)
Lemma lease_premium_constant_counterexample :
  exists r schedule,
    calculate_total_cost_of_ownership sample_collaborators june_2025
                                      (sample_lease 2) = inr (Lease r)
    /\ EnhancedDepreciationModel.calculate_depreciation_schedule
         30000 "Toyota" "Camry" 2025 12000 2 = inr schedule
    /\ Forall2
         (fun row dep =>
            LeaseRow.insurance row == sample_lease_premium 30000
            /\ DepRow.vehicle_value dep < 30000
            /\ ~ LeaseRow.insurance row
                 == sample_lease_premium (DepRow.vehicle_value dep))
         (LeaseResult.annual_breakdown r) schedule.
Proof.
  destruct (calculate_total_cost_of_ownership sample_collaborators june_2025
                                              (sample_lease 2))
    as [ e | [ p | r ] ] eqn:E;
    [ vm_compute in E; discriminate E | vm_compute in E; discriminate E | ].
  destruct (EnhancedDepreciationModel.calculate_depreciation_schedule
              30000 "Toyota" "Camry" 2025 12000 2)
    as [ e | schedule ] eqn:D; [ vm_compute in D; discriminate D | ].
  exists r, schedule.
  split; [ reflexivity | ]. split; [ reflexivity | ].
  vm_compute in E. inversion E; subst r; clear E.
  vm_compute in D. inversion D; subst schedule; clear D.
  cbn [LeaseResult.annual_breakdown].
  repeat constructor; cbn [LeaseRow.insurance DepRow.vehicle_value];
    try (vm_compute; reflexivity);
    try (vm_compute; intro C; discriminate C).
Qed.

End InsuranceBasisExample.

(** ** Horizon and transaction type are not validated *)

Section NoValidation.

Import PredictionService.
Import Spec.
Open Scope Q_scope.
Open Scope list_scope.

Variable self : Collaborators.t.
Variable now : Datetime.t.

Lemma present_some {A} (v : option A) : present v = true -> exists a, v = Some a.
Proof.
  destruct v as [ a | ]; simpl; intro H; [ exists a; reflexivity | discriminate H ].
Qed.

Lemma inject_Z_nonzero (n : Z) : n <> 0%Z -> ~ inject_Z n == 0.
Proof.
  intros H C. apply H. unfold Qeq, inject_Z in C. simpl in C. lia.
Qed.

Lemma affordability_nonzero_income (annual_cost gross_income : Q)
      (transaction_type : string) :
  ~ gross_income == 0 ->
  exists a,
    _calculate_affordability annual_cost gross_income transaction_type = inr a.
Proof.
  intro H. unfold _calculate_affordability.
  rewrite (@div_nonzero annual_cost gross_income H). simpl.
  destruct (Py.Qgtb (annual_cost / gross_income * 100) 0) eqn:E.
  - apply Qltb_true in E.
    rewrite (@div_nonzero 10 (annual_cost / gross_income * 100)) by lra.
    simpl. eexists. reflexivity.
  - simpl. eexists. reflexivity.
Qed.

(** With its keys present, one year of the lease always yields a row. *)
Lemma lease_year_returns
      (input_data : InputData.t) (vc : VehicleCharacteristics.t)
      (regional monthly_payment : Q) (limit start_year : Z)
      (ms : list MaintYear.t) (year : Z) :
  lease_keys_present input_data = true ->
  (1 <= year)%Z ->
  exists row,
    lease_year self input_data vc regional monthly_payment limit start_year ms
               year = inr row.
Proof.
  intros Hkeys Hyear. unfold lease_keys_present in Hkeys.
  repeat (apply andb_true_iff in Hkeys; destruct Hkeys as [ Hkeys ?K ]).
  repeat match goal with
         | K : present _ = true |- _ =>
             apply present_some in K; destruct K as (? & K)
         end.
  unfold lease_year.
  assert (M : exists m,
             (if (year <=? Py.len ms)%Z then
                year_data <- Py.item ms (year - 1) ;;
                Py.ret (MaintYear.total_year_cost year_data,
                        MaintYear.services year_data)
              else Py.ret (0, [])) = inr m).
  { destruct (year <=? Py.len ms)%Z eqn:E.
    - apply Z.leb_le in E.
      destruct (@item_in_range _ ms (year - 1)) as (yd & -> & _); [ lia | ].
      simpl. eexists. reflexivity.
    - eexists. reflexivity. }
  destruct M as (m & ->).
  repeat match goal with
         | K : _ = Some _ |- _ => rewrite K; clear K
         end.
  simpl.
  destruct (Py.get (VehicleCharacteristics.is_electric vc) false);
    simpl; eexists; reflexivity.
Qed.

Lemma lease_loop_returns
      (input_data : InputData.t) (vc : VehicleCharacteristics.t)
      (regional monthly_payment : Q) (limit start_year : Z)
      (ms : list MaintYear.t) (n : nat) :
  lease_keys_present input_data = true ->
  forall (lo : Z) (rows : list LeaseRow.t) (totals : LeaseTotals.t),
    (1 <= lo)%Z ->
    exists rows' totals',
      lease_loop self input_data vc regional monthly_payment limit start_year
                 ms (Py.range_from lo n) rows totals = inr (rows', totals')
      /\ List.length rows' = (List.length rows + n)%nat.
Proof.
  intro Hkeys. induction n as [ | n IH ]; intros lo rows totals Hlo.
  - exists rows, totals. simpl. split; [ reflexivity | lia ].
  - simpl.
    destruct (@lease_year_returns input_data vc regional monthly_payment limit
                start_year ms lo Hkeys Hlo) as (row & ->).
    simpl.
    destruct (IH (lo + 1)%Z (rows ++ [row]) (add_to_lease_totals totals row))
      as (rows' & totals' & Hloop & Hlen); [ lia | ].
    exists rows', totals'. split; [ exact Hloop | ].
    rewrite Hlen, length_app. simpl. lia.
Qed.

(** A lease over any non-zero horizon is computed. *)
Lemma lease_returns_for_any_horizon
      (input_data : InputData.t) (vc : VehicleCharacteristics.t)
      (regional : Q) (term : Z) (gross_income : Q) :
  InputData.analysis_years input_data = Some term ->
  term <> 0%Z ->
  lease_keys_present input_data = true ->
  InputData.gross_income input_data = Some gross_income ->
  ~ gross_income == 0 ->
  exists r,
    _calculate_lease_tco self now input_data vc regional = inr r
    /\ List.length (LeaseResult.annual_breakdown r) = Z.to_nat term.
Proof.
  intros Hterm Hnonzero Hkeys Hincome Hgross.
  pose proof Hkeys as Hk. unfold lease_keys_present in Hk.
  repeat (apply andb_true_iff in Hk; destruct Hk as [ Hk ?K ]).
  repeat match goal with
         | K : present _ = true |- _ =>
             apply present_some in K; destruct K as (? & K)
         end.
  unfold _calculate_lease_tco.
  rewrite Hterm, Hincome.
  repeat match goal with
         | K : InputData.lease_monthly_payment _ = Some _ |- _ => rewrite K
         | K : InputData.lease_mileage_limit _ = Some _ |- _ => rewrite K
         | K : InputData.geography_type _ = Some _ |- _ => rewrite K
         | K : InputData.state _ = Some _ |- _ => rewrite K
         end.
  cbn [Py.subscript Py.bind Py.ret].
  replace (Py.bind_keywords
             MaintenanceCalculator.get_maintenance_schedule_parameters
             lease_maintenance_keywords) with (@inr Py.exn unit tt)
    by reflexivity.
  cbn [Py.bind].
  match goal with
  | |- context [ lease_loop self input_data vc regional ?p ?l ?y ?ms
                            (Py.range1 term) [] initial_lease_totals ] =>
      destruct (@lease_loop_returns input_data vc regional p l y ms
                  (Z.to_nat term) Hkeys 1%Z [] initial_lease_totals)
        as (rows & totals & Hloop & Hlen); [ lia | ]
  end.
  unfold Py.range1. rewrite Hloop. cbn [Py.bind fst snd].
  rewrite (@div_nonzero _ (inject_Z term)) by (apply inject_Z_nonzero; lia).
  cbn [Py.bind].
  rewrite (@div_nonzero _ (inject_Z (term * 12)))
    by (apply inject_Z_nonzero; lia).
  cbn [Py.bind].
  match goal with
  | |- context [ if (0 <? ?miles)%Z then Py.div ?c (inject_Z ?miles) else _ ] =>
      destruct (0 <? miles)%Z eqn:Emiles;
      [ apply Z.ltb_lt in Emiles;
        rewrite (@div_nonzero c (inject_Z miles))
          by (apply inject_Z_nonzero; lia)
      | ]
  end;
    cbn [Py.bind Py.ret];
    match goal with
    | |- context [ _calculate_affordability ?c gross_income ?t ] =>
        destruct (@affordability_nonzero_income c gross_income t Hgross)
          as (a & ->)
    end;
    cbn [Py.bind Py.ret];
    unfold _get_calculation_assumptions;
    repeat match goal with
           | K : InputData.geography_type _ = Some _ |- _ => rewrite K
           | K : InputData.state _ = Some _ |- _ => rewrite K
           end;
    cbn [Py.subscript Py.bind Py.ret];
    eexists; (split; [ reflexivity | ]);
    cbn [LeaseResult.annual_breakdown]; rewrite Hlen; reflexivity.
Qed.
(** The used-vehicle schedule reads the input only for the model year and
    the make. *)
Lemma used_loop_reads_the_year
      (d1 d2 : InputData.t) (initial_value : Q) (annual_rates : list Q)
      (brand_multiplier : Q) (current_year : Z) (years : list Z) :
  InputData.year d1 = InputData.year d2 ->
  forall current_value schedule,
    used_loop d1 initial_value annual_rates brand_multiplier current_year
              years current_value schedule
    = used_loop d2 initial_value annual_rates brand_multiplier current_year
                years current_value schedule.
Proof.
  intro Hyear. induction years as [ | year years IH ];
    intros current_value schedule; simpl.
  - reflexivity.
  - unfold used_step. rewrite Hyear.
    destruct (Py.item annual_rates
                      (Z.min (year - 1) (Py.len annual_rates - 1)));
      simpl; [ reflexivity | apply IH ].
Qed.

(** The purchase calculation does not read the transaction type. *)
Lemma purchase_ignores_transaction_type
      (input_data : InputData.t) (t1 t2 : string)
      (vc : VehicleCharacteristics.t) (regional : Q) :
  _calculate_purchase_tco self now (with_transaction_type input_data t1)
                          vc regional
  = _calculate_purchase_tco self now (with_transaction_type input_data t2)
                            vc regional.
Proof.
  unfold _calculate_purchase_tco, purchase_depreciation_schedule,
    detect_used_vehicle, _calculate_realistic_used_vehicle_depreciation,
    purchase_price_of.
  cbn [with_transaction_type InputData.year InputData.make InputData.model
       InputData.price InputData.trim_msrp InputData.current_mileage
       InputData.analysis_years InputData.annual_mileage].
  rewrite (@used_loop_reads_the_year
             (with_transaction_type input_data t1)
             (with_transaction_type input_data t2)); reflexivity.
Qed.

(** C3 (as amended). The orchestration validates neither the transaction
    type nor the length of the horizon: a transaction type that is not
    "lease" (in any letter case) gets the outcome of a purchase, and a lease
    over any horizon of one or more years, above 15 too, is computed into
    one annual row per year (its keys being present and the gross income
    not zero). *)
Theorem horizon_and_transaction_type_are_not_validated :
  (forall input_data transaction_type,
      is_lease transaction_type = false ->
      calculate_total_cost_of_ownership
        self now (with_transaction_type input_data transaction_type)
      = calculate_total_cost_of_ownership
          self now (with_transaction_type input_data "purchase"))
  /\ (forall input_data transaction_type term gross_income,
         InputData.transaction_type input_data = Some transaction_type ->
         is_lease transaction_type = true ->
         InputData.analysis_years input_data = Some term ->
         (1 <= term)%Z ->
         lease_keys_present input_data = true ->
         InputData.gross_income input_data = Some gross_income ->
         ~ gross_income == 0 ->
         exists r,
           calculate_total_cost_of_ownership self now input_data
           = inr (Lease r)
           /\ Py.len (LeaseResult.annual_breakdown r) = term).
Proof.
  split.
  - intros input_data t Ht.
    unfold calculate_total_cost_of_ownership.
    cbn [with_transaction_type InputData.transaction_type Py.get
         InputData.make InputData.model InputData.year InputData.zip_code
         InputData.state].
    unfold is_lease in Ht. rewrite Ht.
    replace (String.eqb (Py.lower "purchase") "lease") with false
      by reflexivity.
    rewrite (@purchase_ignores_transaction_type input_data t "purchase").
    reflexivity.
  - intros input_data t term g Ht Hlease Hterm Hpos Hkeys Hincome Hg.
    unfold calculate_total_cost_of_ownership.
    rewrite Ht. cbn [Py.get].
    unfold is_lease in Hlease. rewrite Hlease.
    destruct (@lease_returns_for_any_horizon input_data
                (Collaborators.get_vehicle_characteristics self
                   (InputData.make input_data) (InputData.model input_data)
                   (InputData.year input_data))
                (ZipCodeUtils.get_regional_cost_multiplier
                   (Py.get (InputData.zip_code input_data) "")
                   (Py.get (InputData.state input_data) ""))
                term g Hterm ltac:(lia) Hkeys Hincome Hg)
      as (r & -> & Hlen).
    exists r. split; [ reflexivity | ].
    unfold Py.len. rewrite Hlen. lia.
Qed.

End NoValidation.

Section NoValidationExample.

Import PredictionService.
Import Spec.
Open Scope Q_scope.

(** The sample lease over a horizon of sixteen years is computed. *)
Lemma horizon_and_transaction_type_are_not_validated_witness :
  exists r,
    calculate_total_cost_of_ownership sample_collaborators june_2025
                                      (sample_lease 16) = inr (Lease r)
    /\ Py.len (LeaseResult.annual_breakdown r) = 16%Z.
Proof.
  apply (proj2 (horizon_and_transaction_type_are_not_validated
                  sample_collaborators june_2025)
               (sample_lease 16) "Lease" 16%Z 60000).
  - reflexivity.
  - reflexivity.
  - reflexivity.
  - lia.
  - reflexivity.
  - reflexivity.
  - intro C. vm_compute in C. discriminate C.
Defined.

(** C3, counterexample. A lease over sixteen years is not rejected: the
    orchestration returns a result with sixteen annual rows; and a lease
    over minus one year is not rejected either: it returns a result with no
    row. *)
Lemma horizon_out_of_range_counterexample :
  exists r16 r_1,
    calculate_total_cost_of_ownership sample_collaborators june_2025
                                      (sample_lease 16) = inr (Lease r16)
    /\ List.length (LeaseResult.annual_breakdown r16) = 16%nat
    /\ calculate_total_cost_of_ownership sample_collaborators june_2025
                                         (sample_lease (-1)) = inr (Lease r_1)
    /\ LeaseResult.annual_breakdown r_1 = [].
Proof.
  destruct (calculate_total_cost_of_ownership sample_collaborators june_2025
                                              (sample_lease 16))
    as [ e | [ p | r16 ] ] eqn:E16;
    [ vm_compute in E16; discriminate E16
    | vm_compute in E16; discriminate E16 | ].
  destruct (calculate_total_cost_of_ownership sample_collaborators june_2025
                                              (sample_lease (-1)))
    as [ e | [ p | r_1 ] ] eqn:E1;
    [ vm_compute in E1; discriminate E1
    | vm_compute in E1; discriminate E1 | ].
  exists r16, r_1.
  split; [ reflexivity | ].
  split; [ vm_compute in E16; inversion E16; reflexivity | ].
  split; [ reflexivity | ].
  vm_compute in E1. inversion E1. reflexivity.
Qed.

End NoValidationExample.

(** ** Further facts and worked scenarios *)

Section Scenarios.

Import PredictionService.
Import Spec.
Open Scope Q_scope.
Open Scope list_scope.

(** The counts of any service interval telescope over the years, whatever
    the (positive) interval. *)
Lemma services_this_year_telescope (annual start interval : Z) (n : nat) :
  (0 <= annual)%Z -> (0 <= start)%Z -> (0 < interval)%Z ->
  forall lo : Z,
    (1 <= lo)%Z ->
    fold_right Z.add 0%Z
      (map (fun year =>
              MaintenanceCalculator.services_this_year
                annual start (start + annual * year) year interval)
           (Py.range_from lo n))
    = ((start + annual * (lo - 1 + Z.of_nat n)) / interval
       - (start + annual * (lo - 1)) / interval)%Z.
Proof.
  intros Ha Hs Hi. induction n as [ | n IH ]; intros lo Hlo.
  - simpl. replace (lo - 1 + 0)%Z with (lo - 1)%Z by lia. lia.
  - cbn [Py.range_from map fold_right].
    rewrite (IH (lo + 1)%Z) by lia.
    destruct (@services_this_year_floor annual start lo interval Ha Hs Hlo Hi)
      as [ -> _ ].
    replace (lo + 1 - 1 + Z.of_nat n)%Z with (lo - 1 + Z.of_nat (S n))%Z by lia.
    replace (lo + 1 - 1)%Z with lo by lia.
    lia.
Qed.

(** On the purchase path the call to [get_maintenance_schedule] passes the
    keywords [vehicle_make], [driving_style] and [vehicle_model], which the
    method of maintenance_utils.py does not declare: binding the call raises
    [TypeError], so [_calculate_purchase_tco] as a whole returns no result.
    The lease path passes the three declared keywords only. *)
Lemma purchase_path_keyword_mismatch
      (self : Collaborators.t) (now : Datetime.t) (input_data : InputData.t)
      (vc : VehicleCharacteristics.t) (regional : Q) (r : PurchaseResult.t) :
  _calculate_purchase_tco self now input_data vc regional <> inr r.
Proof.
  unfold _calculate_purchase_tco. intro H.
  destruct (purchase_depreciation_schedule now input_data
              (purchase_price_of input_data)
              (Py.get (InputData.analysis_years input_data) 5%Z)
              (Py.get (InputData.current_mileage input_data) 0%Z));
    simpl in H; [ discriminate H | ].
  destruct (InputData.annual_mileage input_data); simpl in H; discriminate H.
Qed.

Example lease_path_keywords_bind :
  Py.bind_keywords MaintenanceCalculator.get_maintenance_schedule_parameters
                   lease_maintenance_keywords = inr tt.
Proof. reflexivity. Qed.

(** The used BMW of the specification, bought for $18,000 at 70,000 miles:
    the linear-decay schedule has five rows, all at or above 15% of
    $18,000, that is $2,700. *)
Lemma used_vehicle_value_floor_witness :
  exists schedule,
    _calculate_realistic_used_vehicle_depreciation
      june_2025 sample_used_purchase 18000 5 = inr schedule
    /\ List.length schedule = 5%nat
    /\ Forall (fun row => 18000 * 0.15 <= DepRow.vehicle_value row) schedule.
Proof.
  exact (@used_vehicle_value_floor june_2025 sample_used_purchase 18000 5).
Defined.

(** An annual cost of $6,000 on a gross income of $60,000 is 10% of income
    and affordable; on an income of zero the step divides by zero. *)
Lemma affordability_division_by_gross_income_witness :
  (exists a,
      _calculate_affordability 6000 60000 "purchase" = inr a
      /\ Affordability.percentage_of_income a == 6000 / 60000 * 100)
  /\ _calculate_affordability 6000 0 "purchase" = inl Py.ZeroDivisionError.
Proof.
  split.
  - apply (proj1 (proj2 affordability_division_by_gross_income)
                 6000 60000 "purchase"%string).
    reflexivity.
  - apply (proj1 affordability_division_by_gross_income
                 6000 0 "purchase"%string).
    reflexivity.
Defined.

(** The roll-up of the used BMW insures each of its five years at the value
    of that year's row of the depreciation schedule. *)
Lemma insurance_value_basis_witness :
  exists r,
    purchase_costs sample_collaborators sample_used_purchase
      sample_characteristics 1 5 18000 70000
      sample_depreciation_schedule None sample_maintenance_schedule = inr r
    /\ Forall (insured_at_depreciated_value sample_collaborators
                 sample_used_purchase 1 18000 sample_depreciation_schedule)
              (PurchaseResult.annual_breakdown r).
Proof.
  destruct (purchase_costs sample_collaborators sample_used_purchase
              sample_characteristics 1 5 18000 70000
              sample_depreciation_schedule None sample_maintenance_schedule)
    as [ e | r ] eqn:E.
  - vm_compute in E. discriminate E.
  - exists r. split; [ reflexivity | ].
    exact (proj1 (insurance_value_basis sample_collaborators)
                 _ _ _ _ _ _ _ _ _ _ E).
Defined.

End Scenarios.

(* ===================================================================== *)
(** * Further properties of the engines                                    *)
(* ===================================================================== *)

(** ** The cumulative depreciation curves *)

Section CumulativeCurves.

Import EnhancedDepreciationModel.
Import Spec.
Open Scope Q_scope.
Open Scope list_scope.

Lemma in_range_from (lo : Z) (n : nat) (y : Z) :
  (lo <= y < lo + Z.of_nat n)%Z -> In y (Py.range_from lo n).
Proof.
  revert lo. induction n as [ | n IH ]; intros lo H.
  - lia.
  - simpl. destruct (Z.eq_dec lo y) as [ E | E ]; [ left; exact E | right ].
    apply IH. lia.
Qed.

Lemma dict_get_in {V} (d : list (string * V)) (k : string) (default : V) :
  In (Py.dict_get d k default) (default :: map snd d).
Proof.
  unfold Py.dict_get. induction d as [ | [ k' v ] d IH ]; simpl.
  - left. reflexivity.
  - destruct (String.eqb k k').
    + right. left. reflexivity.
    + simpl in IH. destruct IH as [ IH | IH ]; [ left | right; right ]; exact IH.
Qed.

Lemma all_curves_rise : forallb curve_rises all_curves = true.
Proof. vm_compute. reflexivity. Qed.

Lemma segment_curve_rises (segment : string) :
  curve_rises (Py.dict_get segment_curves segment standard_curve) = true.
Proof.
  pose proof all_curves_rise as H. rewrite forallb_forall in H.
  apply H. apply (dict_get_in segment_curves segment standard_curve).
Qed.

(** Two consecutive years of a curve, within the table. *)
Lemma curve_step (segment : string) (year : Z) :
  (1 <= year <= 14)%Z ->
  exists rate next,
    Py.assoc Z.eqb year (Py.dict_get segment_curves segment standard_curve)
    = Some rate
    /\ Py.assoc Z.eqb (year + 1)%Z
                (Py.dict_get segment_curves segment standard_curve)
       = Some next
    /\ 0 < rate /\ rate <= next /\ next <= 0.95.
Proof.
  intro Hyear.
  pose proof (segment_curve_rises segment) as H.
  unfold curve_rises in H. rewrite forallb_forall in H.
  specialize (H year (@in_range_from 1%Z 14%nat year ltac:(lia))).
  destruct (Py.assoc Z.eqb year _) as [ rate | ]; [ | discriminate H ].
  destruct (Py.assoc Z.eqb (year + 1)%Z _) as [ next | ]; [ | discriminate H ].
  apply andb_true_iff in H. destruct H as [ H H3 ].
  apply andb_true_iff in H. destruct H as [ H1 H2 ].
  apply Qltb_true in H1. apply Qleb_true in H2. apply Qleb_true in H3.
  exists rate, next. repeat split; assumption.
Qed.

(** The rate of a year of the horizon, with its bounds. *)
Lemma cumulative_rate_bounds (year : Z) (segment : string) :
  (1 <= year)%Z ->
  exists rate,
    _get_cumulative_depreciation_rate year segment = inr rate
    /\ 0 < rate /\ rate <= 0.96.
Proof.
  intro Hyear. unfold _get_cumulative_depreciation_rate, curve_at.
  destruct (year <=? 15)%Z eqn:E.
  - apply Z.leb_le in E.
    destruct (Z.eq_dec year 15) as [ -> | Hne ].
    + destruct (@curve_step segment 14 ltac:(lia)) as (r & n & _ & Hn & Hr & Hrn & Hn95).
      change (14 + 1)%Z with 15%Z in Hn. rewrite Hn. simpl.
      exists n. split; [ reflexivity | ]. split; lra.
    + destruct (@curve_step segment year ltac:(lia)) as (r & n & Hy & _ & Hr & Hrn & Hn95).
      rewrite Hy. simpl. exists r. split; [ reflexivity | ]. split; lra.
  - apply Z.leb_gt in E.
    destruct (@curve_step segment 14 ltac:(lia)) as (r & n & _ & Hn & Hr & Hrn & Hn95).
    change (14 + 1)%Z with 15%Z in Hn. rewrite Hn. simpl.
    eexists. split; [ reflexivity | ].
    assert (Hk : 0 < inject_Z (year - 15)).
    { change 0 with (inject_Z 0). rewrite <- Zlt_Qlt. lia. }
    destruct (min_cases 0.96 (n + inject_Z (year - 15) * 0.005))
      as [ [ Hlt -> ] | [ Hle -> ] ]; split; lra.
Qed.

(** The rate does not fall from one year to the next. *)
Lemma cumulative_rate_step (year : Z) (segment : string) :
  (1 <= year)%Z ->
  exists rate next,
    _get_cumulative_depreciation_rate year segment = inr rate
    /\ _get_cumulative_depreciation_rate (year + 1)%Z segment = inr next
    /\ rate <= next.
Proof.
  intro Hyear. unfold _get_cumulative_depreciation_rate, curve_at.
  destruct (Z_lt_le_dec year 15) as [ Hlow | Hhigh ].
  - destruct (@curve_step segment year ltac:(lia)) as (r & n & Hy & Hn & _ & Hrn & _).
    replace (year <=? 15)%Z with true by (symmetry; apply Z.leb_le; lia).
    replace (year + 1 <=? 15)%Z with true by (symmetry; apply Z.leb_le; lia).
    rewrite Hy, Hn. simpl. exists r, n. repeat split. exact Hrn.
  - destruct (@curve_step segment 14 ltac:(lia)) as (r & n & _ & Hn & _ & _ & Hn95).
    change (14 + 1)%Z with 15%Z in Hn.
    replace (year + 1 <=? 15)%Z with false by (symmetry; apply Z.leb_gt; lia).
    assert (Hnext : inject_Z (year + 1 - 15) == inject_Z (year - 15) + 1).
    { replace (year + 1 - 15)%Z with (year - 15 + 1)%Z by lia.
      rewrite inject_Z_plus. reflexivity. }
    assert (Hk : 0 <= inject_Z (year - 15)).
    { change 0 with (inject_Z 0). rewrite <- Zle_Qle. lia. }
    destruct (Z.eq_dec year 15) as [ Heq | Hne ].
    + subst year.
      replace (15 <=? 15)%Z with true by reflexivity.
      rewrite Hn. cbn [Py.subscript Py.bind Py.ret].
      eexists. eexists.
      split; [ reflexivity | ]. split; [ reflexivity | ].
      destruct (min_cases 0.96 (n + inject_Z (15 + 1 - 15) * 0.005))
        as [ [ Hlt -> ] | [ Hle -> ] ]; lra.
    + replace (year <=? 15)%Z with false by (symmetry; apply Z.leb_gt; lia).
      rewrite Hn. cbn [Py.subscript Py.bind Py.ret].
      eexists. eexists.
      split; [ reflexivity | ]. split; [ reflexivity | ].
      destruct (min_cases 0.96 (n + inject_Z (year - 15) * 0.005))
        as [ [ Hlt1 -> ] | [ Hle1 -> ] ];
        destruct (min_cases 0.96 (n + inject_Z (year + 1 - 15) * 0.005))
        as [ [ Hlt2 -> ] | [ Hle2 -> ] ]; lra.
Qed.

(** X1. For every segment name and every year from 1 on, the cumulative
    rate lies in (0, 0.96] and is not greater than the rate of the year
    after: the curve never falls, beyond year 15 either. *)
Theorem cumulative_rate_never_falls (year : Z) (segment : string) :
  (1 <= year)%Z ->
  exists rate next,
    _get_cumulative_depreciation_rate year segment = inr rate
    /\ _get_cumulative_depreciation_rate (year + 1)%Z segment = inr next
    /\ 0 < rate /\ rate <= next /\ next <= 0.96.
Proof.
  intro Hyear.
  destruct (@cumulative_rate_step year segment Hyear) as (rate & next & Hr & Hn & Hle).
  destruct (@cumulative_rate_bounds year segment Hyear) as (rate' & Hr' & Hpos & _).
  destruct (@cumulative_rate_bounds (year + 1)%Z segment ltac:(lia))
    as (next' & Hn' & _ & Hcap).
  rewrite Hr in Hr'. inversion Hr'; subst rate'.
  rewrite Hn in Hn'. inversion Hn'; subst next'.
  exists rate, next. repeat split; assumption.
Qed.

Lemma cumulative_rate_never_falls_witness :
  exists rate next,
    _get_cumulative_depreciation_rate 15 "electric" = inr rate
    /\ _get_cumulative_depreciation_rate (15 + 1)%Z "electric" = inr next
    /\ 0 < rate /\ rate <= next /\ next <= 0.96.
Proof.
  apply (@cumulative_rate_never_falls 15 "electric"). lia.
Defined.

Lemma assoc_below_range (rates : list Q) (lo year : Z) :
  (year < lo)%Z ->
  Py.assoc Z.eqb year (combine (Py.range_from lo (List.length rates)) rates)
  = None.
Proof.
  revert lo. induction rates as [ | r rates IH ]; intros lo H; simpl.
  - reflexivity.
  - replace (year =? lo)%Z with false by (symmetry; apply Z.eqb_neq; lia).
    apply IH. lia.
Qed.

(** X2. For a year of zero or below the lookup fails: the year is not a key
    of any curve and [KeyError] is raised, whatever the segment. *)
Theorem cumulative_rate_year_out_of_table (year : Z) (segment : string) :
  (year <= 0)%Z ->
  _get_cumulative_depreciation_rate year segment
  = inl (Py.KeyError (Py.IntKey year)).
Proof.
  intro Hyear. unfold _get_cumulative_depreciation_rate, curve_at.
  destruct (segment_curve_shape segment) as (rates & -> & Hlen).
  replace (year <=? 15)%Z with true by (symmetry; apply Z.leb_le; lia).
  unfold curve_of. rewrite assoc_below_range by lia. reflexivity.
Qed.

Lemma cumulative_rate_year_out_of_table_witness :
  _get_cumulative_depreciation_rate 0 "sedan" = inl (Py.KeyError (Py.IntKey 0)).
Proof.
  apply (@cumulative_rate_year_out_of_table 0 "sedan"). lia.
Defined.

End CumulativeCurves.

(** ** Bounds and monotonicity of the mileage multiplier *)

Section MileageBounds.

Import EnhancedDepreciationModel.
Import Spec.
Open Scope Q_scope.

(** The multiplier on each of its seven stretches, with divisions written
    as products. *)
Lemma mileage_impact_pieces (m : Q) :
  (m <= 100 /\ _calculate_mileage_impact m == 0.60)
  \/ (100 < m <= 1000
      /\ _calculate_mileage_impact m == 0.60 + (m - 100) * (1 # 900) * 0.15)
  \/ (1000 < m <= 5000
      /\ _calculate_mileage_impact m == 0.75 + (m - 1000) * (1 # 4000) * 0.10)
  \/ (5000 < m <= 12000
      /\ _calculate_mileage_impact m == 0.85 + m * (1 # 12000) * 0.15)
  \/ (12000 < m <= 20000
      /\ _calculate_mileage_impact m == 1.0 + (m - 12000) * (1 # 8000) * 0.25)
  \/ (20000 < m < 40000
      /\ _calculate_mileage_impact m
         == 1.25 + (m - 20000) * (1 # 20000) * 0.25)
  \/ (40000 <= m /\ _calculate_mileage_impact m == 1.5).
Proof.
  destruct (Qlt_le_dec 100 m) as [ H1 | H1 ];
    [ | left; split; [ exact H1 | apply mileage_impact_upto_100; exact H1 ] ].
  right.
  destruct (Qlt_le_dec 1000 m) as [ H2 | H2 ];
    [ | left; split; [ split; assumption
                     | apply mileage_impact_100_1000; assumption ] ].
  right.
  destruct (Qlt_le_dec 5000 m) as [ H3 | H3 ];
    [ | left; split; [ split; assumption
                     | apply mileage_impact_1000_5000; assumption ] ].
  right.
  destruct (Qlt_le_dec 12000 m) as [ H4 | H4 ];
    [ | left; split; [ split; assumption
                     | apply mileage_impact_5000_12000; assumption ] ].
  right.
  destruct (Qlt_le_dec 20000 m) as [ H5 | H5 ];
    [ | left; split; [ split; assumption
                     | apply mileage_impact_12000_20000; assumption ] ].
  right.
  destruct (Qlt_le_dec m 40000) as [ H6 | H6 ];
    [ left; split; [ split; assumption
                   | apply mileage_impact_20000_40000; assumption ] | ].
  right. split; [ exact H6 | ].
  unfold _calculate_mileage_impact, standard_mileage.
  repeat match goal with
         | |- context [ Py.Qleb m ?b ] =>
             let E := fresh "E" in
             destruct (Py.Qleb m b) eqn:E; [ apply Qleb_true in E; lra | clear E ]
         end.
  pose proof (min_cases 1.5 (1.25 + (m - 20000) / 20000 * 0.25)) as C.
  destruct C as [ [ C _ ] | [ _ -> ] ]; [ | reflexivity ].
  unfold Qdiv in C.
  setoid_replace (/ 20000) with (1 # 20000) in C by reflexivity. lra.
Qed.

(** The multiplier gives equal results on equal rationals. *)
Lemma mileage_impact_compatible (m1 m2 : Q) :
  m1 == m2 -> _calculate_mileage_impact m1 == _calculate_mileage_impact m2.
Proof.
  intro H.
  destruct (mileage_impact_pieces m1)
    as [ [ H1 E1 ] | [ [ H1 E1 ] | [ [ H1 E1 ] | [ [ H1 E1 ] | [ [ H1 E1 ] | [ [ H1 E1 ] | [ H1 E1 ] ] ] ] ] ] ];
    destruct (mileage_impact_pieces m2)
    as [ [ H2 E2 ] | [ [ H2 E2 ] | [ [ H2 E2 ] | [ [ H2 E2 ] | [ [ H2 E2 ] | [ [ H2 E2 ] | [ H2 E2 ] ] ] ] ] ] ];
    rewrite E1, E2; lra.
Qed.

Lemma mileage_impact_range (m : Q) : 0.60 <= _calculate_mileage_impact m <= 1.5.
Proof.
  destruct (mileage_impact_pieces m)
    as [ [ H E ] | [ [ H E ] | [ [ H E ] | [ [ H E ] | [ [ H E ] | [ [ H E ] | [ H E ] ] ] ] ] ] ];
    rewrite E; split; lra.
Qed.

Lemma mileage_impact_rises (m1 m2 : Q) :
  m1 <= m2 -> _calculate_mileage_impact m1 <= _calculate_mileage_impact m2.
Proof.
  intro Hle.
  destruct (mileage_impact_pieces m1)
    as [ [ H1 E1 ] | [ [ H1 E1 ] | [ [ H1 E1 ] | [ [ H1 E1 ] | [ [ H1 E1 ] | [ [ H1 E1 ] | [ H1 E1 ] ] ] ] ] ] ];
    destruct (mileage_impact_pieces m2)
    as [ [ H2 E2 ] | [ [ H2 E2 ] | [ [ H2 E2 ] | [ [ H2 E2 ] | [ [ H2 E2 ] | [ [ H2 E2 ] | [ H2 E2 ] ] ] ] ] ] ];
    rewrite E1, E2; lra.
Qed.

(** X3. The mileage multiplier always lies between 0.60 and 1.5, and
    driving more never lowers it. *)
Theorem mileage_impact_bounded_and_monotone :
  (forall m, 0.60 <= _calculate_mileage_impact m <= 1.5)
  /\ (forall m1 m2,
         m1 <= m2 -> _calculate_mileage_impact m1 <= _calculate_mileage_impact m2).
Proof.
  split; [ exact mileage_impact_range | exact mileage_impact_rises ].
Qed.

End MileageBounds.

(** ** Rows of the enhanced depreciation schedule *)

Section ScheduleRows.

Import EnhancedDepreciationModel.
Import Spec.
Open Scope Q_scope.
Open Scope list_scope.

Lemma brand_multiplier_positive (make : string) :
  0 < Py.dict_get brand_multipliers make 1.0.
Proof.
  assert (H : brand_multipliers_positive = true) by (vm_compute; reflexivity).
  unfold brand_multipliers_positive in H. rewrite forallb_forall in H.
  apply Qltb_true. apply H. apply (dict_get_in brand_multipliers make 1.0).
Qed.

Lemma adjusted_brand_multiplier_positive (make model : string) (base : Q) :
  0 < base -> 0 < _apply_model_specific_adjustments make model base.
Proof.
  intro H. unfold _apply_model_specific_adjustments.
  destruct (model_listed high_retention_models make model); [ lra | ].
  destruct (model_listed poor_retention_models make model); lra.
Qed.

Lemma cap_in_range (segment : string) :
  0 < Py.dict_get max_depreciation segment 0.92
  /\ Py.dict_get max_depreciation segment 0.92 <= 0.96.
Proof.
  assert (H : caps_in_range = true) by (vm_compute; reflexivity).
  unfold caps_in_range in H. rewrite forallb_forall in H.
  specialize (H _ (dict_get_in max_depreciation segment 0.92)).
  apply andb_true_iff in H. destruct H as [ H1 H2 ].
  apply Qltb_true in H1. apply Qleb_true in H2. split; assumption.
Qed.

Lemma min_monotone (a a' cap : Q) : a <= a' -> Py.min a cap <= Py.min a' cap.
Proof.
  intro H.
  destruct (min_cases a cap) as [ [ ? -> ] | [ ? -> ] ];
    destruct (min_cases a' cap) as [ [ ? -> ] | [ ? -> ] ]; lra.
Qed.

Lemma min_in_range (a cap : Q) :
  0 <= a -> 0 < cap -> 0 <= Py.min a cap /\ Py.min a cap <= cap.
Proof.
  intros Ha Hc.
  destruct (min_cases a cap) as [ [ ? -> ] | [ ? -> ] ]; split; lra.
Qed.

Lemma scaled_rate_nonneg (base brand mileage : Q) :
  0 <= base -> 0 <= brand -> 0 <= mileage -> 0 <= base * brand * mileage.
Proof.
  intros. apply Qmult_le_0_compat; [ apply Qmult_le_0_compat | ]; assumption.
Qed.

Lemma scaled_rate_monotone (base base' brand mileage : Q) :
  base <= base' -> 0 <= brand -> 0 <= mileage ->
  base * brand * mileage <= base' * brand * mileage.
Proof.
  intros Hb Hbrand Hm.
  apply Qmult_le_compat_r; [ apply Qmult_le_compat_r | ]; assumption.
Qed.

(** The value kept after a cumulative loss of [rate]. *)
Lemma kept_value_bounds (initial rate : Q) :
  0 <= initial -> 0 <= rate -> rate <= 0.96 ->
  initial * 0.04 <= initial * (1 - rate) /\ initial * (1 - rate) <= initial.
Proof.
  intros Hi H0 H1.
  assert (A : 0 <= initial * rate) by (apply Qmult_le_0_compat; assumption).
  assert (B : initial * rate <= initial * 0.96).
  { rewrite (Qmult_comm initial rate), (Qmult_comm initial 0.96).
    apply Qmult_le_compat_r; assumption. }
  split.
  - setoid_replace (initial * (1 - rate)) with (initial - initial * rate) by ring.
    lra.
  - setoid_replace (initial * (1 - rate)) with (initial - initial * rate) by ring.
    lra.
Qed.

Lemma kept_value_antitone (initial rate rate' : Q) :
  0 <= initial -> rate <= rate' ->
  initial * (1 - rate') <= initial * (1 - rate).
Proof.
  intros Hi H.
  rewrite (Qmult_comm initial (1 - rate')), (Qmult_comm initial (1 - rate)).
  apply Qmult_le_compat_r; [ lra | exact Hi ].
Qed.

(** The row of one iteration: its rate and its value. *)
Lemma schedule_step_row (initial_value : Q) (segment : string)
      (brand mileage : Q) (schedule : list DepRow.t) (year : Z) (row : DepRow.t) :
  schedule_step initial_value segment brand mileage schedule year = inr row ->
  exists base,
    _get_cumulative_depreciation_rate year segment = inr base
    /\ DepRow.depreciation_rate row
       = Py.min (base * brand * mileage)
                (Py.dict_get max_depreciation segment 0.92)
    /\ DepRow.vehicle_value row
       = initial_value
         * (1 - Py.min (base * brand * mileage)
                       (Py.dict_get max_depreciation segment 0.92)).
Proof.
  intro H. unfold schedule_step in H.
  destruct (_get_cumulative_depreciation_rate year segment) as [ e | base ];
    simpl in H; [ discriminate H | ].
  exists base. split; [ reflexivity | ].
  destruct (year =? 1)%Z.
  - simpl in H. inversion H. split; reflexivity.
  - destruct (last_row schedule) as [ e | previous ]; simpl in H;
      [ discriminate H | ].
    inversion H. split; reflexivity.
Qed.

Lemma schedule_loop_rows (initial_value : Q) (segment : string)
      (brand mileage : Q) (n : nat) :
  0 <= initial_value -> 0 <= brand -> 0 <= mileage ->
  forall (lo : Z) (schedule result : list DepRow.t),
    (1 <= lo)%Z ->
    Z.of_nat (List.length schedule) = (lo - 1)%Z ->
    Forall (sound_depreciation_row initial_value) schedule ->
    (forall base,
        _get_cumulative_depreciation_rate lo segment = inr base ->
        initial_value
        * (1 - Py.min (base * brand * mileage)
                      (Py.dict_get max_depreciation segment 0.92))
        <= value_after initial_value schedule) ->
    schedule_loop initial_value segment brand mileage (Py.range_from lo n)
                  schedule = inr result ->
    Forall (sound_depreciation_row initial_value) result.
Proof.
  intros Hi Hbrand Hm.
  destruct (cap_in_range segment) as [ Hcap0 Hcap1 ].
  induction n as [ | n IH ]; intros lo schedule result Hlo Hlen Hrows Hprev H.
  - simpl in H. inversion H; subst. exact Hrows.
  - simpl in H.
    destruct (schedule_step initial_value segment brand mileage schedule lo)
      as [ e | row ] eqn:Hstep; simpl in H; [ discriminate H | ].
    destruct (schedule_step_row _ _ _ _ _ _ Hstep) as (base & Hbase & Hrate & Hvalue).
    destruct (@schedule_step_drop initial_value segment brand mileage schedule
                lo Hlo Hlen) as (row' & Hstep' & Hdrop).
    rewrite Hstep in Hstep'. inversion Hstep'; subst row'. clear Hstep'.
    destruct (@cumulative_rate_bounds lo segment Hlo) as (base' & Hbase' & Hpos & _).
    rewrite Hbase in Hbase'. inversion Hbase'; subst base'. clear Hbase'.
    pose proof (@scaled_rate_nonneg base brand mileage ltac:(lra) Hbrand Hm) as Hscaled.
    destruct (@min_in_range (base * brand * mileage)
                (Py.dict_get max_depreciation segment 0.92) Hscaled Hcap0)
      as [ Hmin0 Hmin1 ].
    destruct (@kept_value_bounds initial_value
                (Py.min (base * brand * mileage)
                        (Py.dict_get max_depreciation segment 0.92))
                Hi Hmin0 ltac:(lra)) as [ Hlow Hhigh ].
    apply (IH (lo + 1)%Z (schedule ++ [row]) result).
    + lia.
    + rewrite length_app. simpl. lia.
    + apply Forall_app. split; [ exact Hrows | ].
      constructor; [ | constructor ].
      unfold sound_depreciation_row. rewrite Hrate, Hvalue.
      specialize (Hprev base Hbase).
      split; [ rewrite Hdrop, Hvalue; lra | ].
      repeat split; lra.
    + intros next Hnext.
      rewrite value_after_snoc, Hvalue.
      destruct (@cumulative_rate_step lo segment Hlo) as (b1 & b2 & Hb1 & Hb2 & Hle).
      rewrite Hbase in Hb1. inversion Hb1; subst b1.
      rewrite Hnext in Hb2. inversion Hb2; subst b2.
      apply kept_value_antitone; [ exact Hi | ].
      apply min_monotone. apply scaled_rate_monotone; assumption.
    + exact H.
Qed.

(** X4. For a non-negative initial value, every row of the enhanced
    schedule has a non-negative annual depreciation (the value never rises
    from one year to the next), a cumulative rate between 0 and 0.96, and a
    vehicle value between 4% of the initial value and the initial value. *)
Theorem depreciation_schedule_rows_are_sound
        (initial_value : Q) (vehicle_make vehicle_model : string)
        (model_year annual_mileage years : Z) (schedule : list DepRow.t) :
  0 <= initial_value ->
  calculate_depreciation_schedule initial_value vehicle_make vehicle_model
                                  model_year annual_mileage years
  = inr schedule ->
  Forall (sound_depreciation_row initial_value) schedule.
Proof.
  intros Hi H. unfold calculate_depreciation_schedule, Py.range1 in H.
  pose proof (brand_multiplier_positive vehicle_make) as Hbrand.
  pose proof (@adjusted_brand_multiplier_positive vehicle_make vehicle_model
                _ Hbrand) as Hadjusted.
  pose proof (mileage_impact_range (inject_Z annual_mileage)) as [ Hm _ ].
  apply (@schedule_loop_rows initial_value
           (_classify_vehicle_segment vehicle_make vehicle_model)
           (_apply_model_specific_adjustments vehicle_make vehicle_model
              (Py.dict_get brand_multipliers vehicle_make 1.0))
           (_calculate_mileage_impact (inject_Z annual_mileage))
           (Z.to_nat years) Hi ltac:(lra) ltac:(lra) 1%Z [] schedule);
    try assumption.
  - lia.
  - reflexivity.
  - constructor.
  - intros base Hbase. unfold value_after. simpl.
    destruct (@cumulative_rate_bounds 1 (_classify_vehicle_segment vehicle_make
                                                                  vehicle_model)
                ltac:(lia)) as (base' & Hbase' & Hpos & _).
    rewrite Hbase in Hbase'. inversion Hbase'; subst base'.
    destruct (cap_in_range (_classify_vehicle_segment vehicle_make vehicle_model))
      as [ Hcap0 Hcap1 ].
    pose proof (@scaled_rate_nonneg base
                  (_apply_model_specific_adjustments vehicle_make vehicle_model
                     (Py.dict_get brand_multipliers vehicle_make 1.0))
                  (_calculate_mileage_impact (inject_Z annual_mileage))
                  ltac:(lra) ltac:(lra) ltac:(lra)) as Hscaled.
    destruct (@min_in_range _ _ Hscaled Hcap0) as [ Hmin0 Hmin1 ].
    apply (@kept_value_bounds initial_value _ Hi Hmin0 ltac:(lra)).
Qed.

Lemma depreciation_schedule_rows_are_sound_witness :
  exists schedule,
    calculate_depreciation_schedule 28000 "Toyota" "Camry" 2024 12000 5
    = inr schedule
    /\ Forall (sound_depreciation_row 28000) schedule.
Proof.
  destruct (calculate_depreciation_schedule 28000 "Toyota" "Camry" 2024 12000 5)
    as [ e | schedule ] eqn:E.
  - vm_compute in E. discriminate E.
  - exists schedule. split; [ reflexivity | ].
    apply (@depreciation_schedule_rows_are_sound
             28000 "Toyota" "Camry" 2024 12000 5 schedule); [ lra | exact E ].
Defined.

End ScheduleRows.

(** ** Shape of the base maintenance schedule *)

Section MaintenanceShape.

Import MaintenanceCalculator.
Import Spec.
Open Scope Z_scope.
Open Scope list_scope.

(** The loop with its running total builds the rows of the closed form. *)
Lemma year_loop_closed_form (annual start : Z) (n : nat) :
  forall (lo total : Z) (schedule : list MaintYear.t),
    total = start + annual * (lo - 1) ->
    year_loop annual start (Py.range_from lo n) total schedule
    = schedule ++ map (maintenance_year_row annual start) (Py.range_from lo n).
Proof.
  induction n as [ | n IH ]; intros lo total schedule Htotal.
  - simpl. rewrite app_nil_r. reflexivity.
  - cbn [Py.range_from year_loop map].
    rewrite (IH (lo + 1) (total + annual)) by lia.
    rewrite <- app_assoc. cbn [app].
    unfold maintenance_year_row.
    replace (start + annual * lo) with (total + annual) by lia.
    reflexivity.
Qed.

Lemma maintenance_schedule_closed_form (annual years start : Z) :
  get_maintenance_schedule annual years start
  = map (maintenance_year_row annual start) (Py.range1 years).
Proof.
  unfold get_maintenance_schedule, Py.range1.
  rewrite (@year_loop_closed_form annual start (Z.to_nat years) 1 start [])
    by lia.
  reflexivity.
Qed.

(** X5. The base maintenance schedule has one entry per year 1, 2, ... of
    the horizon, in that order; the total mileage of entry [y] is the
    starting mileage plus [y] times the annual mileage, each year starts at
    the mileage the year before ended at, and the cost of a year is the sum
    of its service lines. *)
Theorem maintenance_schedule_shape (annual_mileage years starting_mileage : Z) :
  let schedule :=
    get_maintenance_schedule annual_mileage years starting_mileage in
  map MaintYear.year schedule = Py.range1 years
  /\ map MaintYear.total_mileage schedule
     = map (fun year => starting_mileage + annual_mileage * year)
           (Py.range1 years)
  /\ Forall (fun year_data =>
               MaintYear.ending_year_mileage year_data
               = Some (MaintYear.total_mileage year_data)
               /\ MaintYear.starting_year_mileage year_data
                  = Some (MaintYear.total_mileage year_data - annual_mileage)
               /\ year_cost_is_sum year_data)
            schedule.
Proof.
  cbv zeta. rewrite maintenance_schedule_closed_form.
  rewrite !map_map. cbn [maintenance_year_row MaintYear.year MaintYear.total_mileage].
  split; [ apply map_id | ].
  split; [ reflexivity | ].
  apply Forall_map. apply Forall_forall. intros year _.
  unfold year_cost_is_sum. cbn.
  split; [ reflexivity | ].
  split; [ f_equal; lia | reflexivity ].
Qed.

(** The names listed from a table of distinct names are distinct. *)
Lemma table_lines_names (annual start total year : Z)
      (table : list (service_type * Z)) (name : string) :
  In name (map Service.service
               (flat_map (service_line annual start total year) table)) ->
  In name (map (fun e => display_name (fst e)) table).
Proof.
  induction table as [ | [ s i ] table IH ]; cbn [flat_map map fst]; intro H.
  - exact H.
  - rewrite map_app in H. apply in_app_or in H. destruct H as [ H | H ].
    + left. unfold service_line in H.
      destruct (0 <? services_this_year annual start total year i);
        simpl in H; [ | contradiction ].
      destruct H as [ H | [] ]. exact H.
    + right. apply IH. exact H.
Qed.

Lemma table_lines_distinct (annual start total year : Z)
      (table : list (service_type * Z)) :
  NoDup (map (fun e => display_name (fst e)) table) ->
  NoDup (map Service.service
             (flat_map (service_line annual start total year) table)).
Proof.
  induction table as [ | [ s i ] table IH ]; cbn [flat_map map fst]; intro H.
  - constructor.
  - inversion H as [ | name names Hfresh Hrest ]; subst.
    rewrite map_app. unfold service_line at 1.
    destruct (0 <? services_this_year annual start total year i).
    + cbn [map app Service.service]. constructor.
      * intro C. apply Hfresh. apply (table_lines_names _ _ _ _ _ _ C).
      * apply IH. exact Hrest.
    + cbn [map app]. apply IH. exact Hrest.
Qed.

Lemma table_lines_consistent (annual start total year : Z)
      (table : list (service_type * Z)) :
  Forall (fun line => 1 <= Service.frequency line /\ line_is_consistent line)
         (flat_map (service_line annual start total year) table).
Proof.
  induction table as [ | [ s i ] table IH ]; cbn [flat_map].
  - constructor.
  - apply Forall_app. split; [ | exact IH ].
    unfold service_line.
    destruct (0 <? services_this_year annual start total year i) eqn:E;
      [ | constructor ].
    apply Z.ltb_lt in E. constructor; [ | constructor ].
    unfold line_is_consistent. cbn. split; [ lia | ].
    rewrite inject_Z_mult. reflexivity.
Qed.

(** X6. In every year of the base schedule, each listed service occurs at
    least once, its total cost is its unit cost times its frequency, and no
    two lines carry the same service name. *)
Theorem maintenance_lines_are_consistent
        (annual_mileage years starting_mileage : Z) :
  Forall (fun year_data =>
            NoDup (map Service.service (MaintYear.services year_data))
            /\ Forall (fun line =>
                         1 <= Service.frequency line /\ line_is_consistent line)
                      (MaintYear.services year_data))
         (get_maintenance_schedule annual_mileage years starting_mileage).
Proof.
  rewrite maintenance_schedule_closed_form.
  apply Forall_map. apply Forall_forall. intros year _.
  cbn [maintenance_year_row MaintYear.services]. unfold year_services.
  split.
  - apply table_lines_distinct. exact service_names_distinct.
  - apply table_lines_consistent.
Qed.

Lemma table_lines_due (annual start year : Z) (table : list (service_type * Z)) :
  0 <= annual -> 0 <= start -> 1 <= year ->
  Forall (fun e : service_type * Z => 0 < snd e) table ->
  Forall (fun line =>
            exists due,
              Service.due_at_mileage line = Some due
              /\ start + annual * (year - 1) < due <= start + annual * year)
         (flat_map (service_line annual start (start + annual * year) year)
                   table).
Proof.
  intros Ha Hs Hy Hpos.
  induction table as [ | [ s i ] table IH ]; cbn [flat_map].
  - constructor.
  - inversion Hpos as [ | e es Hi Hrest ]; subst. cbn [snd] in Hi.
    apply Forall_app. split; [ | apply IH; exact Hrest ].
    unfold service_line.
    destruct (0 <? services_this_year annual start (start + annual * year)
                                      year i) eqn:E; [ | constructor ].
    apply Z.ltb_lt in E. constructor; [ | constructor ].
    eexists. split; [ reflexivity | ].
    destruct (@services_this_year_floor annual start year i Ha Hs Hy Hi)
      as [ Hcount _ ].
    rewrite Hcount in E.
    unfold Py.int_div. rewrite Z.quot_div_nonneg by nia.
    pose proof (Z.mul_div_le (start + annual * year) i Hi) as Hlast.
    pose proof (Z.mul_succ_div_gt (start + annual * (year - 1)) i Hi) as Hfirst.
    nia.
Qed.

Lemma service_intervals_all_positive :
  Forall (fun e : service_type * Z => 0 < snd e) service_intervals.
Proof. unfold service_intervals. repeat constructor. Qed.

(** X7. With non-negative mileages, the mileage at which a listed service
    first falls due lies within the mileage driven in that year: after the
    mileage the year starts at and not beyond the mileage it ends at. *)
Theorem maintenance_due_within_year
        (annual_mileage years starting_mileage : Z) :
  0 <= annual_mileage -> 0 <= starting_mileage ->
  Forall due_within_year
         (get_maintenance_schedule annual_mileage years starting_mileage).
Proof.
  intros Ha Hs.
  rewrite maintenance_schedule_closed_form.
  apply Forall_map. apply Forall_forall. intros year Hin.
  apply range_from_ge in Hin.
  unfold due_within_year.
  cbn [maintenance_year_row MaintYear.starting_year_mileage
       MaintYear.ending_year_mileage MaintYear.services].
  eexists. eexists. split; [ reflexivity | ]. split; [ reflexivity | ].
  unfold year_services.
  apply table_lines_due; try assumption; [ lia | ].
  exact service_intervals_all_positive.
Qed.

Lemma maintenance_due_within_year_witness :
  Forall due_within_year (get_maintenance_schedule 12000 5 70000).
Proof.
  apply (@maintenance_due_within_year 12000 5 70000); lia.
Defined.

End MaintenanceShape.

(** ** The adjusted maintenance schedules *)

Section AdjustedSchedules.

Import PredictionService.
Import Spec.
Open Scope Q_scope.
Open Scope list_scope.

Lemma clamp_in_range (regional : Q) :
  0.8 <= Py.max 0.8 (Py.min 1.3 regional) <= 1.3.
Proof.
  unfold Py.max, Py.Qgtb.
  destruct (min_cases 1.3 regional) as [ [ H -> ] | [ H -> ] ].
  - destruct (Py.Qltb 0.8 regional) eqn:E.
    + apply Qltb_true in E. split; lra.
    + split; lra.
  - destruct (Py.Qltb 0.8 1.3) eqn:E.
    + split; lra.
    + apply Qltb_false in E. lra.
Qed.

Lemma sum_snoc (xs : list Q) (x : Q) : Py.sum (xs ++ [x]) == Py.sum xs + x.
Proof.
  rewrite sum_app, sum_cons. unfold Py.sum at 2. simpl. lra.
Qed.

Lemma adjust_year_sound (make shop_type : string)
      (brand shop regional : Q) (year_data : MaintYear.t) :
  0.8 <= regional <= 1.3 ->
  adjusted_year_is_sound
    (adjust_year make shop_type brand shop regional year_data).
Proof.
  intro Hregional. unfold adjusted_year_is_sound, adjust_year.
  cbn [MaintYear.regional_multiplier MaintYear.services
       MaintYear.total_year_cost MaintYear.year].
  split; [ exists regional; split; [ reflexivity | exact Hregional ] | ].
  assert (Hlines :
            Forall (fun line =>
                      line_is_consistent line
                      /\ (Service.interval_based line = Some false ->
                          (3 < MaintYear.year year_data)%Z
                          /\ 100 < Service.total_cost line))
                   (map (adjust_service brand shop regional shop_type)
                        (MaintYear.services year_data))).
  { apply Forall_map. apply Forall_forall. intros line _.
    unfold line_is_consistent, adjust_service. cbn.
    split; [ reflexivity | intro C; discriminate C ]. }
  unfold year_cost_is_sum.
  cbn [MaintYear.total_year_cost MaintYear.services].
  destruct ((3 <? MaintYear.year year_data)%Z
            && Py.Qgtb (_calculate_year_specific_wear_maintenance
                          (MaintYear.year year_data) make shop_type regional)
                       100) eqn:E.
  - apply andb_true_iff in E. destruct E as [ Hyear Hwear ].
    apply Z.ltb_lt in Hyear. apply Qltb_true in Hwear.
    split.
    + rewrite map_app. cbn [map Service.total_cost].
      rewrite sum_snoc. unfold accumulate, Py.sum. reflexivity.
    + apply Forall_app. split; [ exact Hlines | ].
      constructor; [ | constructor ].
      unfold line_is_consistent. cbn.
      split; [ ring | intros _; split; assumption ].
  - split; [ unfold accumulate, Py.sum; reflexivity | exact Hlines ].
Qed.

(** X8. Whatever the base schedule, make, shop type and regional multiplier,
    the purchase adjustment keeps one entry per year with the same year and
    mileage, records a regional multiplier clamped to [0.8, 1.3], and in
    every year the cost is the sum of the lines, each line's total is its
    unit cost times its frequency, and a wear line appears only after year 3
    and only when it costs more than 100. *)
Theorem adjusted_maintenance_schedule_is_sound
        (base_schedule : list MaintYear.t) (vehicle_make shop_type : string)
        (regional_multiplier : Q) :
  let adjusted :=
    _adjust_maintenance_schedule base_schedule vehicle_make shop_type
                                 regional_multiplier in
  map MaintYear.year adjusted = map MaintYear.year base_schedule
  /\ map MaintYear.total_mileage adjusted
     = map MaintYear.total_mileage base_schedule
  /\ Forall adjusted_year_is_sound adjusted.
Proof.
  cbv zeta. unfold _adjust_maintenance_schedule.
  rewrite !map_map. cbn [adjust_year MaintYear.year MaintYear.total_mileage].
  split; [ reflexivity | ]. split; [ reflexivity | ].
  apply Forall_map. apply Forall_forall. intros year_data _.
  apply adjust_year_sound. apply clamp_in_range.
Qed.

Lemma lease_discount_in_range (lease_year : Z) :
  0.2 <= lease_warranty_discount lease_year <= 0.6.
Proof.
  unfold lease_warranty_discount.
  destruct (lease_year <=? 2)%Z; [ split; lra | ].
  destruct (lease_year <=? 3)%Z; split; lra.
Qed.

Lemma adjust_lease_year_sound (brand shop regional : Q) (year_data : MaintYear.t) :
  lease_year_is_sound (adjust_lease_year brand shop regional year_data).
Proof.
  unfold lease_year_is_sound, adjust_lease_year.
  cbn [MaintYear.warranty_discount MaintYear.services MaintYear.total_year_cost].
  exists (lease_warranty_discount (MaintYear.year year_data)).
  split; [ reflexivity | ].
  split; [ apply lease_discount_in_range | ].
  set (discount := lease_warranty_discount (MaintYear.year year_data)).
  set (kept :=
         flat_map
           (fun service : Service.t =>
              if Py.Qgtb (Service.cost_per_service service * brand * shop
                          * regional * (1 - discount)) 5
              then
                [ {| Service.service := Service.service service;
                     Service.frequency := Service.frequency service;
                     Service.cost_per_service :=
                       Service.cost_per_service service * brand * shop
                       * regional * (1 - discount);
                     Service.total_cost :=
                       Service.cost_per_service service * brand * shop
                       * regional * (1 - discount)
                       * inject_Z (Service.frequency service);
                     Service.due_at_mileage := None;
                     Service.warranty_covered :=
                       Some (Service.cost_per_service service * brand * shop
                             * regional * discount
                             * inject_Z (Service.frequency service));
                     Service.shop_type := Some "dealership"%string;
                     Service.interval_based := Some true |} ]
              else [])
           (MaintYear.services year_data)).
  assert (Hlines :
            Forall (fun line =>
                      line_is_consistent line
                      /\ exists covered,
                          Service.warranty_covered line = Some covered
                          /\ (Service.interval_based line = Some true ->
                              5 < Service.cost_per_service line
                              /\ covered * (1 - discount)
                                 == Service.total_cost line * discount))
                   kept).
  { subst kept. induction (MaintYear.services year_data) as [ | s rest IH ];
      cbn [flat_map]; [ constructor | ].
    apply Forall_app. split; [ | exact IH ].
    destruct (Py.Qgtb (Service.cost_per_service s * brand * shop * regional
                       * (1 - discount)) 5) eqn:E; [ | constructor ].
    apply Qltb_true in E. constructor; [ | constructor ].
    unfold line_is_consistent. cbn.
    split; [ reflexivity | ].
    eexists. split; [ reflexivity | ].
    intros _. split; [ exact E | ring ]. }
  unfold year_cost_is_sum.
  cbn [MaintYear.total_year_cost MaintYear.services].
  destruct (3 <? MaintYear.year year_data)%Z.
  - split.
    + rewrite map_app. cbn [map Service.total_cost].
      rewrite sum_snoc. unfold accumulate, Py.sum. reflexivity.
    + apply Forall_app. split; [ exact Hlines | ].
      constructor; [ | constructor ].
      unfold line_is_consistent. cbn.
      split; [ ring | ].
      eexists. split; [ reflexivity | intro C; discriminate C ].
  - split; [ unfold accumulate, Py.sum; reflexivity | exact Hlines ].
Qed.

(** X9. Whatever the base schedule, make and regional multiplier, every
    year of the lease-adjusted schedule has a warranty discount between 20%
    and 60%, a cost equal to the sum of its lines, consistent lines, and
    interval-based lines that cost more than 5 per occurrence and whose
    warranty-covered amount and out-of-pocket total split the full cost in
    the proportion of the discount. *)
Theorem lease_maintenance_schedule_is_sound
        (base_schedule : list MaintYear.t) (vehicle_make : string)
        (regional_multiplier : Q) :
  let adjusted :=
    _adjust_lease_maintenance_schedule base_schedule vehicle_make
                                       regional_multiplier in
  map MaintYear.year adjusted = map MaintYear.year base_schedule
  /\ Forall lease_year_is_sound adjusted.
Proof.
  cbv zeta. unfold _adjust_lease_maintenance_schedule.
  rewrite !map_map. cbn [adjust_lease_year MaintYear.year].
  split; [ reflexivity | ].
  apply Forall_map. apply Forall_forall. intros year_data _.
  apply adjust_lease_year_sound.
Qed.

(** X10. Asked for a vehicle age of 3 or less, or of 10 or more, the
    year-specific wear function charges what it charges for age 10: an age
    below the table falls back to the highest base cost, 600. *)
Theorem wear_maintenance_outside_table
        (vehicle_age : Z) (vehicle_make shop_type : string)
        (regional_multiplier : Q) :
  (vehicle_age <= 3 \/ 10 <= vehicle_age)%Z ->
  _calculate_year_specific_wear_maintenance vehicle_age vehicle_make shop_type
                                            regional_multiplier
  = _calculate_year_specific_wear_maintenance 10 vehicle_make shop_type
                                              regional_multiplier.
Proof.
  intro H. unfold _calculate_year_specific_wear_maintenance.
  f_equal. f_equal. f_equal.
  destruct H as [ H | H ].
  - replace (Z.min vehicle_age 10) with vehicle_age by lia.
    unfold base_wear_costs. cbn [Py.assoc].
    repeat match goal with
           | |- context [ (vehicle_age =? ?k)%Z ] =>
               replace (vehicle_age =? k)%Z with false
                 by (symmetry; apply Z.eqb_neq; lia)
           end.
    reflexivity.
  - replace (Z.min vehicle_age 10) with 10%Z by lia. reflexivity.
Qed.

Lemma wear_maintenance_outside_table_witness :
  _calculate_year_specific_wear_maintenance 2 "Toyota" "independent" 1
  = _calculate_year_specific_wear_maintenance 10 "Toyota" "independent" 1.
Proof.
  apply (@wear_maintenance_outside_table 2 "Toyota" "independent" 1).
  left. lia.
Defined.

End AdjustedSchedules.

(** ** The purchase roll-up, continued *)

Section PurchaseRollUpMore.

Import PredictionService.
Import Spec.
Open Scope Q_scope.
Open Scope list_scope.

Variable self : Collaborators.t.

Tactic Notation "returned_as" hyp(H) ident(x) ident(E) :=
  match type of H with
  | Py.bind ?m _ = inr _ =>
      destruct m as [ ? | x ] eqn:E; simpl in H; [ discriminate H | ]
  end.

(** What one iteration of the purchase loop stores. *)
Lemma purchase_year_row
      (input_data : InputData.t) (vc : VehicleCharacteristics.t)
      (regional price : Q) (current_mileage : Z) (ds : list DepRow.t)
      (fs : option (list FinancingRow.t)) (ms : list MaintYear.t)
      (year : Z) (row : PurchaseRow.t) :
  purchase_year self input_data vc regional price current_mileage ds fs ms year
  = inr row ->
  PurchaseRow.year row = year
  /\ exists annual_mileage,
      InputData.annual_mileage input_data = Some annual_mileage
      /\ purchase_row_is_sound (InputData.year input_data) current_mileage
                               annual_mileage row.
Proof.
  intro H. unfold purchase_year in H.
  returned_as H dep E1.
  returned_as H maint E2.
  returned_as H value E3.
  returned_as H state E4.
  returned_as H mileage E5.
  returned_as H fin E6.
  inversion H; subst row; clear H.
  apply subscript_returned in E5.
  split; [ reflexivity | ].
  exists mileage. split; [ exact E5 | ].
  unfold purchase_row_is_sound, out_of_pocket_of_row. cbn.
  repeat split; try reflexivity. lra.
Qed.

Lemma purchase_year_depreciation
      (input_data : InputData.t) (vc : VehicleCharacteristics.t)
      (regional price : Q) (current_mileage : Z) (ds : list DepRow.t)
      (fs : option (list FinancingRow.t)) (ms : list MaintYear.t)
      (year : Z) (row : PurchaseRow.t) :
  (1 <= year <= Py.len ds)%Z ->
  purchase_year self input_data vc regional price current_mileage ds fs ms year
  = inr row ->
  PurchaseRow.depreciation row
  = value_at_end_of_year price ds (year - 1)
    - value_at_end_of_year price ds year.
Proof.
  intros Hyear H. unfold purchase_year in H.
  returned_as H dep E1.
  returned_as H maint E2.
  returned_as H value E3.
  returned_as H state E4.
  returned_as H mileage E5.
  returned_as H fin E6.
  inversion H; subst row; clear H. cbn [PurchaseRow.depreciation].
  clear E2 E3 E4 E5 E6.
  replace (year <=? Py.len ds)%Z with true in E1
    by (symmetry; apply Z.leb_le; lia).
  unfold value_at_end_of_year.
  replace (year <=? 0)%Z with false by (symmetry; apply Z.leb_gt; lia).
  destruct (@item_in_range _ ds (year - 1)) as (this & Hthis & Nthis); [ lia | ].
  rewrite Nthis.
  destruct (year =? 1)%Z eqn:Y.
  - apply Z.eqb_eq in Y. subst year.
    rewrite Hthis in E1. simpl in E1. inversion E1. reflexivity.
  - apply Z.eqb_neq in Y.
    replace (year - 1 <=? 0)%Z with false by (symmetry; apply Z.leb_gt; lia).
    destruct (@item_in_range _ ds (year - 2)) as (prev & Hprev & Nprev); [ lia | ].
    replace (year - 1 - 1)%Z with (year - 2)%Z by lia.
    rewrite Nprev. rewrite Hprev, Hthis in E1. simpl in E1.
    inversion E1. reflexivity.
Qed.

Lemma purchase_loop_years
      (input_data : InputData.t) (vc : VehicleCharacteristics.t)
      (regional price : Q) (current_mileage : Z) (ds : list DepRow.t)
      (fs : option (list FinancingRow.t)) (ms : list MaintYear.t)
      (years : list Z) :
  forall rows totals rows' totals',
    purchase_loop self input_data vc regional price current_mileage ds fs ms
                  years rows totals = inr (rows', totals') ->
    map PurchaseRow.year rows' = map PurchaseRow.year rows ++ years.
Proof.
  induction years as [ | year years IH ]; intros rows totals rows' totals' H.
  - simpl in H. inversion H; subst. rewrite app_nil_r. reflexivity.
  - simpl in H.
    destruct (purchase_year self input_data vc regional price current_mileage
                            ds fs ms year) as [ e | row ] eqn:E;
      simpl in H; [ discriminate H | ].
    apply IH in H. rewrite H, map_app. cbn [map].
    destruct (purchase_year_row _ _ _ _ _ _ _ _ _ E) as [ -> _ ].
    rewrite <- app_assoc. reflexivity.
Qed.

Lemma purchase_loop_depreciation
      (input_data : InputData.t) (vc : VehicleCharacteristics.t)
      (regional price : Q) (current_mileage : Z) (ds : list DepRow.t)
      (fs : option (list FinancingRow.t)) (ms : list MaintYear.t) (n : nat) :
  forall (lo : Z) rows totals rows' totals',
    (1 <= lo)%Z ->
    (lo - 1 + Z.of_nat n <= Py.len ds)%Z ->
    purchase_loop self input_data vc regional price current_mileage ds fs ms
                  (Py.range_from lo n) rows totals = inr (rows', totals') ->
    PurchaseTotals.depreciation totals'
    == PurchaseTotals.depreciation totals
       + (value_at_end_of_year price ds (lo - 1)
          - value_at_end_of_year price ds (lo - 1 + Z.of_nat n)).
Proof.
  induction n as [ | n IH ]; intros lo rows totals rows' totals' Hlo Hlen H.
  - simpl in H. inversion H; subst.
    replace (lo - 1 + Z.of_nat 0)%Z with (lo - 1)%Z by lia. lra.
  - cbn [Py.range_from purchase_loop] in H.
    destruct (purchase_year self input_data vc regional price current_mileage
                            ds fs ms lo) as [ e | row ] eqn:E;
      simpl in H; [ discriminate H | ].
    apply (IH (lo + 1)%Z) in H; [ | lia | lia ].
    rewrite H. cbn [add_to_totals PurchaseTotals.depreciation].
    rewrite (@purchase_year_depreciation input_data vc regional price
               current_mileage ds fs ms lo row ltac:(lia) E).
    replace (lo + 1 - 1 + Z.of_nat n)%Z with (lo - 1 + Z.of_nat (S n))%Z by lia.
    replace (lo + 1 - 1)%Z with lo by lia.
    lra.
Qed.

(** X11. When the depreciation schedule has one row per year of a horizon
    of one or more years, the total depreciation of the purchase roll-up is
    the purchase price minus the final vehicle value it reports. *)
Theorem purchase_depreciation_is_price_minus_final_value
        (input_data : InputData.t) (vc : VehicleCharacteristics.t)
        (regional : Q) (analysis_years : Z) (price : Q) (current_mileage : Z)
        (ds : list DepRow.t) (fs : option (list FinancingRow.t))
        (ms : list MaintYear.t) (r : PurchaseResult.t) :
  (1 <= analysis_years)%Z ->
  Py.len ds = analysis_years ->
  purchase_costs self input_data vc regional analysis_years price
                 current_mileage ds fs ms = inr r ->
  PurchaseSummary.total_depreciation (PurchaseResult.summary r)
  == price - PurchaseSummary.final_vehicle_value (PurchaseResult.summary r).
Proof.
  intros Hyears Hlen H. unfold purchase_costs in H.
  destruct (purchase_loop self input_data vc regional price current_mileage
                          ds fs ms (Py.range1 analysis_years) []
                          initial_purchase_totals)
    as [ e | [ rows totals ] ] eqn:L; simpl in H; [ discriminate H | ].
  unfold Py.range1 in L.
  apply (@purchase_loop_depreciation input_data vc regional price
           current_mileage ds fs ms (Z.to_nat analysis_years) 1%Z) in L;
    [ | lia | lia ].
  returned_as H avg_tco E1.
  returned_as H avg_oop E2.
  returned_as H mileage E3.
  returned_as H cpm E4.
  returned_as H cpm_tco E5.
  returned_as H final E6.
  returned_as H aff E7.
  returned_as H assumptions E8.
  inversion H; subst r; clear H.
  cbn [PurchaseResult.summary PurchaseSummary.total_depreciation
       PurchaseSummary.final_vehicle_value].
  rewrite L. cbn [initial_purchase_totals PurchaseTotals.depreciation].
  assert (F : final = value_at_end_of_year price ds
                        (1 - 1 + Z.of_nat (Z.to_nat analysis_years))).
  { destruct ds as [ | d ds' ] eqn:Hds; [ unfold Py.len in Hlen; simpl in Hlen; lia | ].
    rewrite <- Hds in *.
    unfold Py.item in E6.
    replace (-1 <? 0)%Z with true in E6 by reflexivity.
    replace (Py.len ds + -1 <? 0)%Z with false in E6
      by (symmetry; apply Z.ltb_ge; lia).
    unfold value_at_end_of_year.
    replace (1 - 1 + Z.of_nat (Z.to_nat analysis_years) <=? 0)%Z with false
      by (symmetry; apply Z.leb_gt; lia).
    replace (Z.to_nat (1 - 1 + Z.of_nat (Z.to_nat analysis_years) - 1))
      with (Z.to_nat (Py.len ds + -1)) by lia.
    destruct (nth_error ds (Z.to_nat (Py.len ds + -1))) as [ last | ];
      simpl in E6; inversion E6; reflexivity. }
  rewrite F. unfold value_at_end_of_year at 1.
  replace (1 - 1 <=? 0)%Z with true by reflexivity. lra.
Qed.

(** X12. Whenever the purchase roll-up returns, the breakdown has one row
    per year 1, 2, ... of the horizon, in order; every row is dated 2024
    plus its year (whatever the clock says), carries the cumulated mileage,
    and totals depreciation plus the four cash categories; and the total
    cost of ownership is the sum of the rows' totals. *)
Theorem purchase_breakdown_rows
        (input_data : InputData.t) (vc : VehicleCharacteristics.t)
        (regional : Q) (analysis_years : Z) (price : Q) (current_mileage : Z)
        (ds : list DepRow.t) (fs : option (list FinancingRow.t))
        (ms : list MaintYear.t) (r : PurchaseResult.t) :
  purchase_costs self input_data vc regional analysis_years price
                 current_mileage ds fs ms = inr r ->
  exists annual_mileage,
    InputData.annual_mileage input_data = Some annual_mileage
    /\ map PurchaseRow.year (PurchaseResult.annual_breakdown r)
       = Py.range1 analysis_years
    /\ Forall (purchase_row_is_sound (InputData.year input_data)
                                     current_mileage annual_mileage)
              (PurchaseResult.annual_breakdown r)
    /\ PurchaseSummary.total_tco_with_depreciation (PurchaseResult.summary r)
       == over_years PurchaseRow.total_annual_cost
                     (PurchaseResult.annual_breakdown r).
Proof.
  intro H. unfold purchase_costs in H.
  destruct (purchase_loop self input_data vc regional price current_mileage
                          ds fs ms (Py.range1 analysis_years) []
                          initial_purchase_totals)
    as [ e | [ rows totals ] ] eqn:L; simpl in H; [ discriminate H | ].
  returned_as H avg_tco E1.
  returned_as H avg_oop E2.
  returned_as H mileage E3.
  apply subscript_returned in E3.
  exists mileage. split; [ exact E3 | ].
  assert (Y : map PurchaseRow.year rows = Py.range1 analysis_years).
  { apply purchase_loop_years in L. exact L. }
  assert (S : Forall (purchase_row_is_sound (InputData.year input_data)
                                            current_mileage mileage) rows).
  { apply (@purchase_loop_rows self _ input_data vc regional price
             current_mileage ds fs ms (Py.range1 analysis_years))
      with (rows := []) (totals := initial_purchase_totals) (totals' := totals).
    - intros year row _ Hrow.
      destruct (purchase_year_row _ _ _ _ _ _ _ _ _ Hrow)
        as (_ & mileage' & Hm & Hsound).
      rewrite E3 in Hm. inversion Hm; subst mileage'. exact Hsound.
    - constructor.
    - exact L. }
  assert (M : totals_match rows totals).
  { apply (@purchase_loop_totals self input_data vc regional price
             current_mileage ds fs ms (Py.range1 analysis_years)
             [] initial_purchase_totals rows totals).
    - unfold totals_match, over_years, Py.sum, initial_purchase_totals. simpl.
      repeat split; reflexivity.
    - exact L. }
  repeat match type of H with
         | Py.bind ?m _ = inr _ =>
             destruct m; simpl in H; [ discriminate H | ]
         end.
  inversion H; subst r; clear H.
  cbn [PurchaseResult.annual_breakdown PurchaseResult.summary
       PurchaseSummary.total_tco_with_depreciation].
  split; [ exact Y | ]. split; [ exact S | ].
  destruct M as (Hd & Hm & Hi & Hf & Hn).
  unfold PurchaseTotals.values, Py.sum. cbn [fold_left].
  rewrite Hd, Hm, Hi, Hf, Hn.
  clear - S. induction S as [ | row rows Hrow Hrows IH ].
  - unfold over_years, Py.sum. simpl. lra.
  - unfold over_years in *. cbn [map]. rewrite !sum_cons.
    destruct Hrow as (_ & _ & _ & Htotal). rewrite Htotal.
    unfold out_of_pocket_of_row. lra.
Qed.

End PurchaseRollUpMore.

Section PurchaseRollUpMoreExample.

Import PredictionService.
Import Spec.
Open Scope Q_scope.

(** The used BMW scenario: five schedule rows for five years. *)
Lemma purchase_depreciation_is_price_minus_final_value_witness :
  exists r,
    purchase_costs sample_collaborators sample_used_purchase
      sample_characteristics 1 5 18000 70000
      sample_depreciation_schedule None sample_maintenance_schedule = inr r
    /\ PurchaseSummary.total_depreciation (PurchaseResult.summary r)
       == 18000 - PurchaseSummary.final_vehicle_value (PurchaseResult.summary r).
Proof.
  destruct (purchase_costs sample_collaborators sample_used_purchase
              sample_characteristics 1 5 18000 70000
              sample_depreciation_schedule None sample_maintenance_schedule)
    as [ e | r ] eqn:E.
  - vm_compute in E. discriminate E.
  - exists r. split; [ reflexivity | ].
    apply (@purchase_depreciation_is_price_minus_final_value
             sample_collaborators sample_used_purchase sample_characteristics
             1 5 18000 70000 sample_depreciation_schedule None
             sample_maintenance_schedule r).
    + lia.
    + reflexivity.
    + exact E.
Defined.

Lemma purchase_breakdown_rows_witness :
  exists r,
    purchase_costs sample_collaborators sample_used_purchase
      sample_characteristics 1 5 18000 70000
      sample_depreciation_schedule None sample_maintenance_schedule = inr r
    /\ map PurchaseRow.year (PurchaseResult.annual_breakdown r)
       = [1; 2; 3; 4; 5]%Z.
Proof.
  destruct (purchase_costs sample_collaborators sample_used_purchase
              sample_characteristics 1 5 18000 70000
              sample_depreciation_schedule None sample_maintenance_schedule)
    as [ e | r ] eqn:E.
  - vm_compute in E. discriminate E.
  - exists r. split; [ reflexivity | ].
    destruct (@purchase_breakdown_rows
                sample_collaborators sample_used_purchase sample_characteristics
                1 5 18000 70000 sample_depreciation_schedule None
                sample_maintenance_schedule r E)
      as (annual_mileage & _ & Hyears & _).
    exact Hyears.
Defined.

End PurchaseRollUpMoreExample.

(** ** The lease roll-up *)

Section LeaseRollUp.

Import PredictionService.
Import Spec.
Open Scope Q_scope.
Open Scope list_scope.

Variable self : Collaborators.t.
Variable now : Datetime.t.

Tactic Notation "returned_as" hyp(H) ident(x) ident(E) :=
  match type of H with
  | Py.bind ?m _ = inr _ =>
      destruct m as [ ? | x ] eqn:E; simpl in H; [ discriminate H | ]
  end.

Lemma lease_fees_closed_form (actual allowed lease_year : Z) (vehicle_value : Q) :
  _calculate_lease_fees_and_penalties actual allowed lease_year vehicle_value
  == inject_Z (Z.max 0 (actual - allowed)) * 0.20 + vehicle_value * 0.001.
Proof.
  unfold _calculate_lease_fees_and_penalties.
  destruct (allowed <? actual)%Z eqn:E.
  - apply Z.ltb_lt in E. rewrite Z.max_r by lia. lra.
  - apply Z.ltb_ge in E. rewrite Z.max_l by lia.
    change (inject_Z 0) with 0. lra.
Qed.

Lemma lease_year_row
      (input_data : InputData.t) (vc : VehicleCharacteristics.t)
      (regional monthly : Q) (limit start_year : Z)
      (ms : list MaintYear.t) (year : Z) (row : LeaseRow.t) :
  lease_year self input_data vc regional monthly limit start_year ms year
  = inr row ->
  LeaseRow.year row = year
  /\ lease_row_is_sound input_data start_year limit monthly row.
Proof.
  intro H. unfold lease_year in H.
  returned_as H maint E1.
  returned_as H msrp E2.
  returned_as H age E3.
  returned_as H state E4.
  returned_as H vehicles E5.
  returned_as H fuel E6.
  inversion H; subst row; clear H.
  apply subscript_returned in E2.
  split; [ reflexivity | ].
  unfold lease_row_is_sound. cbn.
  repeat split; try reflexivity.
  exists msrp. split; [ exact E2 | ].
  unfold yearly_lease_fees. apply lease_fees_closed_form.
Qed.

Lemma lease_loop_years
      (input_data : InputData.t) (vc : VehicleCharacteristics.t)
      (regional monthly : Q) (limit start_year : Z) (ms : list MaintYear.t)
      (years : list Z) :
  forall rows totals rows' totals',
    lease_loop self input_data vc regional monthly limit start_year ms
               years rows totals = inr (rows', totals') ->
    map LeaseRow.year rows' = map LeaseRow.year rows ++ years.
Proof.
  induction years as [ | year years IH ]; intros rows totals rows' totals' H.
  - simpl in H. inversion H; subst. rewrite app_nil_r. reflexivity.
  - simpl in H.
    destruct (lease_year self input_data vc regional monthly limit start_year
                         ms year) as [ e | row ] eqn:E;
      simpl in H; [ discriminate H | ].
    apply IH in H. rewrite H, map_app. cbn [map].
    destruct (lease_year_row _ _ _ _ _ _ _ _ E) as [ -> _ ].
    rewrite <- app_assoc. reflexivity.
Qed.

Lemma lease_loop_totals
      (input_data : InputData.t) (vc : VehicleCharacteristics.t)
      (regional monthly : Q) (limit start_year : Z) (ms : list MaintYear.t)
      (years : list Z) :
  forall rows totals rows' totals',
    lease_totals_match rows totals ->
    lease_loop self input_data vc regional monthly limit start_year ms
               years rows totals = inr (rows', totals') ->
    lease_totals_match rows' totals'.
Proof.
  induction years as [ | year years IH ]; intros rows totals rows' totals' M H.
  - simpl in H. inversion H; subst. exact M.
  - simpl in H.
    destruct (lease_year self input_data vc regional monthly limit start_year
                         ms year) as [ e | row ] eqn:E;
      simpl in H; [ discriminate H | ].
    apply IH in H; [ exact H | ].
    destruct M as (M1 & M2 & M3 & M4 & M5).
    unfold lease_totals_match, over_lease_years, add_to_lease_totals in *.
    cbn [LeaseTotals.lease_payments LeaseTotals.maintenance LeaseTotals.insurance
         LeaseTotals.fuel_energy LeaseTotals.fees_penalties].
    rewrite !map_app. cbn [map]. rewrite !sum_snoc.
    rewrite M1, M2, M3, M4, M5. repeat split; reflexivity.
Qed.

Lemma lease_total_of_rows (input_data : InputData.t) (start_year limit : Z)
      (monthly : Q) (rows : list LeaseRow.t) :
  Forall (lease_row_is_sound input_data start_year limit monthly) rows ->
  over_lease_years LeaseRow.total_annual_cost rows
  == over_lease_years LeaseRow.lease_payment rows
     + over_lease_years LeaseRow.maintenance rows
     + over_lease_years LeaseRow.insurance rows
     + over_lease_years LeaseRow.fuel_energy rows
     + over_lease_years LeaseRow.fees_penalties rows.
Proof.
  unfold over_lease_years.
  induction 1 as [ | row rows Hrow Hrows IH ].
  - unfold Py.sum. simpl. lra.
  - cbn [map]. rewrite !sum_cons.
    destruct Hrow as (_ & _ & _ & _ & _ & Htotal). rewrite Htotal. lra.
Qed.

Lemma lease_fees_of_rows (input_data : InputData.t) (start_year limit : Z)
      (monthly msrp : Q) (rows : list LeaseRow.t) :
  InputData.trim_msrp input_data = Some msrp ->
  Forall (lease_row_is_sound input_data start_year limit monthly) rows ->
  over_lease_years LeaseRow.fees_penalties rows
  == inject_Z (Z.of_nat (List.length rows))
     * yearly_lease_fees input_data limit msrp.
Proof.
  intro Hmsrp. unfold over_lease_years.
  induction 1 as [ | row rows Hrow Hrows IH ].
  - unfold Py.sum. simpl. change (inject_Z 0) with 0. lra.
  - cbn [map List.length]. rewrite sum_cons, IH.
    destruct Hrow as (_ & _ & _ & _ & (msrp' & Hm & Hfees) & _).
    rewrite Hmsrp in Hm. inversion Hm; subst msrp'. rewrite Hfees.
    rewrite Nat2Z.inj_succ. unfold Z.succ. rewrite inject_Z_plus.
    change (inject_Z 1) with 1. lra.
Qed.

(** X13. Whenever the lease calculation returns, the breakdown has one row
    per year 1, 2, ... of the term, in order; every row is dated from the
    current year, carries the cumulated mileage allowance, twelve monthly
    payments and the sum of its five categories; the total lease cost is
    the sum of the rows' totals plus the down payment; and the averages
    multiply back to the total. *)
Theorem lease_breakdown_rows
        (input_data : InputData.t) (vc : VehicleCharacteristics.t)
        (regional : Q) (r : LeaseResult.t) :
  _calculate_lease_tco self now input_data vc regional = inr r ->
  exists term monthly limit,
    InputData.analysis_years input_data = Some term
    /\ InputData.lease_monthly_payment input_data = Some monthly
    /\ InputData.lease_mileage_limit input_data = Some limit
    /\ map LeaseRow.year (LeaseResult.annual_breakdown r) = Py.range1 term
    /\ Forall (lease_row_is_sound input_data (Datetime.year now) limit monthly)
              (LeaseResult.annual_breakdown r)
    /\ LeaseSummary.total_lease_cost (LeaseResult.summary r)
       == over_lease_years LeaseRow.total_annual_cost
                           (LeaseResult.annual_breakdown r)
          + LeaseSummary.down_payment (LeaseResult.summary r)
    /\ LeaseSummary.average_annual_cost (LeaseResult.summary r) * inject_Z term
       == LeaseSummary.total_lease_cost (LeaseResult.summary r)
    /\ LeaseSummary.average_monthly_cost (LeaseResult.summary r) * 12
       == LeaseSummary.average_annual_cost (LeaseResult.summary r).
Proof.
  intro H. unfold _calculate_lease_tco in H.
  returned_as H term E1.
  returned_as H monthly E2.
  returned_as H limit E3.
  apply subscript_returned in E1, E2, E3.
  exists term, monthly, limit.
  do 3 (split; [ assumption | ]).
  match type of H with
  | Py.bind (lease_loop ?s ?i ?v ?rg ?m ?l ?y ?ms ?ys ?rows ?tot) _ = _ =>
      destruct (lease_loop s i v rg m l y ms ys rows tot)
        as [ e | [ rows' totals' ] ] eqn:L; simpl in H; [ discriminate H | ];
      pose proof (@lease_loop_years i v rg m l y ms ys _ _ _ _ L) as Y;
      assert (S : Forall (lease_row_is_sound i y l m) rows')
        by (apply (@lease_loop_rows self (lease_row_is_sound i y l m)
                     y i v rg m l ms ys
                     (fun year row _ Hrow =>
                        proj2 (@lease_year_row i v rg m l y ms year row Hrow))
                     [] initial_lease_totals rows' totals'
                     (Forall_nil _) L));
      assert (M : lease_totals_match rows' totals')
        by (apply (@lease_loop_totals i v rg m l y ms ys
                     [] initial_lease_totals rows' totals');
            [ unfold lease_totals_match, over_lease_years, Py.sum; simpl;
              repeat split; reflexivity
            | exact L ])
  end.
  unfold Py.div in H.
  destruct (Py.Qeqb (inject_Z term) 0) eqn:Z1; simpl in H; [ discriminate H | ].
  destruct (Py.Qeqb (inject_Z (term * 12)) 0) eqn:Z2; simpl in H;
    [ discriminate H | ].
  apply Qeqb_false in Z1, Z2.
  repeat match type of H with
         | Py.bind ?m _ = inr _ =>
             destruct m; simpl in H; [ discriminate H | ]
         end.
  inversion H; subst r; clear H.
  cbn [LeaseResult.annual_breakdown LeaseResult.summary
       LeaseSummary.total_lease_cost LeaseSummary.down_payment
       LeaseSummary.average_annual_cost LeaseSummary.average_monthly_cost].
  split; [ exact Y | ]. split; [ exact S | ].
  split; [ | split ].
  - rewrite (lease_total_of_rows S).
    destruct M as (M1 & M2 & M3 & M4 & M5).
    unfold LeaseTotals.values, Py.sum. cbn [fold_left].
    rewrite M1, M2, M3, M4, M5. lra.
  - field. exact Z1.
  - rewrite inject_Z_mult. change (inject_Z 12) with 12. field. exact Z1.
Qed.

(** X14. Whenever the lease of one or more years is computed, every year
    is charged the same fees: 20 cents for each mile the annual mileage
    exceeds the allowance (nothing when no annual mileage is given) plus
    0.1% of the MSRP; the fees category is that amount times the term. *)
Theorem lease_fees_every_year
        (input_data : InputData.t) (vc : VehicleCharacteristics.t)
        (regional : Q) (term : Z) (r : LeaseResult.t) :
  InputData.analysis_years input_data = Some term ->
  (1 <= term)%Z ->
  _calculate_lease_tco self now input_data vc regional = inr r ->
  exists limit msrp,
    InputData.lease_mileage_limit input_data = Some limit
    /\ InputData.trim_msrp input_data = Some msrp
    /\ Forall (fun row => LeaseRow.fees_penalties row
                          == yearly_lease_fees input_data limit msrp)
              (LeaseResult.annual_breakdown r)
    /\ LeaseTotals.fees_penalties (LeaseResult.category_totals r)
       == inject_Z term * yearly_lease_fees input_data limit msrp.
Proof.
  intros Hterm Hpos H. unfold _calculate_lease_tco in H.
  rewrite Hterm in H. cbn [Py.subscript Py.bind Py.ret] in H.
  returned_as H monthly E2.
  returned_as H limit E3.
  apply subscript_returned in E2, E3.
  match type of H with
  | Py.bind (lease_loop ?s ?i ?v ?rg ?m ?l ?y ?ms ?ys ?rows ?tot) _ = _ =>
      destruct (lease_loop s i v rg m l y ms ys rows tot)
        as [ e | [ rows' totals' ] ] eqn:L; simpl in H; [ discriminate H | ];
      pose proof (@lease_loop_years i v rg m l y ms ys _ _ _ _ L) as Y;
      assert (S : Forall (lease_row_is_sound i y l m) rows')
        by (apply (@lease_loop_rows self (lease_row_is_sound i y l m)
                     y i v rg m l ms ys
                     (fun year row _ Hrow =>
                        proj2 (@lease_year_row i v rg m l y ms year row Hrow))
                     [] initial_lease_totals rows' totals'
                     (Forall_nil _) L));
      assert (M : lease_totals_match rows' totals')
        by (apply (@lease_loop_totals i v rg m l y ms ys
                     [] initial_lease_totals rows' totals');
            [ unfold lease_totals_match, over_lease_years, Py.sum; simpl;
              repeat split; reflexivity
            | exact L ])
  end.
  repeat match type of H with
         | Py.bind ?m _ = inr _ =>
             destruct m; simpl in H; [ discriminate H | ]
         end.
  inversion H; subst r; clear H.
  cbn [LeaseResult.annual_breakdown LeaseResult.category_totals].
  assert (N : List.length rows' = Z.to_nat term).
  { rewrite <- (length_map LeaseRow.year), Y. cbn [app].
    unfold Py.range1. apply length_range_from. }
  assert (Hmsrp : exists msrp, InputData.trim_msrp input_data = Some msrp).
  { destruct S as [ | row rows Hrow _ ]; [ simpl in N; lia | ].
    destruct Hrow as (_ & _ & _ & _ & (msrp & Hm & _) & _).
    exists msrp. exact Hm. }
  destruct Hmsrp as (msrp & Hmsrp).
  exists limit, msrp.
  do 2 (split; [ assumption | ]).
  split.
  - eapply Forall_impl; [ | exact S ].
    intros row (_ & _ & _ & _ & (msrp' & Hm & Hfees) & _).
    rewrite Hmsrp in Hm. inversion Hm; subst msrp'. exact Hfees.
  - destruct M as (_ & _ & _ & _ & M5). rewrite M5.
    rewrite (lease_fees_of_rows Hmsrp S), N.
    rewrite Z2Nat.id by lia. reflexivity.
Qed.

End LeaseRollUp.

Section LeaseRollUpExample.

Import PredictionService.
Import Spec.
Open Scope Q_scope.

(** The two-year Camry lease started in June 2025. *)
Lemma lease_breakdown_rows_witness :
  exists r,
    _calculate_lease_tco sample_collaborators june_2025 (sample_lease 2)
                         sample_characteristics 1 = inr r
    /\ map LeaseRow.year (LeaseResult.annual_breakdown r) = [1; 2]%Z.
Proof.
  destruct (_calculate_lease_tco sample_collaborators june_2025 (sample_lease 2)
                                 sample_characteristics 1) as [ e | r ] eqn:E.
  - vm_compute in E. discriminate E.
  - exists r. split; [ reflexivity | ].
    destruct (@lease_breakdown_rows sample_collaborators june_2025
                (sample_lease 2) sample_characteristics 1 r E)
      as (term & monthly & limit & Hterm & _ & _ & Hyears & _).
    inversion Hterm; subst term. exact Hyears.
Defined.

(** The same lease drives 3,000 miles a year over its allowance: $600 of
    overage and $30 of wear and tear every year. *)
Lemma lease_fees_every_year_witness :
  exists r,
    _calculate_lease_tco sample_collaborators june_2025 (sample_lease 2)
                         sample_characteristics 1 = inr r
    /\ LeaseTotals.fees_penalties (LeaseResult.category_totals r) == 2 * 630.
Proof.
  destruct (_calculate_lease_tco sample_collaborators june_2025 (sample_lease 2)
                                 sample_characteristics 1) as [ e | r ] eqn:E.
  - vm_compute in E. discriminate E.
  - exists r. split; [ reflexivity | ].
    destruct (@lease_fees_every_year sample_collaborators june_2025
                (sample_lease 2) sample_characteristics 1 2 r
                eq_refl ltac:(lia) E)
      as (limit & msrp & Hlimit & Hmsrp & _ & Htotal).
    inversion Hlimit; subst limit. inversion Hmsrp; subst msrp.
    rewrite Htotal. reflexivity.
Defined.

End LeaseRollUpExample.

(** ** Affordability *)

Section AffordabilityMore.

Import PredictionService.
Import Spec.
Open Scope Q_scope.

(** X15. For a positive income the affordability record is returned; the
    cost is affordable exactly when ten times the annual cost does not
    exceed the income; the score is 100 when it is affordable, and
    otherwise lies strictly between 0 and 100 and equals ten times the
    income divided by the cost; the monthly cost is a twelfth of the annual
    cost. *)
Theorem affordability_threshold (annual_cost gross_income : Q)
        (transaction_type : string) :
  0 < gross_income ->
  exists a,
    _calculate_affordability annual_cost gross_income transaction_type = inr a
    /\ (Affordability.is_affordable a = true <-> annual_cost * 10 <= gross_income)
    /\ (Affordability.is_affordable a = true ->
        Affordability.affordability_score a == 100)
    /\ (Affordability.is_affordable a = false ->
        0 < Affordability.affordability_score a < 100
        /\ Affordability.affordability_score a * annual_cost
           == 10 * gross_income)
    /\ Affordability.monthly_cost a * 12 == annual_cost.
Proof.
  intro Hincome. unfold _calculate_affordability.
  rewrite (@div_nonzero annual_cost gross_income) by lra.
  cbn [Py.bind Py.ret].
  assert (Hq : annual_cost / gross_income * gross_income == annual_cost)
    by (field; lra).
  set (q := annual_cost / gross_income) in *. clearbody q.
  assert (Hle : q * 100 <= 10 <-> annual_cost * 10 <= gross_income).
  { rewrite <- Hq. split; intro H; nra. }
  destruct (Py.Qgtb (q * 100) 0) eqn:Hpos.
  - apply Qltb_true in Hpos.
    rewrite (@div_nonzero 10 (q * 100)) by lra.
    cbn [Py.bind Py.ret].
    assert (Hs : 10 / (q * 100) * (q * 100) == 10) by (field; lra).
    set (s := 10 / (q * 100)) in *. clearbody s.
    eexists. split; [ reflexivity | ].
    cbn [Affordability.is_affordable Affordability.affordability_score
         Affordability.monthly_cost].
    split; [ rewrite Qleb_true; exact Hle | ].
    split; [ | split ].
    + intro A. apply Qleb_true in A.
      destruct (min_cases 100 (s * 100)) as [ [ H -> ] | [ H -> ] ];
        [ | reflexivity ].
      exfalso. nra.
    + intro A. apply Qleb_false in A.
      destruct (min_cases 100 (s * 100)) as [ [ H -> ] | [ H -> ] ].
      * split; [ split; nra | ]. rewrite <- Hq. nra.
      * exfalso. nra.
    + field.
  - apply Qltb_false in Hpos.
    eexists. split; [ reflexivity | ].
    cbn [Affordability.is_affordable Affordability.affordability_score
         Affordability.monthly_cost].
    split; [ rewrite Qleb_true; exact Hle | ].
    split; [ reflexivity | ].
    split; [ | field ].
    intro A. apply Qleb_false in A. lra.
Qed.

Lemma affordability_threshold_witness :
  exists a,
    _calculate_affordability 9000 60000 "purchase" = inr a
    /\ Affordability.is_affordable a = false
    /\ Affordability.affordability_score a * 9000 == 10 * 60000.
Proof.
  destruct (@affordability_threshold 9000 60000 "purchase" ltac:(lra))
    as (a & Ha & Hiff & _ & Hscore & _).
  exists a. split; [ exact Ha | ].
  assert (A : Affordability.is_affordable a = false).
  { destruct (Affordability.is_affordable a); [ | reflexivity ].
    exfalso. assert (H : 9000 * 10 <= 60000) by (apply Hiff; reflexivity).
    lra. }
  split; [ exact A | ]. apply (Hscore A).
Defined.

(** X16. A negative income is not rejected: any non-negative cost is then
    reported as affordable, with the full score of 100. *)
Theorem affordability_negative_income (annual_cost gross_income : Q)
        (transaction_type : string) :
  gross_income < 0 ->
  0 <= annual_cost ->
  exists a,
    _calculate_affordability annual_cost gross_income transaction_type = inr a
    /\ Affordability.is_affordable a = true
    /\ Affordability.affordability_score a == 100.
Proof.
  intros Hincome Hcost. unfold _calculate_affordability.
  rewrite (@div_nonzero annual_cost gross_income) by lra.
  cbn [Py.bind Py.ret].
  assert (Hq : annual_cost / gross_income * gross_income == annual_cost)
    by (field; lra).
  set (q := annual_cost / gross_income) in *. clearbody q.
  assert (Hneg : q * 100 <= 0) by nra.
  replace (Py.Qgtb (q * 100) 0) with false
    by (symmetry; apply Qltb_false; exact Hneg).
  eexists. split; [ reflexivity | ].
  cbn [Affordability.is_affordable Affordability.affordability_score].
  split; [ apply Qleb_true; lra | reflexivity ].
Qed.

Lemma affordability_negative_income_witness :
  exists a,
    _calculate_affordability 9000 (-60000) "lease" = inr a
    /\ Affordability.is_affordable a = true
    /\ Affordability.affordability_score a == 100.
Proof.
  apply (@affordability_negative_income 9000 (-60000) "lease"); lra.
Defined.

End AffordabilityMore.

(** ** A horizon of zero years *)

Section ZeroHorizon.

Import PredictionService.
Import Spec.
Open Scope Q_scope.

Variable self : Collaborators.t.
Variable now : Datetime.t.

(** X17. A horizon of zero years is not rejected: the averages divide the
    totals by it, so the purchase roll-up and the lease calculation (once
    its payment and mileage limit are read) both raise ZeroDivisionError. *)
Theorem zero_horizon_divides_by_zero :
  (forall input_data vc regional price current_mileage ds fs ms,
      purchase_costs self input_data vc regional 0 price current_mileage
                     ds fs ms = inl Py.ZeroDivisionError)
  /\ (forall input_data vc regional,
         InputData.analysis_years input_data = Some 0%Z ->
         present (InputData.lease_monthly_payment input_data) = true ->
         present (InputData.lease_mileage_limit input_data) = true ->
         _calculate_lease_tco self now input_data vc regional
         = inl Py.ZeroDivisionError).
Proof.
  split.
  - intros. reflexivity.
  - intros input_data vc regional Hterm Hpay Hlimit.
    apply present_some in Hpay, Hlimit.
    destruct Hpay as (monthly & Hpay). destruct Hlimit as (limit & Hlimit).
    unfold _calculate_lease_tco. rewrite Hterm, Hpay, Hlimit. reflexivity.
Qed.

(** X18. A purchase whose loan amount is given and not positive has no
    financing schedule, whatever the financing type says; and without a
    financing schedule every row of the breakdown, and the financing
    category, carry no financing cost. *)
Theorem no_loan_no_financing_cost :
  (forall input_data price analysis_years amount,
      InputData.loan_amount input_data = Some amount ->
      amount <= 0 ->
      purchase_financing_schedule self input_data price analysis_years = None)
  /\ (forall input_data vc regional analysis_years price current_mileage ds ms r,
         purchase_costs self input_data vc regional analysis_years price
                        current_mileage ds None ms = inr r ->
         Forall (fun row => PurchaseRow.financing row = 0)
                (PurchaseResult.annual_breakdown r)
         /\ PurchaseTotals.financing (PurchaseResult.category_totals r) == 0).
Proof.
  split.
  - intros input_data price analysis_years amount Hloan Hamount.
    unfold purchase_financing_schedule. rewrite Hloan. cbn [Py.get].
    replace (Py.Qgtb amount 0) with false
      by (symmetry; apply Qltb_false; exact Hamount).
    destruct (_ || _ || _); reflexivity.
  - intros input_data vc regional analysis_years price current_mileage ds ms r H.
    unfold purchase_costs in H.
    destruct (purchase_loop self input_data vc regional price current_mileage
                            ds None ms (Py.range1 analysis_years) []
                            initial_purchase_totals)
      as [ e | [ rows totals ] ] eqn:L; simpl in H; [ discriminate H | ].
    assert (S : Forall (fun row => PurchaseRow.financing row = 0) rows).
    { apply (@purchase_loop_rows self _ input_data vc regional price
               current_mileage ds None ms (Py.range1 analysis_years))
        with (rows := []) (totals := initial_purchase_totals) (totals' := totals).
      - intros year row _ Hrow. unfold purchase_year in Hrow.
        repeat match type of Hrow with
               | Py.bind ?m _ = inr _ =>
                   destruct m eqn:?E; simpl in Hrow; [ discriminate Hrow | ]
               end.
        inversion Hrow; subst row. cbn [PurchaseRow.financing].
        match goal with
        | E : Py.ret _ = inr _ |- _ => inversion E; reflexivity
        end.
      - constructor.
      - exact L. }
    assert (M : totals_match rows totals).
    { apply (@purchase_loop_totals self input_data vc regional price
               current_mileage ds None ms (Py.range1 analysis_years)
               [] initial_purchase_totals rows totals).
      - unfold totals_match, over_years, Py.sum, initial_purchase_totals. simpl.
        repeat split; reflexivity.
      - exact L. }
    repeat match type of H with
           | Py.bind ?m _ = inr _ =>
               destruct m; simpl in H; [ discriminate H | ]
           end.
    inversion H; subst r; clear H.
    cbn [PurchaseResult.annual_breakdown PurchaseResult.category_totals].
    split; [ exact S | ].
    destruct M as (_ & _ & _ & _ & Hf). rewrite Hf.
    clear - S. unfold over_years.
    induction S as [ | row rows Hrow Hrows IH ].
    + reflexivity.
    + cbn [map]. rewrite sum_cons, IH, Hrow. lra.
Qed.

End ZeroHorizon.

(** ** The regional multiplier *)

Section RegionalMultiplier.

Import ZipCodeUtils.
Import Spec.
Open Scope Q_scope.
Open Scope string_scope.

Lemma base_multiplier_in_range (geography_type : string) :
  0.85 <= Py.dict_get base_multipliers (Py.lower geography_type) 1.0 <= 1.15.
Proof.
  destruct (dict_get_in base_multipliers (Py.lower geography_type) 1.0)
    as [ H | H ]; [ rewrite <- H; split; lra | ].
  simpl in H.
  repeat (destruct H as [ H | H ]; [ rewrite <- H; split; lra | ]).
  contradiction.
Qed.

Lemma digit_is_not_a_letter (c : ascii) :
  is_digit c = true ->
  Py.lower_char c = c
  /\ Ascii.eqb c "u" = false /\ Ascii.eqb c "s" = false
  /\ Ascii.eqb c "r" = false.
Proof.
  destruct c as [ [ | ] [ | ] [ | ] [ | ] [ | ] [ | ] [ | ] [ | ] ];
    vm_compute; intro H; try discriminate H; repeat split; reflexivity.
Qed.

(** X19. The regional multiplier lies between 0.765 and 1.265; and for a
    geography argument made of digits, as the ZIP code the orchestrator
    passes, the urban, suburban and rural adjustments never apply: the
    multiplier is the state adjustment alone, 1.1, 0.9 or 1. *)
Theorem regional_multiplier_range_and_zip_code (geography_type state : string) :
  0.765 <= get_regional_cost_multiplier geography_type state <= 1.265
  /\ (is_digits geography_type = true ->
      get_regional_cost_multiplier geography_type state
      == state_adjustment state).
Proof.
  split.
  - unfold get_regional_cost_multiplier.
    pose proof (base_multiplier_in_range geography_type) as B.
    destruct (Py.str_in state high_cost_states); [ split; lra | ].
    destruct (Py.str_in state low_cost_states); split; lra.
  - intro D.
    assert (B : Py.dict_get base_multipliers (Py.lower geography_type) 1.0 = 1.0).
    { destruct geography_type as [ | c rest ]; [ reflexivity | ].
      simpl in D. apply andb_true_iff in D. destruct D as [ D _ ].
      destruct (digit_is_not_a_letter c D) as (L & U & S & R).
      unfold Py.dict_get, base_multipliers. cbn [Py.lower]. rewrite L.
      cbn [Py.assoc String.eqb]. rewrite U, S, R. reflexivity. }
    unfold get_regional_cost_multiplier, state_adjustment. rewrite B.
    destruct (Py.str_in state high_cost_states); [ lra | ].
    destruct (Py.str_in state low_cost_states); lra.
Qed.

End RegionalMultiplier.

(** ** The schedule of a used vehicle *)

Section UsedSchedule.

Import PredictionService.
Import Spec.
Open Scope Q_scope.
Open Scope list_scope.

Variable now : Datetime.t.

Lemma item_in {A} (xs : list A) (i : Z) (a : A) :
  Py.item xs i = inr a -> In a xs.
Proof.
  unfold Py.item. intro H.
  destruct (_ <? 0)%Z in H; [ discriminate H | ].
  destruct (nth_error xs _) as [ b | ] eqn:N in H; [ | discriminate H ].
  inversion H; subst b. apply (nth_error_In _ _ N).
Qed.

Lemma annual_rate_in_range (age : Z) (rate : Q) :
  In rate (annual_rates_for age) -> 0.02 <= rate <= 0.08.
Proof.
  unfold annual_rates_for.
  destruct (age <=? 3)%Z; [ | destruct (age <=? 7)%Z ];
    simpl; intro H;
    repeat (destruct H as [ H | H ]; [ rewrite <- H; split; lra | ]);
    contradiction.
Qed.

Lemma used_brand_multiplier_in_range (make : string) :
  0.7 <= Py.dict_get used_brand_multipliers make 1.0 <= 1.2.
Proof.
  destruct (dict_get_in used_brand_multipliers make 1.0) as [ H | H ];
    [ rewrite <- H; split; lra | ].
  simpl in H.
  repeat (destruct H as [ H | H ]; [ rewrite <- H; split; lra | ]).
  contradiction.
Qed.

Lemma used_step_row (input_data : InputData.t) (initial_value : Q)
      (annual_rates : list Q) (brand_multiplier : Q)
      (current_year : Z) (current_value : Q) (year : Z) (row : DepRow.t) :
  (forall rate, In rate annual_rates -> 0.02 <= rate <= 0.08) ->
  0.7 <= brand_multiplier <= 1.2 ->
  initial_value * 0.15 <= current_value <= initial_value ->
  0 <= initial_value ->
  used_step input_data initial_value annual_rates brand_multiplier
            current_year current_value year = inr row ->
  DepRow.year row = year
  /\ used_depreciation_row initial_value current_year
                           (InputData.year input_data) row
  /\ DepRow.annual_depreciation row == current_value - DepRow.vehicle_value row.
Proof.
  intros Hrates Hbrand Hvalue Hinitial H. unfold used_step in H.
  destruct (Py.item annual_rates _) as [ e | base ] eqn:E; simpl in H;
    [ discriminate H | ].
  apply item_in in E. apply Hrates in E.
  inversion H; subst row; clear H.
  split; [ reflexivity | ].
  unfold used_depreciation_row.
  cbn [DepRow.year DepRow.annual_depreciation DepRow.vehicle_value
       DepRow.depreciation_rate DepRow.ownership_year DepRow.vehicle_age].
  assert (R : 0.014 <= base * brand_multiplier <= 0.096) by (split; nra).
  set (rate := base * brand_multiplier) in *. clearbody rate.
  assert (V : 0 <= current_value * rate <= initial_value * rate)
    by (split; nra).
  set (loss := current_value * rate) in *.
  unfold Py.max, Py.Qgtb.
  destruct (Py.Qltb (current_value - loss) (initial_value * 0.15)) eqn:F.
  - apply Qltb_true in F. repeat split; try reflexivity; lra.
  - apply Qltb_false in F. repeat split; try reflexivity; lra.
Qed.

Lemma used_loop_sound (input_data : InputData.t) (initial_value : Q)
      (annual_rates : list Q) (brand_multiplier : Q) (current_year : Z) :
  (forall rate, In rate annual_rates -> 0.02 <= rate <= 0.08) ->
  0.7 <= brand_multiplier <= 1.2 ->
  0 <= initial_value ->
  forall (years : list Z) (current_value : Q) (schedule result : list DepRow.t),
    initial_value * 0.15 <= current_value <= initial_value ->
    current_value = value_after initial_value schedule ->
    Forall (used_depreciation_row initial_value current_year
                                  (InputData.year input_data)) schedule ->
    total_annual_depreciation schedule == initial_value - current_value ->
    used_loop input_data initial_value annual_rates brand_multiplier
              current_year years current_value schedule = inr result ->
    map DepRow.year result = map DepRow.year schedule ++ years
    /\ Forall (used_depreciation_row initial_value current_year
                                     (InputData.year input_data)) result
    /\ total_annual_depreciation result
       == initial_value - value_after initial_value result.
Proof.
  intros Hrates Hbrand Hinitial.
  induction years as [ | year years IH ];
    intros current_value schedule result Hvalue Hlast Hrows Htotal H.
  - simpl in H. inversion H; subst result.
    rewrite app_nil_r, <- Hlast. auto.
  - simpl in H.
    destruct (used_step input_data initial_value annual_rates brand_multiplier
                        current_year current_value year) as [ e | row ] eqn:E;
      simpl in H; [ discriminate H | ].
    destruct (@used_step_row _ _ _ _ _ _ _ _ Hrates Hbrand Hvalue Hinitial E)
      as (Hyear & Hrow & Hloss).
    apply IH in H.
    + destruct H as (Hyears & Hall & Hsum).
      split; [ | split; assumption ].
      rewrite Hyears, map_app. cbn [map]. rewrite Hyear, <- app_assoc.
      reflexivity.
    + destruct Hrow as (_ & _ & Hfloor & Hceiling & _). split; assumption.
    + rewrite value_after_snoc. reflexivity.
    + apply Forall_app. split; [ exact Hrows | ].
      constructor; [ exact Hrow | constructor ].
    + rewrite total_annual_depreciation_snoc, Htotal, Hloss. lra.
Qed.

(** X20. For a non-negative purchase price, the schedule of a used vehicle
    lists the years 1, 2, ... in order; no row gains value or loses more
    than its rate times the initial value; every value lies between the
    15% floor and the initial value and every rate between 1.4% and 9.6%;
    rows are dated from the current year; and the annual amounts sum to the
    initial value minus the final value. *)
Theorem used_depreciation_schedule_is_sound
        (input_data : InputData.t) (initial_value : Q) (analysis_years : Z)
        (schedule : list DepRow.t) :
  0 <= initial_value ->
  _calculate_realistic_used_vehicle_depreciation now input_data initial_value
                                                 analysis_years
  = inr schedule ->
  map DepRow.year schedule = Py.range1 analysis_years
  /\ Forall (used_depreciation_row initial_value (Datetime.year now)
                                   (InputData.year input_data)) schedule
  /\ total_annual_depreciation schedule
     == initial_value - value_after initial_value schedule.
Proof.
  intros Hinitial H.
  unfold _calculate_realistic_used_vehicle_depreciation in H.
  apply (@used_loop_sound input_data initial_value _ _ _
           (@annual_rate_in_range _)
           (used_brand_multiplier_in_range (InputData.make input_data))
           Hinitial) in H.
  - exact H.
  - split; lra.
  - reflexivity.
  - constructor.
  - unfold total_annual_depreciation, Py.sum. simpl. lra.
Qed.

End UsedSchedule.

Section UsedScheduleExample.

Import PredictionService.
Import Spec.
Open Scope Q_scope.

Lemma used_depreciation_schedule_is_sound_witness :
  map DepRow.year sample_depreciation_schedule = [1; 2; 3; 4; 5]%Z
  /\ total_annual_depreciation sample_depreciation_schedule
     == 18000 - value_after 18000 sample_depreciation_schedule.
Proof.
  assert (E : _calculate_realistic_used_vehicle_depreciation
                june_2025 sample_used_purchase 18000 5
              = inr sample_depreciation_schedule)
    by (vm_compute; reflexivity).
  destruct (@used_depreciation_schedule_is_sound june_2025 sample_used_purchase
              18000 5 sample_depreciation_schedule ltac:(lra) E)
    as (Hyears & _ & Hsum).
  split; [ exact Hyears | exact Hsum ].
Defined.

End UsedScheduleExample.

(** ** Value estimates and insights of the depreciation model *)

Section Estimates.

Import EnhancedDepreciationModel.
Import Spec.
Open Scope Q_scope.
Open Scope list_scope.

Lemma min_compatible (a a' cap : Q) : a == a' -> Py.min a cap == Py.min a' cap.
Proof.
  intro H.
  destruct (min_cases a cap) as [ [ ? -> ] | [ ? -> ] ];
    destruct (min_cases a' cap) as [ [ ? -> ] | [ ? -> ] ]; lra.
Qed.

Lemma nth_error_range_from (lo : Z) (n i : nat) :
  (i < n)%nat -> nth_error (Py.range_from lo n) i = Some (lo + Z.of_nat i)%Z.
Proof.
  revert lo i. induction n as [ | n IH ]; intros lo i H; [ lia | ].
  destruct i as [ | i ]; simpl.
  - f_equal. lia.
  - rewrite IH by lia. f_equal. lia.
Qed.

(** The rows a run of the loop appends: one per year, valued by the capped
    rate of that year. *)
Lemma schedule_loop_values (initial_value : Q) (segment : string)
      (brand mileage : Q) (years : list Z) :
  forall (schedule result : list DepRow.t),
    schedule_loop initial_value segment brand mileage years schedule
    = inr result ->
    exists rows,
      result = schedule ++ rows
      /\ Forall2 (fun year row =>
                    exists base,
                      _get_cumulative_depreciation_rate year segment = inr base
                      /\ DepRow.vehicle_value row
                         = initial_value
                           * (1 - Py.min (base * brand * mileage)
                                         (Py.dict_get max_depreciation segment
                                                      0.92)))
                 years rows.
Proof.
  induction years as [ | year years IH ]; intros schedule result H.
  - simpl in H. inversion H; subst result.
    exists []. rewrite app_nil_r. split; [ reflexivity | constructor ].
  - simpl in H.
    destruct (schedule_step initial_value segment brand mileage schedule year)
      as [ e | row ] eqn:Hstep; simpl in H; [ discriminate H | ].
    destruct (schedule_step_row _ _ _ _ _ _ Hstep) as (base & Hbase & _ & Hvalue).
    destruct (IH _ _ H) as (rows & -> & Hrows).
    exists (row :: rows). split; [ rewrite <- app_assoc; reflexivity | ].
    constructor; [ | exact Hrows ].
    exists base. split; assumption.
Qed.

Lemma Forall2_nth_error {A B} (R : A -> B -> Prop) (xs : list A) (ys : list B) :
  Forall2 R xs ys ->
  forall i x, nth_error xs i = Some x ->
              exists y, nth_error ys i = Some y /\ R x y.
Proof.
  induction 1 as [ | x0 y0 xs ys H0 H IH ]; intros i x Hx.
  - destruct i; discriminate Hx.
  - destruct i as [ | i ]; simpl in *.
    + inversion Hx; subst x0. exists y0. split; [ reflexivity | exact H0 ].
    + apply IH. exact Hx.
Qed.

(** The value an estimate computes for a vehicle of [age] years whose
    mileage multiplier is [mileage]. *)
Lemma estimate_current_value_returns
      (initial_value : Q) (vehicle_make vehicle_model : string)
      (vehicle_age current_mileage : Z) :
  (1 <= vehicle_age)%Z ->
  exists base,
    _get_cumulative_depreciation_rate
      vehicle_age (_classify_vehicle_segment vehicle_make vehicle_model)
    = inr base
    /\ 0 < base
    /\ estimate_current_value initial_value vehicle_make vehicle_model
                              vehicle_age current_mileage
       = inr (initial_value
              * (1 - Py.min
                       (base
                        * _apply_model_specific_adjustments
                            vehicle_make vehicle_model
                            (Py.dict_get brand_multipliers vehicle_make 1.0)
                        * _calculate_mileage_impact
                            (inject_Z current_mileage / inject_Z vehicle_age))
                       (Py.dict_get max_depreciation
                          (_classify_vehicle_segment vehicle_make vehicle_model)
                          0.92))).
Proof.
  intro Hage.
  destruct (@cumulative_rate_bounds vehicle_age
              (_classify_vehicle_segment vehicle_make vehicle_model) Hage)
    as (base & Hbase & Hpos & _).
  exists base. split; [ exact Hbase | ]. split; [ exact Hpos | ].
  unfold estimate_current_value.
  replace (vehicle_age <=? 0)%Z with false by (symmetry; apply Z.leb_gt; lia).
  rewrite Z.max_l by lia.
  rewrite (@div_nonzero (inject_Z current_mileage) (inject_Z vehicle_age))
    by (apply inject_Z_nonzero; lia).
  cbn [Py.bind Py.ret]. rewrite Hbase. reflexivity.
Qed.

(** X21. The estimate of the current value agrees with the schedule: for a
    vehicle driven the same mileage every year, the estimate at an age
    within the schedule is the vehicle value of the schedule's row for that
    year. *)
Theorem estimate_agrees_with_schedule
        (initial_value : Q) (vehicle_make vehicle_model : string)
        (model_year annual_mileage years vehicle_age : Z)
        (schedule : list DepRow.t) :
  (1 <= vehicle_age <= years)%Z ->
  calculate_depreciation_schedule initial_value vehicle_make vehicle_model
                                  model_year annual_mileage years
  = inr schedule ->
  exists row value,
    nth_error schedule (Z.to_nat (vehicle_age - 1)) = Some row
    /\ estimate_current_value initial_value vehicle_make vehicle_model
                              vehicle_age (annual_mileage * vehicle_age)
       = inr value
    /\ value == DepRow.vehicle_value row.
Proof.
  intros Hage H. unfold calculate_depreciation_schedule, Py.range1 in H.
  destruct (schedule_loop_values _ _ _ _ _ _ H) as (rows & -> & Hrows).
  cbn [app].
  destruct (@Forall2_nth_error _ _ _ _ _ Hrows (Z.to_nat (vehicle_age - 1))
              vehicle_age) as (row & Hrow & base & Hbase & Hvalue).
  { rewrite nth_error_range_from by lia. f_equal. lia. }
  destruct (@estimate_current_value_returns initial_value vehicle_make
              vehicle_model vehicle_age (annual_mileage * vehicle_age)%Z
              ltac:(lia)) as (base' & Hbase' & _ & Hestimate).
  rewrite Hbase in Hbase'. inversion Hbase'; subst base'. clear Hbase'.
  exists row. eexists. split; [ exact Hrow | ]. split; [ exact Hestimate | ].
  rewrite Hvalue.
  assert (M : _calculate_mileage_impact
                (inject_Z (annual_mileage * vehicle_age) / inject_Z vehicle_age)
              == _calculate_mileage_impact (inject_Z annual_mileage)).
  { apply mileage_impact_compatible. rewrite inject_Z_mult. field.
    apply inject_Z_nonzero. lia. }
  apply Qmult_comp; [ reflexivity | ].
  apply Qplus_comp; [ reflexivity | ]. apply Qopp_comp.
  apply min_compatible. rewrite M. reflexivity.
Qed.

Lemma estimate_agrees_with_schedule_witness :
  exists schedule row value,
    calculate_depreciation_schedule 28000 "Toyota" "Camry" 2024 12000 5
    = inr schedule
    /\ nth_error schedule 2 = Some row
    /\ estimate_current_value 28000 "Toyota" "Camry" 3 36000 = inr value
    /\ value == DepRow.vehicle_value row.
Proof.
  destruct (calculate_depreciation_schedule 28000 "Toyota" "Camry" 2024 12000 5)
    as [ e | schedule ] eqn:E.
  - vm_compute in E. discriminate E.
  - destruct (@estimate_agrees_with_schedule 28000 "Toyota" "Camry" 2024 12000 5
                3 schedule ltac:(lia) E) as (row & value & Hrow & Hvalue & Heq).
    exists schedule, row, value. repeat split; assumption.
Defined.

(** X22. The estimate always returns a value: the initial value itself for
    an age of zero or less, whatever the mileage; and for a non-negative
    initial value, a value between 4% of it and the whole of it. *)
Theorem estimate_current_value_bounds
        (initial_value : Q) (vehicle_make vehicle_model : string)
        (vehicle_age current_mileage : Z) :
  0 <= initial_value ->
  exists value,
    estimate_current_value initial_value vehicle_make vehicle_model
                           vehicle_age current_mileage = inr value
    /\ initial_value * 0.04 <= value
    /\ value <= initial_value
    /\ ((vehicle_age <= 0)%Z -> value = initial_value).
Proof.
  intro Hi.
  destruct (Z_le_gt_dec vehicle_age 0) as [ Hnew | Hold ].
  - exists initial_value. unfold estimate_current_value.
    replace (vehicle_age <=? 0)%Z with true by (symmetry; apply Z.leb_le; lia).
    split; [ reflexivity | ]. repeat split; try lra.
  - destruct (@estimate_current_value_returns initial_value vehicle_make
                vehicle_model vehicle_age current_mileage ltac:(lia))
      as (base & _ & Hpos & Hestimate).
    eexists. split; [ exact Hestimate | ].
    pose proof (brand_multiplier_positive vehicle_make) as Hbrand.
    pose proof (@adjusted_brand_multiplier_positive vehicle_make vehicle_model
                  _ Hbrand) as Hadjusted.
    pose proof (mileage_impact_range
                  (inject_Z current_mileage / inject_Z vehicle_age)) as [ Hm _ ].
    destruct (cap_in_range (_classify_vehicle_segment vehicle_make vehicle_model))
      as [ Hcap0 Hcap1 ].
    assert (Hbase0 : 0 <= base) by lra.
    assert (Hm0 : 0 <= _calculate_mileage_impact
                         (inject_Z current_mileage / inject_Z vehicle_age))
      by lra.
    pose proof (@scaled_rate_nonneg base _ _
                  Hbase0 (Qlt_le_weak _ _ Hadjusted) Hm0) as Hscaled.
    destruct (@min_in_range _ _ Hscaled Hcap0) as [ Hmin0 Hmin1 ].
    destruct (@kept_value_bounds initial_value _ Hi Hmin0 ltac:(lra))
      as [ Hlow Hhigh ].
    split; [ exact Hlow | ]. split; [ exact Hhigh | ]. intro. lia.
Qed.

Lemma estimate_current_value_bounds_witness :
  exists value,
    estimate_current_value 28000 "Toyota" "Camry" 0 5000 = inr value
    /\ value = 28000.
Proof.
  destruct (@estimate_current_value_bounds 28000 "Toyota" "Camry" 0 5000
              ltac:(lra)) as (value & Hvalue & _ & _ & Hnew).
  exists value. split; [ exact Hvalue | apply Hnew; lia ].
Defined.

(** The last row of a schedule over one or more years. *)
Lemma schedule_loop_final (initial_value : Q) (segment : string)
      (brand mileage : Q) (n : nat) :
  forall (lo : Z) (schedule result : list DepRow.t),
    schedule_loop initial_value segment brand mileage
                  (Py.range_from lo (S n)) schedule = inr result ->
    exists final base,
      last_row result = inr final
      /\ result <> []
      /\ _get_cumulative_depreciation_rate (lo + Z.of_nat n)%Z segment = inr base
      /\ DepRow.vehicle_value final
         = initial_value
           * (1 - Py.min (base * brand * mileage)
                         (Py.dict_get max_depreciation segment 0.92)).
Proof.
  induction n as [ | n IH ]; intros lo schedule result H.
  - cbn [Py.range_from schedule_loop] in H.
    destruct (schedule_step initial_value segment brand mileage schedule lo)
      as [ e | row ] eqn:Hstep; simpl in H; [ discriminate H | ].
    inversion H; subst result.
    destruct (schedule_step_row _ _ _ _ _ _ Hstep) as (base & Hbase & _ & Hvalue).
    exists row, base. unfold last_row. rewrite rev_app_distr. simpl.
    replace (lo + 0)%Z with lo by lia.
    repeat split; try assumption.
    intro C. apply app_eq_nil in C. destruct C as [ _ C ]. discriminate C.
  - cbn [Py.range_from schedule_loop] in H.
    destruct (schedule_step initial_value segment brand mileage schedule lo)
      as [ e | row ] eqn:Hstep; simpl in H; [ discriminate H | ].
    destruct (IH (lo + 1)%Z _ _ H) as (final & base & Hlast & Hne & Hbase & Hvalue).
    exists final, base.
    replace (lo + Z.of_nat (S n))%Z with (lo + 1 + Z.of_nat n)%Z by lia.
    repeat split; assumption.
Qed.

(** X23. Whenever the insights are computed for a non-negative initial
    value, the three scenarios are low, average and high mileage in this
    order, and driving more never leaves a higher final value. *)
Theorem depreciation_scenarios_are_ordered
        (vehicle_make vehicle_model : string) (initial_value : Q) (years : Z)
        (insights : Insights.t) :
  0 <= initial_value ->
  get_depreciation_insights vehicle_make vehicle_model initial_value years
  = inr insights ->
  exists low average high,
    Insights.scenarios insights
    = [("low"%string, low); ("average"%string, average); ("high"%string, high)]
    /\ high <= average /\ average <= low.
Proof.
  intros Hi H. unfold get_depreciation_insights in H.
  destruct (scenarios_loop initial_value vehicle_make vehicle_model years
                           scenario_mileages []) as [ e | scenarios ] eqn:S;
    simpl in H; [ discriminate H | ].
  inversion H; subst insights; clear H. cbn [Insights.scenarios].
  unfold scenario_mileages in S. cbn [scenarios_loop] in S.
  unfold calculate_depreciation_schedule, Py.range1 in S.
  pose proof (brand_multiplier_positive vehicle_make) as Hbrand.
  pose proof (@adjusted_brand_multiplier_positive vehicle_make vehicle_model
                _ Hbrand) as Hadjusted.
  set (segment := _classify_vehicle_segment vehicle_make vehicle_model) in *.
  set (brand := _apply_model_specific_adjustments vehicle_make vehicle_model
                  (Py.dict_get brand_multipliers vehicle_make 1.0)) in *.
  destruct (Z.to_nat years) as [ | n ].
  - (* no year: every scenario is 0 *)
    simpl in S. inversion S; subst scenarios.
    exists 0, 0, 0. split; [ reflexivity | split; lra ].
  - repeat match type of S with
           | Py.bind (schedule_loop ?i ?s ?b ?m ?ys ?acc) _ = inr _ =>
               let E := fresh "E" in
               let schedule := fresh "schedule" in
               destruct (schedule_loop i s b m ys acc) as [ ? | schedule ] eqn:E;
               [ discriminate S | ];
               let final := fresh "final" in
               let base := fresh "base" in
               let Hlast := fresh "Hlast" in
               let Hne := fresh "Hne" in
               let Hbase := fresh "Hbase" in
               let Hvalue := fresh "Hvalue" in
               destruct (schedule_loop_final _ _ _ _ _ _ _ E)
                 as (final & base & Hlast & Hne & Hbase & Hvalue);
               cbn [Py.bind] in S;
               destruct schedule as [ | ? ? ]; [ contradiction Hne; reflexivity | ];
               rewrite Hlast in S; cbn [Py.bind Py.ret] in S
           end.
    cbn in S. inversion S; subst scenarios. clear S.
    do 3 eexists. split; [ reflexivity | ].
    rewrite Hvalue, Hvalue0, Hvalue1.
    rewrite Hbase in Hbase0, Hbase1.
    inversion Hbase0; subst base0. inversion Hbase1; subst base1.
    destruct (@cumulative_rate_bounds (1 + Z.of_nat n)%Z segment ltac:(lia))
      as (base' & Hbase' & Hpos & _).
    rewrite Hbase in Hbase'. inversion Hbase'; subst base'.
    assert (Hscale : forall m1 m2, m1 <= m2 ->
                                   base * brand * m1 <= base * brand * m2).
    { intros m1 m2 Hm.
      rewrite (Qmult_comm (base * brand) m1), (Qmult_comm (base * brand) m2).
      apply Qmult_le_compat_r; [ exact Hm | ].
      apply Qmult_le_0_compat; lra. }
    split; apply kept_value_antitone; try exact Hi;
      apply min_monotone; apply Hscale; apply mileage_impact_rises;
      unfold inject_Z, Qle; simpl; lia.
Qed.

Lemma depreciation_scenarios_are_ordered_witness :
  exists insights high average low,
    get_depreciation_insights "Toyota" "Camry" 28000 5 = inr insights
    /\ Insights.scenarios insights
       = [("low"%string, low); ("average"%string, average);
          ("high"%string, high)]
    /\ high <= average /\ average <= low.
Proof.
  destruct (get_depreciation_insights "Toyota" "Camry" 28000 5)
    as [ e | insights ] eqn:E.
  - vm_compute in E. discriminate E.
  - destruct (@depreciation_scenarios_are_ordered "Toyota" "Camry" 28000 5
                insights ltac:(lra) E) as (low & average & high & Hs & H1 & H2).
    exists insights, high, average, low. repeat split; assumption.
Defined.

End Estimates.

(** ** Annual maintenance estimates of the calculator *)

Section AnnualMaintenance.

Import MaintenanceCalculator.
Import Spec.
Open Scope Q_scope.
Open Scope list_scope.

Ltac compare_thresholds :=
  repeat match goal with
         | |- context [ Py.Qleb ?a ?b ] =>
             let E := fresh "E" in
             destruct (Py.Qleb a b) eqn:E;
             [ apply Qleb_true in E | apply Qleb_false in E ]
         end.

(** X24. Both ratings are monotone: a larger brand multiplier never earns a
    better retention rating from the depreciation model, nor a better
    reliability rating from the maintenance calculator. *)
Theorem ratings_are_monotone :
  (forall m1 m2,
      m1 <= m2 ->
      (rating_rank (EnhancedDepreciationModel._get_retention_rating m1)
       <= rating_rank (EnhancedDepreciationModel._get_retention_rating m2))%nat)
  /\ (forall make1 make2,
         Py.dict_get brand_multipliers make1 1.0
         <= Py.dict_get brand_multipliers make2 1.0 ->
         (rating_rank (_get_reliability_rating make1)
          <= rating_rank (_get_reliability_rating make2))%nat).
Proof.
  split.
  - intros m1 m2 H. unfold EnhancedDepreciationModel._get_retention_rating.
    compare_thresholds;
      first [ exfalso; lra | vm_compute; lia ].
  - intros make1 make2 H. unfold _get_reliability_rating.
    set (m1 := Py.dict_get brand_multipliers make1 1.0) in *.
    set (m2 := Py.dict_get brand_multipliers make2 1.0) in *.
    clearbody m1 m2.
    compare_thresholds;
      first [ exfalso; lra | vm_compute; lia ].
Qed.

Lemma maintenance_brand_multiplier_positive (make : string) :
  0 < Py.dict_get brand_multipliers make 1.0.
Proof.
  destruct (dict_get_in brand_multipliers make 1.0) as [ H | H ];
    [ rewrite <- H; lra | ].
  simpl in H.
  repeat (destruct H as [ H | H ]; [ rewrite <- H; lra | ]).
  contradiction.
Qed.

Lemma calculator_shop_multiplier_positive (shop_type : string) :
  0 < Py.dict_get shop_multipliers shop_type 1.0.
Proof.
  destruct (dict_get_in shop_multipliers shop_type 1.0) as [ H | H ];
    [ rewrite <- H; lra | ].
  simpl in H.
  repeat (destruct H as [ H | H ]; [ rewrite <- H; lra | ]).
  contradiction.
Qed.

Lemma driving_multiplier_positive (driving_style : string) :
  0 < Py.dict_get driving_multipliers driving_style 1.0.
Proof.
  destruct (dict_get_in driving_multipliers driving_style 1.0) as [ H | H ];
    [ rewrite <- H; lra | ].
  simpl in H.
  repeat (destruct H as [ H | H ]; [ rewrite <- H; lra | ]).
  contradiction.
Qed.

Lemma routine_maintenance_closed_form
      (annual_mileage vehicle_age : Z) (vehicle_make shop_type : string)
      (regional_multiplier : Q) :
  exists cost,
    _calculate_routine_maintenance annual_mileage vehicle_age vehicle_make
                                   shop_type regional_multiplier = inr cost
    /\ cost == (37 # 750) * inject_Z annual_mileage
               * Py.dict_get brand_multipliers vehicle_make 1.0
               * Py.dict_get shop_multipliers shop_type 1.0
               * regional_multiplier.
Proof.
  unfold _calculate_routine_maintenance, service_intervals.
  cbn [routine_loop].
  repeat (rewrite div_nonzero by (apply inject_Z_nonzero; lia);
          cbn [Py.bind Py.ret]).
  eexists. split; [ reflexivity | ].
  cbv [service_costs].
  set (brand := Py.dict_get brand_multipliers vehicle_make 1.0).
  set (shop := Py.dict_get shop_multipliers shop_type 1.0).
  set (miles := inject_Z annual_mileage).
  clearbody brand shop miles.
  change (inject_Z 65) with 65. change (inject_Z 25) with 25.
  change (inject_Z 35) with 35. change (inject_Z 45) with 45.
  change (inject_Z 50) with 50. change (inject_Z 200) with 200.
  change (inject_Z 150) with 150. change (inject_Z 180) with 180.
  change (inject_Z 400) with 400. change (inject_Z 120) with 120.
  change (inject_Z 85) with 85.
  change (inject_Z 7500) with 7500. change (inject_Z 15000) with 15000.
  change (inject_Z 60000) with 60000. change (inject_Z 45000) with 45000.
  change (inject_Z 30000) with 30000.
  field.
Qed.

(** X25. Routine maintenance is always computed, and is proportional to the
    annual mileage: 37/750 dollar a mile (the service costs divided by
    their intervals, summed) times the brand, shop and regional
    multipliers. It does not depend on the age of the vehicle. *)
Theorem routine_maintenance_is_proportional
        (annual_mileage vehicle_age : Z) (vehicle_make shop_type : string)
        (regional_multiplier : Q) :
  (exists cost,
      _calculate_routine_maintenance annual_mileage vehicle_age vehicle_make
                                     shop_type regional_multiplier = inr cost
      /\ cost == (37 # 750) * inject_Z annual_mileage
                 * Py.dict_get brand_multipliers vehicle_make 1.0
                 * Py.dict_get shop_multipliers shop_type 1.0
                 * regional_multiplier)
  /\ (forall other_age,
         _calculate_routine_maintenance annual_mileage other_age vehicle_make
                                        shop_type regional_multiplier
         = _calculate_routine_maintenance annual_mileage vehicle_age vehicle_make
                                          shop_type regional_multiplier).
Proof.
  split; [ apply routine_maintenance_closed_form | reflexivity ].
Qed.

(** The age multiplier of the wear cost. *)
Lemma age_multiplier_value (vehicle_age : Z) :
  Py.get (Py.assoc Z.eqb (Z.min vehicle_age 10) age_multipliers) 2.5
  = if (vehicle_age <=? 0)%Z then 2.5
    else if (vehicle_age =? 1)%Z then 0.7
    else if (vehicle_age =? 2)%Z then 0.8
    else if (vehicle_age =? 3)%Z then 1.0
    else if (vehicle_age =? 4)%Z then 1.1
    else if (vehicle_age =? 5)%Z then 1.2
    else if (vehicle_age =? 6)%Z then 1.4
    else if (vehicle_age =? 7)%Z then 1.6
    else if (vehicle_age =? 8)%Z then 1.8
    else if (vehicle_age =? 9)%Z then 2.0
    else 2.2.
Proof.
  assert (C : (vehicle_age <= 0 \/ vehicle_age = 1 \/ vehicle_age = 2
               \/ vehicle_age = 3 \/ vehicle_age = 4 \/ vehicle_age = 5
               \/ vehicle_age = 6 \/ vehicle_age = 7 \/ vehicle_age = 8
               \/ vehicle_age = 9 \/ 10 <= vehicle_age)%Z) by lia.
  destruct C as [ C | C ].
  - rewrite Z.min_l by lia.
    replace (vehicle_age <=? 0)%Z with true by (symmetry; apply Z.leb_le; lia).
    unfold age_multipliers. cbn [Py.assoc].
    repeat match goal with
           | |- context [ (vehicle_age =? ?k)%Z ] =>
               replace (vehicle_age =? k)%Z with false
                 by (symmetry; apply Z.eqb_neq; lia)
           end.
    reflexivity.
  - repeat (destruct C as [ C | C ]; [ subst vehicle_age; reflexivity | ]).
    rewrite Z.min_r by lia.
    replace (vehicle_age <=? 0)%Z with false by (symmetry; apply Z.leb_gt; lia).
    repeat match goal with
           | |- context [ (vehicle_age =? ?k)%Z ] =>
               replace (vehicle_age =? k)%Z with false
                 by (symmetry; apply Z.eqb_neq; lia)
           end.
    reflexivity.
Qed.

Lemma age_multiplier_order (age1 age2 : Z) :
  let factor age :=
    Py.get (Py.assoc Z.eqb (Z.min age 10) age_multipliers) 2.5 in
  ((1 <= age1 <= age2)%Z -> factor age1 <= factor age2)
  /\ ((age1 <= 0)%Z -> factor age2 <= factor age1).
Proof.
  cbv beta zeta.
  rewrite (age_multiplier_value age1), (age_multiplier_value age2).
  split; intro H;
    repeat match goal with
           | |- context [ (?a <=? ?b)%Z ] =>
               let E := fresh "E" in
               destruct (a <=? b)%Z eqn:E;
               [ apply Z.leb_le in E | apply Z.leb_gt in E ]
           | |- context [ (?a =? ?b)%Z ] =>
               let E := fresh "E" in
               destruct (a =? b)%Z eqn:E;
               [ apply Z.eqb_eq in E | apply Z.eqb_neq in E ]
           end;
    first [ lra | exfalso; lia ].
Qed.

Lemma wear_mileage_multiplier_positive (annual_mileage : Z) :
  1 <= 1.0 + (inject_Z (Z.max 0 (annual_mileage - 12000)) / 12000) * 0.3.
Proof.
  assert (H : 0 <= inject_Z (Z.max 0 (annual_mileage - 12000))).
  { unfold inject_Z, Qle. simpl. lia. }
  unfold Qdiv. setoid_replace (/ 12000) with (1 # 12000) by reflexivity. lra.
Qed.

(** X26. For a non-negative regional multiplier the wear cost never falls
    as the vehicle ages from year 1 on, but an age of zero or less is
    charged the default factor 2.5, more than any age of the table: no age
    costs more than age zero. *)
Theorem wear_maintenance_by_age
        (annual_mileage : Z) (driving_style vehicle_make shop_type : string)
        (regional_multiplier : Q) :
  0 <= regional_multiplier ->
  (forall age1 age2,
      (1 <= age1 <= age2)%Z ->
      _calculate_wear_maintenance age1 annual_mileage driving_style vehicle_make
                                  shop_type regional_multiplier
      <= _calculate_wear_maintenance age2 annual_mileage driving_style
                                     vehicle_make shop_type regional_multiplier)
  /\ (forall age0 age,
         (age0 <= 0)%Z ->
         _calculate_wear_maintenance age annual_mileage driving_style vehicle_make
                                     shop_type regional_multiplier
         <= _calculate_wear_maintenance age0 annual_mileage driving_style
                                        vehicle_make shop_type
                                        regional_multiplier).
Proof.
  intro Hregional.
  pose proof (maintenance_brand_multiplier_positive vehicle_make) as Hbrand.
  pose proof (calculator_shop_multiplier_positive shop_type) as Hshop.
  pose proof (driving_multiplier_positive driving_style) as Hdriving.
  pose proof (wear_mileage_multiplier_positive annual_mileage) as Hmileage.
  assert (K : forall a1 a2,
             Py.get (Py.assoc Z.eqb (Z.min a1 10) age_multipliers) 2.5
             <= Py.get (Py.assoc Z.eqb (Z.min a2 10) age_multipliers) 2.5 ->
             _calculate_wear_maintenance a1 annual_mileage driving_style
               vehicle_make shop_type regional_multiplier
             <= _calculate_wear_maintenance a2 annual_mileage driving_style
                  vehicle_make shop_type regional_multiplier).
  { intros a1 a2 H. unfold _calculate_wear_maintenance.
    set (f1 := Py.get (Py.assoc Z.eqb (Z.min a1 10) age_multipliers) 2.5) in *.
    set (f2 := Py.get (Py.assoc Z.eqb (Z.min a2 10) age_multipliers) 2.5) in *.
    set (d := Py.dict_get driving_multipliers driving_style 1.0) in *.
    set (m := 1.0 + inject_Z (Z.max 0 (annual_mileage - 12000)) / 12000 * 0.3)
      in *.
    set (b := Py.dict_get brand_multipliers vehicle_make 1.0) in *.
    set (s := Py.dict_get shop_multipliers shop_type 1.0) in *.
    clearbody f1 f2 d m b s.
    repeat apply Qmult_le_compat_r; lra. }
  split.
  - intros age1 age2 H. apply K.
    apply (proj1 (age_multiplier_order age1 age2) H).
  - intros age0 age H. apply K.
    apply (proj2 (age_multiplier_order age0 age) H).
Qed.

Lemma wear_maintenance_by_age_witness :
  _calculate_wear_maintenance 10 12000 "normal" "Toyota" "independent" 1
  <= _calculate_wear_maintenance 0 12000 "normal" "Toyota" "independent" 1.
Proof.
  apply (proj2 (@wear_maintenance_by_age 12000 "normal" "Toyota" "independent" 1
                  ltac:(lra)) 0%Z 10%Z).
  lia.
Defined.

(** X27. The lease maintenance is always computed: it is the annual
    maintenance at a dealership for a normal driving style, less the
    warranty discount that the orchestrator also applies to lease
    schedules (60% up to year 2, 40% in year 3, 20% after); the model year
    of the vehicle plays no part. *)
Theorem lease_maintenance_share
        (vehicle_make : string) (vehicle_year lease_year annual_mileage : Z)
        (regional_multiplier : Q) :
  (exists base_cost cost,
      calculate_annual_maintenance vehicle_make vehicle_year lease_year
        annual_mileage "normal" "dealership" regional_multiplier = inr base_cost
      /\ calculate_lease_maintenance vehicle_make vehicle_year lease_year
           annual_mileage regional_multiplier = inr cost
      /\ cost == base_cost
                 * (1 - PredictionService.lease_warranty_discount lease_year))
  /\ (forall other_year,
         calculate_lease_maintenance vehicle_make other_year lease_year
                                     annual_mileage regional_multiplier
         = calculate_lease_maintenance vehicle_make vehicle_year lease_year
                                       annual_mileage regional_multiplier).
Proof.
  split; [ | reflexivity ].
  unfold calculate_lease_maintenance, calculate_annual_maintenance.
  destruct (routine_maintenance_closed_form annual_mileage lease_year
              vehicle_make "dealership" regional_multiplier)
    as (routine & -> & _).
  cbn [Py.bind Py.ret].
  do 2 eexists. split; [ reflexivity | ]. split; [ reflexivity | ].
  unfold PredictionService.lease_warranty_discount.
  destruct (lease_year <=? 2)%Z; [ reflexivity | ].
  destruct (lease_year <=? 3)%Z; reflexivity.
Qed.

End AnnualMaintenance.

(** ** The maintenance comparison *)

Section MaintenanceComparison.

Import MaintenanceCalculator.
Import Spec.
Open Scope Q_scope.
Open Scope list_scope.

Lemma insert_by_permutation {A} (key : A -> Q) (x : A) (sorted : list A) :
  Permutation (Py.insert_by key x sorted) (x :: sorted).
Proof.
  induction sorted as [ | y rest IH ]; simpl.
  - apply Permutation_refl.
  - destruct (Py.Qltb (key x) (key y)).
    + apply Permutation_refl.
    + apply Permutation_trans with (y :: x :: rest).
      * apply perm_skip. exact IH.
      * apply perm_swap.
Qed.

Lemma sort_by_permutation {A} (key : A -> Q) (xs : list A) :
  Permutation (Py.sort_by key xs) xs.
Proof.
  unfold Py.sort_by.
  assert (G : forall acc,
             Permutation
               (fold_left (fun sorted x => Py.insert_by key x sorted) xs acc)
               (xs ++ acc)).
  { induction xs as [ | x xs IH ]; intro acc; simpl.
    - apply Permutation_refl.
    - apply Permutation_trans with (xs ++ Py.insert_by key x acc).
      + apply IH.
      + apply Permutation_trans with (xs ++ x :: acc).
        * apply Permutation_app_head. apply insert_by_permutation.
        * apply Permutation_sym. apply Permutation_middle. }
  specialize (G []). rewrite app_nil_r in G. exact G.
Qed.

Lemma insert_by_sorted {A} (key : A -> Q) (x : A) (sorted : list A) :
  StronglySorted (fun a b => key a <= key b) sorted ->
  StronglySorted (fun a b => key a <= key b) (Py.insert_by key x sorted).
Proof.
  induction 1 as [ | y rest Hrest IH Hy ]; simpl.
  - constructor; constructor.
  - destruct (Py.Qltb (key x) (key y)) eqn:E.
    + apply Qltb_true in E.
      constructor; [ constructor; assumption | ].
      constructor; [ lra | ].
      eapply Forall_impl; [ | exact Hy ]. intros a Ha. simpl in Ha. lra.
    + apply Qltb_false in E.
      constructor; [ exact IH | ].
      apply (Permutation_Forall (Permutation_sym (insert_by_permutation key x rest))).
      constructor; [ exact E | exact Hy ].
Qed.

Lemma sort_by_sorted {A} (key : A -> Q) (xs : list A) :
  StronglySorted (fun a b => key a <= key b) (Py.sort_by key xs).
Proof.
  unfold Py.sort_by.
  assert (G : forall acc,
             StronglySorted (fun a b => key a <= key b) acc ->
             StronglySorted (fun a b => key a <= key b)
               (fold_left (fun sorted x => Py.insert_by key x sorted) xs acc)).
  { induction xs as [ | x xs IH ]; intros acc Hacc; simpl.
    - exact Hacc.
    - apply IH. apply insert_by_sorted. exact Hacc. }
  apply G. constructor.
Qed.

(** In a sorted list, no key exceeds the last one. *)
Lemma sorted_last {A} (key : A -> Q) (xs : list A) (z : A) :
  StronglySorted (fun a b => key a <= key b) xs ->
  nth_error xs (List.length xs - 1) = Some z ->
  Forall (fun a => key a <= key z) xs.
Proof.
  induction 1 as [ | y rest Hrest IH Hy ]; intro Hz.
  - constructor.
  - destruct rest as [ | y' rest' ].
    + simpl in Hz. inversion Hz; subst z. constructor; [ lra | constructor ].
    + assert (Hz' : nth_error (y' :: rest') (List.length (y' :: rest') - 1)
                    = Some z).
      { simpl in Hz. simpl. rewrite Nat.sub_0_r. exact Hz. }
      constructor.
      * rewrite Forall_forall in Hy. apply Hy.
        apply (nth_error_In _ _ Hz').
      * apply IH. exact Hz'.
Qed.

Lemma comparison_row_average (vehicle : Vehicle.t) (years : Z)
      (row : ComparisonRow.t) :
  comparison_row vehicle years = inr row ->
  years <> 0%Z
  /\ ComparisonRow.average_annual_cost row * inject_Z years
     == ComparisonRow.total_maintenance_cost row.
Proof.
  intro H. unfold comparison_row in H.
  destruct (comparison_years vehicle (Py.range1 years) 0) as [ e | total ];
    simpl in H; [ discriminate H | ].
  destruct (Py.subscript (Py.StrKey "year") (Vehicle.year vehicle))
    as [ e | vehicle_year ]; simpl in H; [ discriminate H | ].
  destruct (Py.subscript (Py.StrKey "make") (Vehicle.make vehicle))
    as [ e | make ]; simpl in H; [ discriminate H | ].
  destruct (Py.subscript (Py.StrKey "model") (Vehicle.model vehicle))
    as [ e | model ]; simpl in H; [ discriminate H | ].
  unfold Py.div in H.
  destruct (Py.Qeqb (inject_Z years) 0) eqn:E; simpl in H; [ discriminate H | ].
  apply Qeqb_false in E.
  inversion H; subst row; clear H.
  cbn [ComparisonRow.average_annual_cost ComparisonRow.total_maintenance_cost].
  split.
  - intro C. subst years. apply E. reflexivity.
  - field. exact E.
Qed.

Lemma comparison_loop_rows (years : Z) (vehicles : list Vehicle.t) :
  forall (acc result : list ComparisonRow.t),
    comparison_loop vehicles years acc = inr result ->
    List.length result = (List.length acc + List.length vehicles)%nat
    /\ (Forall (fun row =>
                  ComparisonRow.average_annual_cost row * inject_Z years
                  == ComparisonRow.total_maintenance_cost row) acc ->
        Forall (fun row =>
                  ComparisonRow.average_annual_cost row * inject_Z years
                  == ComparisonRow.total_maintenance_cost row) result)
    /\ (vehicles <> [] -> years <> 0%Z).
Proof.
  induction vehicles as [ | vehicle vehicles IH ]; intros acc result H.
  - simpl in H. inversion H; subst result.
    split; [ simpl; lia | ]. split; [ auto | ].
    intro C. contradiction C. reflexivity.
  - simpl in H.
    destruct (comparison_row vehicle years) as [ e | row ] eqn:E; simpl in H;
      [ discriminate H | ].
    destruct (comparison_row_average _ _ E) as [ Hyears Hrow ].
    destruct (IH _ _ H) as (Hlen & Hall & _).
    split; [ rewrite Hlen, length_app; simpl; lia | ].
    split; [ | intros _; exact Hyears ].
    intro Hacc. apply Hall. apply Forall_app. split; [ exact Hacc | ].
    constructor; [ exact Hrow | constructor ].
Qed.

(** X28. A comparison of no vehicle raises IndexError. A comparison that
    returns lists as many rows as vehicles, in ascending order of total
    cost; the rows reported as lowest and highest bound every row; the
    cost difference is not negative; every average times the number of
    years gives back the total; and the list of vehicles was not empty nor
    the number of years zero. *)
Theorem maintenance_comparison_is_sorted :
  (forall years,
      calculate_maintenance_comparison [] years = inl Py.IndexError)
  /\ (forall vehicles years comparison,
         calculate_maintenance_comparison vehicles years = inr comparison ->
         ascending_cost (Comparison.vehicles comparison)
         /\ List.length (Comparison.vehicles comparison) = List.length vehicles
         /\ Forall (comparison_row_is_sound years
                      (Comparison.lowest_cost comparison)
                      (Comparison.highest_cost comparison))
                   (Comparison.vehicles comparison)
         /\ 0 <= Comparison.cost_difference comparison
         /\ vehicles <> []
         /\ years <> 0%Z).
Proof.
  split; [ reflexivity | ].
  intros vehicles years comparison H.
  unfold calculate_maintenance_comparison in H.
  destruct (comparison_loop vehicles years []) as [ e | rows ] eqn:L;
    simpl in H; [ discriminate H | ].
  destruct (comparison_loop_rows _ _ _ L) as (Hlen & Hall & Hyears).
  specialize (Hall (Forall_nil _)).
  pose proof (sort_by_permutation ComparisonRow.total_maintenance_cost rows)
    as Hperm.
  pose proof (sort_by_sorted ComparisonRow.total_maintenance_cost rows)
    as Hsorted.
  set (sorted := Py.sort_by ComparisonRow.total_maintenance_cost rows) in *.
  clearbody sorted.
  unfold Py.item in H. cbn [Z.ltb Z.compare] in H.
  replace (0 <? 0)%Z with false in H by reflexivity.
  replace (-1 <? 0)%Z with true in H by reflexivity.
  destruct sorted as [ | lowest rest ] eqn:S; [ simpl in H; discriminate H | ].
  rewrite <- S in *.
  assert (N : (0 < List.length sorted)%nat) by (rewrite S; simpl; lia).
  replace (nth_error sorted (Z.to_nat 0)) with (Some lowest) in H
    by (rewrite S; reflexivity).
  cbn [Py.bind Py.ret] in H.
  replace (Py.len sorted + -1 <? 0)%Z with false in H
    by (symmetry; apply Z.ltb_ge; unfold Py.len; lia).
  destruct (nth_error sorted (Z.to_nat (Py.len sorted + -1)))
    as [ highest | ] eqn:Hlast; simpl in H; [ | discriminate H ].
  replace (Z.to_nat (Py.len sorted + -1)) with (List.length sorted - 1)%nat
    in Hlast by (unfold Py.len; lia).
  inversion H; subst comparison; clear H.
  cbn [Comparison.vehicles Comparison.lowest_cost Comparison.highest_cost
       Comparison.cost_difference].
  pose proof (sorted_last _ Hsorted Hlast) as Hhigh.
  assert (Hlow : Forall (fun a =>
                           ComparisonRow.total_maintenance_cost lowest
                           <= ComparisonRow.total_maintenance_cost a) sorted).
  { rewrite S in Hsorted |- *. inversion Hsorted; subst.
    constructor; [ lra | assumption ]. }
  assert (Hn : List.length sorted = List.length vehicles).
  { rewrite (Permutation_length Hperm), Hlen. reflexivity. }
  split; [ exact Hsorted | ]. split; [ exact Hn | ].
  split; [ | split; [ | split ] ].
  - pose proof (Permutation_Forall (Permutation_sym Hperm) Hall) as Havg.
    rewrite Forall_forall in *. intros row Hin.
    unfold comparison_row_is_sound. repeat split; auto.
  - rewrite Forall_forall in Hhigh.
    specialize (Hhigh lowest). rewrite S in Hhigh.
    specialize (Hhigh (or_introl eq_refl)). lra.
  - intro C. subst vehicles. simpl in Hn. lia.
  - apply Hyears. intro C. subst vehicles. simpl in Hn. lia.
Qed.

(** A Toyota and a BMW over five years: the Toyota comes first. *)
Lemma maintenance_comparison_is_sorted_witness :
  exists comparison,
    calculate_maintenance_comparison
      [ {| Vehicle.make := Some "BMW"%string; Vehicle.year := Some 2020%Z;
           Vehicle.model := Some "3 Series"%string;
           Vehicle.annual_mileage := None; Vehicle.driving_style := None;
           Vehicle.shop_type := None; Vehicle.regional_multiplier := None |};
        {| Vehicle.make := Some "Toyota"%string; Vehicle.year := Some 2020%Z;
           Vehicle.model := Some "Camry"%string;
           Vehicle.annual_mileage := None; Vehicle.driving_style := None;
           Vehicle.shop_type := None; Vehicle.regional_multiplier := None |} ]
      5 = inr comparison
    /\ ComparisonRow.vehicle (Comparison.lowest_cost comparison)
       = "2020 Toyota Camry"%string
    /\ 0 <= Comparison.cost_difference comparison.
Proof.
  destruct (calculate_maintenance_comparison
              [ {| Vehicle.make := Some "BMW"%string; Vehicle.year := Some 2020%Z;
                   Vehicle.model := Some "3 Series"%string;
                   Vehicle.annual_mileage := None; Vehicle.driving_style := None;
                   Vehicle.shop_type := None;
                   Vehicle.regional_multiplier := None |};
                {| Vehicle.make := Some "Toyota"%string;
                   Vehicle.year := Some 2020%Z;
                   Vehicle.model := Some "Camry"%string;
                   Vehicle.annual_mileage := None; Vehicle.driving_style := None;
                   Vehicle.shop_type := None;
                   Vehicle.regional_multiplier := None |} ] 5)
    as [ e | comparison ] eqn:E.
  - vm_compute in E. discriminate E.
  - exists comparison. split; [ reflexivity | ]. split.
    + vm_compute in E. inversion E. reflexivity.
    + destruct (proj2 maintenance_comparison_is_sorted _ _ _ E)
        as (_ & _ & _ & Hdiff & _).
      exact Hdiff.
Defined.

End MaintenanceComparison.

(** ** The display structure *)

Section Display.

Import PredictionService.
Import Spec.
Open Scope Q_scope.
Open Scope list_scope.

Variable self : Collaborators.t.
Variable now : Datetime.t.

(** X29. For a purchase result the display structure agrees with the
    summary: its total cost is the out-of-pocket total, its total TCO,
    recomputed from the categories, is the summary's total with
    depreciation, and its annual cost times the horizon is its total cost.
    For a lease result the display total leaves out the lease payments,
    the fees and the down payment: adding them gives the total lease
    cost. *)
Theorem display_totals_agree :
  (forall input_data vc regional analysis_years price current_mileage ds fs ms r,
      purchase_costs self input_data vc regional analysis_years price
                     current_mileage ds fs ms = inr r ->
      let display := _update_results_structure_for_display (Purchase r) in
      DisplayResults.total_cost display
      == PurchaseSummary.total_ownership_cost (PurchaseResult.summary r)
      /\ DisplayResults.total_cost display == PurchaseResult.display_total_cost r
      /\ DisplayResults.total_tco display
         == PurchaseSummary.total_tco_with_depreciation (PurchaseResult.summary r)
      /\ DisplayResults.annual_cost display * inject_Z analysis_years
         == DisplayResults.total_cost display)
  /\ (forall input_data vc regional r,
         _calculate_lease_tco self now input_data vc regional = inr r ->
         let display := _update_results_structure_for_display (Lease r) in
         DisplayResults.total_cost display
         + LeaseTotals.lease_payments (LeaseResult.category_totals r)
         + LeaseTotals.fees_penalties (LeaseResult.category_totals r)
         + LeaseSummary.down_payment (LeaseResult.summary r)
         == LeaseSummary.total_lease_cost (LeaseResult.summary r)
         /\ DisplayResults.total_tco display == DisplayResults.total_cost display
         /\ DisplayResults.final_value display == 0).
Proof.
  split.
  - intros input_data vc regional analysis_years price current_mileage ds fs ms
           r H.
    unfold purchase_costs in H.
    destruct (purchase_loop self input_data vc regional price current_mileage
                            ds fs ms (Py.range1 analysis_years) []
                            initial_purchase_totals)
      as [ e | [ rows totals ] ]; simpl in H; [ discriminate H | ].
    unfold Py.div in H.
    destruct (Py.Qeqb (inject_Z analysis_years) 0) eqn:Z1; simpl in H;
      [ discriminate H | ].
    apply Qeqb_false in Z1.
    repeat match type of H with
           | Py.bind ?m _ = inr _ =>
               destruct m; simpl in H; [ discriminate H | ]
           end.
    inversion H; subst r; clear H. cbn.
    unfold PurchaseTotals.values, Py.sum. cbn [fold_left].
    repeat split; try reflexivity; try lra.
    field. exact Z1.
  - intros input_data vc regional r H. unfold _calculate_lease_tco in H.
    repeat match type of H with
           | Py.bind ?m _ = inr _ =>
               destruct m as [ ? | ? ]; simpl in H; [ discriminate H | ]
           end.
    inversion H; subst r; clear H. cbn.
    unfold LeaseTotals.values, Py.sum. cbn [fold_left].
    repeat split; lra.
Qed.

End Display.

(** ** The two tests for a used vehicle *)

Section UsedDetection.

Import PredictionService.
Import Spec.

(** X30. The orchestrator and the estimator disagree on a vehicle of the
    current model year only: the orchestrator takes it for used above
    3,000 miles, the estimator above 1,000. Whatever the orchestrator
    takes for used, the estimator does too; they differ exactly for a
    current-year vehicle with more than 1,000 and at most 3,000 miles. *)
Theorem used_vehicle_tests_differ
        (now : Datetime.t) (input_data : InputData.t) (current_mileage : Z) :
  (detect_used_vehicle now input_data current_mileage = true ->
   UsedVehicleEstimator.is_used_vehicle
     (Datetime.year now) (InputData.year input_data) current_mileage = true)
  /\ (detect_used_vehicle now input_data current_mileage
      <> UsedVehicleEstimator.is_used_vehicle
           (Datetime.year now) (InputData.year input_data) current_mileage
      <-> (InputData.year input_data = Datetime.year now
           /\ 1000 < current_mileage <= 3000)%Z).
Proof.
  unfold detect_used_vehicle, UsedVehicleEstimator.is_used_vehicle.
  set (year := InputData.year input_data).
  set (current_year := Datetime.year now).
  clearbody year current_year.
  destruct (Z.ltb_spec 0 (current_year - year));
    destruct (Z.eqb_spec (current_year - year) 0);
    destruct (Z.ltb_spec 3000 current_mileage);
    destruct (Z.ltb_spec year current_year);
    destruct (Z.eqb_spec year current_year);
    destruct (Z.ltb_spec 1000 current_mileage);
    cbn [andb];
    try (exfalso; lia);
    (split;
     [ intro; first [ reflexivity | discriminate ]
     | split;
       [ intro C; first [ lia | exfalso; apply C; reflexivity ]
       | intro C; first [ discriminate | exfalso; lia ] ] ]).
Qed.

End UsedDetection.

(** ** Instances of the unconditional properties *)

Section FurtherExamples.

Import PredictionService.
Import Spec.
Open Scope Q_scope.

(** The Camry lease over zero years. *)
Lemma zero_horizon_divides_by_zero_witness :
  _calculate_lease_tco sample_collaborators june_2025 (sample_lease 0)
                       sample_characteristics 1
  = inl Py.ZeroDivisionError.
Proof.
  apply (proj2 (zero_horizon_divides_by_zero sample_collaborators june_2025));
    reflexivity.
Defined.

(** The used BMW is bought in cash. *)
Lemma no_loan_no_financing_cost_witness :
  exists r,
    purchase_costs sample_collaborators sample_used_purchase
      sample_characteristics 1 5 18000 70000
      sample_depreciation_schedule None sample_maintenance_schedule = inr r
    /\ PurchaseTotals.financing (PurchaseResult.category_totals r) == 0.
Proof.
  destruct (purchase_costs sample_collaborators sample_used_purchase
              sample_characteristics 1 5 18000 70000
              sample_depreciation_schedule None sample_maintenance_schedule)
    as [ e | r ] eqn:E.
  - vm_compute in E. discriminate E.
  - exists r. split; [ reflexivity | ].
    apply (proj2 (no_loan_no_financing_cost sample_collaborators)
                 _ _ _ _ _ _ _ _ _ E).
Defined.

(** Beverly Hills: the ZIP code leaves the Californian adjustment alone. *)
Lemma regional_multiplier_range_and_zip_code_witness :
  ZipCodeUtils.get_regional_cost_multiplier "90210" "CA" == 1.1.
Proof.
  apply (proj2 (regional_multiplier_range_and_zip_code "90210" "CA")).
  reflexivity.
Defined.

(** The display structure of the used BMW purchase. *)
Lemma display_totals_agree_witness :
  exists r,
    purchase_costs sample_collaborators sample_used_purchase
      sample_characteristics 1 5 18000 70000
      sample_depreciation_schedule None sample_maintenance_schedule = inr r
    /\ DisplayResults.total_tco
         (_update_results_structure_for_display (Purchase r))
       == PurchaseSummary.total_tco_with_depreciation (PurchaseResult.summary r).
Proof.
  destruct (purchase_costs sample_collaborators sample_used_purchase
              sample_characteristics 1 5 18000 70000
              sample_depreciation_schedule None sample_maintenance_schedule)
    as [ e | r ] eqn:E.
  - vm_compute in E. discriminate E.
  - exists r. split; [ reflexivity | ].
    apply (proj1 (display_totals_agree sample_collaborators june_2025)
                 _ _ _ _ _ _ _ _ _ _ E).
Defined.

End FurtherExamples.
